(** * ISO 38500 governance SDK: evaluation, monitoring and aggregate rules

    A shallow embedding of the Go package [domain] (entities, aggregates,
    the evaluation, direction and monitoring services), of the in-memory
    repositories of package [memory] and of the portfolio and governance
    services of package [application], followed by the properties of the
    scoring engine, of the stores and of the services.

    Conventions of the embedding:
    - Go [int] values are mathematical integers [Z]; every integer the
      engine computes is bounded by a small constant, except where a
      wrap-around is written out ([wrap64]).
    - Go [float64] values are IEEE-754 binary64 numbers, [spec_float] with
      precision 53 and maximal exponent 1024, with round-to-nearest-even
      arithmetic ([SFadd], [SFmul], [SFdiv]).
    - Go string-typed enumerations ([ApplicationStatus], [RiskLevel], ...)
      are strings, so that the [default] branches of the switches exist.
    - [time.Now()] is a parameter [now] of every operation that reads the
      clock: all readings made during one call see the same instant.
    - A Go interface value is a record of the methods the engine calls; an
      interface that the code compares with [nil] is an [option].
    - A Go slice is the list of its elements: every stored entity is a
      value of its own, and no two of them share the array behind a
      slice. *)

From Stdlib Require Import ZArith QArith Qround Ascii String Floats.SpecFloat.
From stdpp Require Import gmap strings list fin_maps.

Local Open Scope string_scope.
Local Open Scope list_scope.
Local Open Scope Z_scope.

(** ** Machine integers *)

Definition minInt64 : Z := - 2 ^ 63.
Definition maxInt64 : Z := 2 ^ 63 - 1.

(** Two's-complement wrap-around of a 64-bit signed integer. *)
Definition wrap64 (z : Z) : Z := (z + 2 ^ 63) mod 2 ^ 64 - 2 ^ 63.

(** ** float64 *)

Module F64.

Definition prec : Z := 53.
Definition emax : Z := 1024.

Definition valid (x : spec_float) : bool := valid_binary prec emax x.

(** Conversion [float64(n)] of an integer, rounding to nearest even. *)
Definition of_int (n : Z) : spec_float := binary_normalize prec emax n 0 false.

Definition add : spec_float -> spec_float -> spec_float := SFadd prec emax.
Definition sub : spec_float -> spec_float -> spec_float := SFsub prec emax.
Definition mul : spec_float -> spec_float -> spec_float := SFmul prec emax.
Definition div : spec_float -> spec_float -> spec_float := SFdiv prec emax.

Definition ltb (x y : spec_float) : bool := SFltb x y.
Definition leb (x y : spec_float) : bool := SFleb x y.
Definition gtb (x y : spec_float) : bool := SFltb y x.
Definition geb (x y : spec_float) : bool := SFleb y x.

(** The decimal constant [n / 10^k] as the compiler rounds it: both
    operands are exact, and the division is correctly rounded. *)
Definition lit (n : Z) (k : Z) : spec_float := div (of_int n) (of_int (10 ^ k)).

(** Conversion [int(x)]: the fraction is discarded (truncation toward
    zero).  Outside the range of int64, and for infinities and NaN, Go
    leaves the result to the implementation; amd64 yields [minInt64]. *)
Definition to_int (x : spec_float) : Z :=
  match x with
  | S754_zero _ => 0
  | S754_finite s m e =>
      let mag := if 0 <=? e then Z.shiftl (Zpos m) e else Z.shiftr (Zpos m) (- e) in
      let z := if s then - mag else mag in
      if (minInt64 <=? z) && (z <=? maxInt64) then z else minInt64
  | _ => minInt64
  end.

End F64.

(** ** Package time *)

Module time.

(** [time.Duration]: a count of nanoseconds in an int64. *)
Definition Duration : Type := Z.

Definition Nanosecond : Duration := 1.
Definition Millisecond : Duration := 1000000.
Definition Second : Duration := 1000000000.
Definition Hour : Duration := 3600 * Second.

Definition minDuration : Duration := minInt64.
Definition maxDuration : Duration := maxInt64.

(** [time.Time]: an instant, as nanoseconds since the zero time
    (January 1, year 1, 00:00:00 UTC).  Monotonic clock readings and
    locations are not modelled. *)
Definition Time : Type := Z.

Definition zero : Time := 0.

Definition IsZero (x : Time) : bool := x =? 0.

(** [x.Sub(u)]: the difference, saturated to the range of a Duration. *)
Definition Sub (x u : Time) : Duration :=
  let d := x - u in
  if d <? minDuration then minDuration
  else if maxDuration <? d then maxDuration
  else d.

(** [time.Since(u)] when the clock reads [now]. *)
Definition Since (now u : Time) : Duration := Sub now u.

(** [d.Hours()]: integer hours plus the fractional part, as Go computes. *)
Definition Hours (d : Duration) : spec_float :=
  let hour := Z.quot d Hour in
  let nsec := Z.rem d Hour in
  F64.add (F64.of_int hour) (F64.div (F64.of_int nsec) (F64.of_int (60 * 60 * 1000000000))).

(** [x.After(u)] and [x.Before(u)]. *)
Definition After (x u : Time) : bool := u <? x.
Definition Before (x u : Time) : bool := x <? u.

End time.

(** ** Errors and results

    A Go [error] is its message; [fmt.Errorf("ctx: %w", err)] prefixes the
    message of the wrapped error.  A call on a nil interface value panics. *)

Definition error : Type := string.

Definition errors_New (msg : string) : error := msg.
Definition wrap_error (ctx : string) (err : error) : error :=
  String.append ctx (String.append ": " err).

Inductive result (A : Type) : Type :=
| Ok (a : A)
| Err (e : error)
| Panic.

Arguments Ok {A} a.
Arguments Err {A} e.
Arguments Panic {A}.

Definition is_Ok {A} (r : result A) : bool :=
  match r with Ok _ => true | _ => false end.

(** Division of int64 values: the quotient is truncated toward zero, and a
    zero divisor is a run-time panic. *)
Definition divInt64 (a b : Z) : result Z :=
  if b =? 0 then Panic else Ok (wrap64 (Z.quot a b)).

(** ** Entities (entities.go and its companions) *)

Definition ApplicationID : Type := string.
Definition GovernanceAgreementID : Type := string.
Definition PortfolioID : Type := string.

Definition ApplicationStatus : Type := string.
Definition StatusActive : ApplicationStatus := "active".
Definition StatusDeprecated : ApplicationStatus := "deprecated".
Definition StatusRetired : ApplicationStatus := "retired".
Definition StatusPlanned : ApplicationStatus := "planned".

Definition AgreementStatus : Type := string.
Definition AgreementDraft : AgreementStatus := "draft".
Definition AgreementApproved : AgreementStatus := "approved".
Definition AgreementActive : AgreementStatus := "active".
Definition AgreementSuspended : AgreementStatus := "suspended".
Definition AgreementRetired : AgreementStatus := "retired".

Definition RiskLevel : Type := string.
Definition RiskLow : RiskLevel := "low".
Definition RiskMedium : RiskLevel := "medium".
Definition RiskHigh : RiskLevel := "high".
Definition RiskCritical : RiskLevel := "critical".

Definition RiskImpact : Type := string.
Definition ImpactLow : RiskImpact := "low".
Definition ImpactMedium : RiskImpact := "medium".
Definition ImpactHigh : RiskImpact := "high".
Definition ImpactCritical : RiskImpact := "critical".

Definition RiskStatus : Type := string.
Definition RiskStatusNormal : RiskStatus := "normal".
Definition RiskStatusWarning : RiskStatus := "warning".
Definition RiskStatusCritical : RiskStatus := "critical".

Definition RecommendationType : Type := string.
Definition RecModernize : RecommendationType := "modernize".
Definition RecReplace : RecommendationType := "replace".
Definition RecEnhance : RecommendationType := "enhance".
Definition RecRetire : RecommendationType := "retire".
Definition RecMaintain : RecommendationType := "maintain".

(** Modelled from the spec: the declaration of [Priority] and of its
    constants is not among the sources; the spec names the priorities High,
    Medium and Critical of the recommendations.  They are strings like the
    other enumerations; no property depends on their spelling. *)
Definition Priority : Type := string.
Definition PriorityLow : Priority := "low".
Definition PriorityMedium : Priority := "medium".
Definition PriorityHigh : Priority := "high".
Definition PriorityCritical : Priority := "critical".

(** Modelled from the spec: the declarations of [SecurityMeasure],
    [RolePermission], [SLA], [SecurityProvisions], [Functionality] and
    [ApplicationCatalogue] are not among the sources.  The spec describes
    SecurityProvisions as categorized SecurityMeasure lists plus an SLA and
    the catalogue as named Functionality entries with Priority and Status;
    the fields are those the engine and the example program use. *)
Module SecurityMeasure.
Record t : Type := { Name : string; Description : string; Status : string }.
End SecurityMeasure.

Module RolePermission.
Record t : Type := { Role : string; Permissions : list string }.
End RolePermission.

Module SLA.
Record t : Type :=
  { ServiceName : string; ResponseTime : time.Duration; Availability : spec_float }.
End SLA.

Module SecurityProvisions.
Record t : Type :=
  { DataConfidentiality : list SecurityMeasure.t;
    DataIntegrity : list SecurityMeasure.t;
    ApplicationAuthenticity : list SecurityMeasure.t;
    RolesAndPermissions : list RolePermission.t;
    ApplicationAvailability : SLA.t }.
End SecurityProvisions.

Module Functionality.
Record t : Type :=
  { ID : string; Name : string; Description : string; Category : string;
    Priority : Priority; Status : string }.
End Functionality.

Module ApplicationCatalogue.
Record t : Type :=
  { Functionality : list Functionality.t; LastUpdated : time.Time }.
End ApplicationCatalogue.

(** [Application].  The fields [Interfaces], [ConfigurationStandard] and
    [BusinessContinuity], which no operation reads, are left out. *)
Module Application.
Record t : Type :=
  { ID : ApplicationID;
    Name : string;
    Description : string;
    Version : string;
    Status : ApplicationStatus;
    CreatedAt : time.Time;
    UpdatedAt : time.Time;
    GovernanceAgreementID : GovernanceAgreementID;
    Catalogue : ApplicationCatalogue.t;
    SecurityProvisions : SecurityProvisions.t }.

(** [func (a *Application) Validate() error]; [None] is the nil error. *)
Definition Validate (a : t) : option error :=
  if String.eqb (ID a) "" then Some (errors_New "application ID cannot be empty")
  else if String.eqb (Name a) "" then Some (errors_New "application name cannot be empty")
  else None.
End Application.

Module KPIMeasurement.
Record t : Type :=
  { KPIID : string;
    Value : spec_float;
    Target : spec_float;
    Achieved : bool;
    MeasuredAt : time.Time;
    Notes : string }.
End KPIMeasurement.

(** Modelled from the spec: the declaration of [KPI] is not among the
    sources; the monitoring engine reads its [ID], [Target] and [Category]. *)
Module KPI.
Record t : Type := { ID : string; Name : string; Category : string; Target : spec_float }.
End KPI.

Module StrategicObjective.
Record t : Type :=
  { ID : string; Name : string; Description : string; KPIs : list KPI.t;
    Deadline : time.Time }.
End StrategicObjective.

Module BudgetAllocation.
Record t : Type :=
  { Category : string; Amount : spec_float; Timeframe : string;
    Justification : string }.
End BudgetAllocation.

Module ComplianceMonitoring.
Record t : Type :=
  { MonitoringFrequency : string;
    ResponsibleParties : list string;
    ReportingSchedule : string }.
End ComplianceMonitoring.

(** [GovernanceAgreement], with the parts of its components that the
    engines read: [Direct.StrategicDirection.Objectives],
    [Direct.ResourceAllocation.BudgetAllocations],
    [Conformance.ComplianceMonitoring] and [Evaluate.PerformanceMetrics]. *)
Module GovernanceAgreement.
Record t : Type :=
  { ID : GovernanceAgreementID;
    ApplicationID : ApplicationID;
    Title : string;
    Version : string;
    Status : AgreementStatus;
    CreatedAt : time.Time;
    UpdatedAt : time.Time;
    Conformance_ComplianceMonitoring : ComplianceMonitoring.t;
    Evaluate_PerformanceMetrics : list KPIMeasurement.t;
    Direct_StrategicDirection_Objectives : list StrategicObjective.t;
    Direct_ResourceAllocation_BudgetAllocations : list BudgetAllocation.t }.

Definition with_Status (s : AgreementStatus) (g : t) : t :=
  {| ID := ID g; ApplicationID := ApplicationID g; Title := Title g;
     Version := Version g; Status := s; CreatedAt := CreatedAt g;
     UpdatedAt := UpdatedAt g;
     Conformance_ComplianceMonitoring := Conformance_ComplianceMonitoring g;
     Evaluate_PerformanceMetrics := Evaluate_PerformanceMetrics g;
     Direct_StrategicDirection_Objectives := Direct_StrategicDirection_Objectives g;
     Direct_ResourceAllocation_BudgetAllocations :=
       Direct_ResourceAllocation_BudgetAllocations g |}.

Definition with_UpdatedAt (u : time.Time) (g : t) : t :=
  {| ID := ID g; ApplicationID := ApplicationID g; Title := Title g;
     Version := Version g; Status := Status g; CreatedAt := CreatedAt g;
     UpdatedAt := u;
     Conformance_ComplianceMonitoring := Conformance_ComplianceMonitoring g;
     Evaluate_PerformanceMetrics := Evaluate_PerformanceMetrics g;
     Direct_StrategicDirection_Objectives := Direct_StrategicDirection_Objectives g;
     Direct_ResourceAllocation_BudgetAllocations :=
       Direct_ResourceAllocation_BudgetAllocations g |}.

(** [func (ga *GovernanceAgreement) Validate() error]. *)
Definition Validate (ga : t) : option error :=
  if String.eqb (ID ga) "" then Some (errors_New "governance agreement ID cannot be empty")
  else if String.eqb (ApplicationID ga) ""
  then Some (errors_New "application ID cannot be empty")
  else if String.eqb (Title ga) ""
  then Some (errors_New "governance agreement title cannot be empty")
  else None.

Definition with_Objectives (objectives : list StrategicObjective.t) (g : t) : t :=
  {| ID := ID g; ApplicationID := ApplicationID g; Title := Title g;
     Version := Version g; Status := Status g; CreatedAt := CreatedAt g;
     UpdatedAt := UpdatedAt g;
     Conformance_ComplianceMonitoring := Conformance_ComplianceMonitoring g;
     Evaluate_PerformanceMetrics := Evaluate_PerformanceMetrics g;
     Direct_StrategicDirection_Objectives := objectives;
     Direct_ResourceAllocation_BudgetAllocations :=
       Direct_ResourceAllocation_BudgetAllocations g |}.

Definition with_BudgetAllocations (allocations : list BudgetAllocation.t) (g : t) : t :=
  {| ID := ID g; ApplicationID := ApplicationID g; Title := Title g;
     Version := Version g; Status := Status g; CreatedAt := CreatedAt g;
     UpdatedAt := UpdatedAt g;
     Conformance_ComplianceMonitoring := Conformance_ComplianceMonitoring g;
     Evaluate_PerformanceMetrics := Evaluate_PerformanceMetrics g;
     Direct_StrategicDirection_Objectives := Direct_StrategicDirection_Objectives g;
     Direct_ResourceAllocation_BudgetAllocations := allocations |}.
End GovernanceAgreement.

(** [ApplicationPortfolio] holds copies of its member applications. *)
Module ApplicationPortfolio.
Record t : Type :=
  { ID : PortfolioID;
    Name : string;
    Description : string;
    Owner : string;
    Applications : list Application.t;
    KPIs : list KPI.t;
    CreatedAt : time.Time;
    UpdatedAt : time.Time }.

Definition with_Applications (apps : list Application.t) (p : t) : t :=
  {| ID := ID p; Name := Name p; Description := Description p; Owner := Owner p;
     Applications := apps; KPIs := KPIs p; CreatedAt := CreatedAt p;
     UpdatedAt := UpdatedAt p |}.

Definition with_UpdatedAt (u : time.Time) (p : t) : t :=
  {| ID := ID p; Name := Name p; Description := Description p; Owner := Owner p;
     Applications := Applications p; KPIs := KPIs p; CreatedAt := CreatedAt p;
     UpdatedAt := u |}.

(** The duplicate scan of [AddApplication]: the first member with the
    same ID stops the loop. *)
Fixpoint has_ID (apps : list Application.t) (id : ApplicationID) : bool :=
  match apps with
  | [] => false
  | existing :: rest =>
      if String.eqb (Application.ID existing) id then true else has_ID rest id
  end.

(** [func (ap *ApplicationPortfolio) AddApplication(app Application) error]:
    the portfolio after the call and the error returned. *)
Definition AddApplication (now : time.Time) (ap : t) (app : Application.t)
  : t * option error :=
  match Application.Validate app with
  | Some err => (ap, Some err)
  | None =>
      if has_ID (Applications ap) (Application.ID app)
      then (ap, Some (errors_New "application already exists in portfolio"))
      else (with_UpdatedAt now (with_Applications (Applications ap ++ [app]) ap), None)
  end.

(** [func (ap *ApplicationPortfolio) Validate() error]. *)
Definition Validate (ap : t) : option error :=
  if String.eqb (ID ap) "" then Some (errors_New "portfolio ID cannot be empty")
  else if String.eqb (Name ap) "" then Some (errors_New "portfolio name cannot be empty")
  else None.

(** The index at which the loop of [RemoveApplication] stops: the first
    member with the given ID. *)
Fixpoint indexOfID (apps : list Application.t) (appID : ApplicationID) : option nat :=
  match apps with
  | [] => None
  | app :: rest =>
      if String.eqb (Application.ID app) appID then Some 0%nat
      else option_map S (indexOfID rest appID)
  end.

(** [append(apps[:i], apps[i+1:]...)]. *)
Definition removeAt {A : Type} (i : nat) (l : list A) : list A :=
  take i l ++ drop (S i) l.

(** [func (ap *ApplicationPortfolio) RemoveApplication(appID) error]: the
    portfolio after the call and the error returned. *)
Definition RemoveApplication (now : time.Time) (ap : t) (appID : ApplicationID)
  : t * option error :=
  match indexOfID (Applications ap) appID with
  | Some i =>
      (with_UpdatedAt now (with_Applications (removeAt i (Applications ap)) ap), None)
  | None => (ap, Some (errors_New "application not found in portfolio"))
  end.
End ApplicationPortfolio.

(** ** Assessment records (principles.go) *)

Module TechnicalHealth.
Record t : Type :=
  { CodeQuality : Z;
    Documentation : Z;
    TestCoverage : spec_float;
    SecurityScore : Z;
    PerformanceScore : Z }.
End TechnicalHealth.

Module UsageMetrics.
Record t : Type :=
  { ActiveUsers : Z;
    TransactionVolume : Z;
    UptimePercentage : spec_float;
    ResponseTime : time.Duration }.
End UsageMetrics.

Module BusinessValueAssessment.
Record t : Type :=
  { UsageMetrics : UsageMetrics.t;
    BusinessAlignment : spec_float;
    CostEfficiency : spec_float;
    UserSatisfaction : spec_float }.
End BusinessValueAssessment.

Module Recommendation.
Record t : Type :=
  { ID : string;
    Type_ : RecommendationType;
    Description : string;
    Priority : Priority;
    EstimatedEffort : time.Duration;
    BusinessImpact : string }.
End Recommendation.

Module ApplicationAssessment.
Record t : Type :=
  { ApplicationID : ApplicationID;
    TechnicalHealth : TechnicalHealth.t;
    BusinessValue : BusinessValueAssessment.t;
    RiskLevel : RiskLevel;
    Recommendations : list Recommendation.t }.
End ApplicationAssessment.

Module PortfolioHealthAssessment.
Record t : Type :=
  { TotalApplications : Z;
    ActiveApplications : Z;
    DeprecatedApplications : Z;
    RedundantApplications : Z;
    TotalCost : spec_float;
    AverageApplicationAge : time.Duration;
    RiskDistribution : gmap string Z }.
End PortfolioHealthAssessment.

Module Risk.
Record t : Type :=
  { ID : string;
    Name : string;
    Description : string;
    Category : string;
    Probability : spec_float;
    Impact : RiskImpact;
    Level : RiskLevel }.
End Risk.

Module RiskIndicator.
Record t : Type :=
  { Name : string;
    Value : spec_float;
    Threshold : spec_float;
    Status : RiskStatus }.
End RiskIndicator.

(** [RiskMonitoring]; the elements of the two lists that the engine always
    leaves empty are represented by their names. *)
Module RiskMonitoring.
Record t : Type :=
  { RiskIndicators : list RiskIndicator.t;
    RiskHeatMaps : list string;
    MitigationTracking : list string }.
End RiskMonitoring.

(** ** Repository interfaces (repositories.go)

    Each interface is the record of the methods that the services call. *)

Module ApplicationRepository.
Record t : Type := { FindByID : ApplicationID -> result Application.t }.
End ApplicationRepository.

Module GovernanceAgreementRepository.
Record t : Type :=
  { FindByID : GovernanceAgreementID -> result GovernanceAgreement.t;
    FindByApplicationID : ApplicationID -> result GovernanceAgreement.t }.
End GovernanceAgreementRepository.

Module ApplicationPortfolioRepository.
Record t : Type := { FindByID : PortfolioID -> result ApplicationPortfolio.t }.
End ApplicationPortfolioRepository.

Module KPIRepository.
Record t : Type := { FindAll : result (list KPI.t) }.
End KPIRepository.

Module KPIMeasurementRepository.
Record t : Type := { FindLatest : string -> result KPIMeasurement.t }.
End KPIMeasurementRepository.

Module RiskRepository.
Record t : Type := { FindAll : result (list Risk.t) }.
End RiskRepository.

(** ** In-memory repositories (package memory) *)

Module ApplicationRepositoryMemory.
Record t : Type :=
  { applications : gmap string Application.t;
    portfolios : gmap string (list ApplicationID) }.

Definition New : t := {| applications := ∅; portfolios := ∅ |}.

Definition Save (r : t) (app : Application.t) : t :=
  {| applications := <[Application.ID app := app]> (applications r);
     portfolios := portfolios r |}.

Definition FindByID (r : t) (id : ApplicationID) : result Application.t :=
  match applications r !! id with
  | Some app => Ok app
  | None => Err (errors_New "application not found")
  end.

(** [FindByPortfolioID]: the applications of the IDs that the index
    [portfolios] lists for the portfolio, in the order of the index, those
    that are stored. *)
Definition FindByPortfolioID (r : t) (portfolioID : PortfolioID)
  : result (list Application.t) :=
  match portfolios r !! portfolioID with
  | None => Ok []
  | Some appIDs =>
      Ok (fold_left (fun apps appID =>
                       match applications r !! appID with
                       | Some app => apps ++ [app]
                       | None => apps
                       end) appIDs [])
  end.

(** [Update], [Delete]: the repository after the call and the error
    returned. *)
Definition Update (r : t) (app : Application.t) : t * option error :=
  match applications r !! Application.ID app with
  | None => (r, Some (errors_New "application not found"))
  | Some _ =>
      ({| applications := <[Application.ID app := app]> (applications r);
          portfolios := portfolios r |}, None)
  end.

Definition Delete (r : t) (id : ApplicationID) : t * option error :=
  match applications r !! id with
  | None => (r, Some (errors_New "application not found"))
  | Some _ =>
      ({| applications := delete id (applications r); portfolios := portfolios r |}, None)
  end.

Definition Exists (r : t) (id : ApplicationID) : bool :=
  match applications r !! id with
  | Some _ => true
  | None => false
  end.

Definition as_repository (r : t) : ApplicationRepository.t :=
  {| ApplicationRepository.FindByID := FindByID r |}.
End ApplicationRepositoryMemory.

Module GovernanceAgreementRepositoryMemory.
Record t : Type :=
  { agreements : gmap string GovernanceAgreement.t;
    byApplication : gmap string GovernanceAgreementID }.

Definition New : t := {| agreements := ∅; byApplication := ∅ |}.

Definition Save (r : t) (agreement : GovernanceAgreement.t) : t :=
  {| agreements := <[GovernanceAgreement.ID agreement := agreement]> (agreements r);
     byApplication :=
       <[GovernanceAgreement.ApplicationID agreement := GovernanceAgreement.ID agreement]>
         (byApplication r) |}.

Definition FindByID (r : t) (id : GovernanceAgreementID) : result GovernanceAgreement.t :=
  match agreements r !! id with
  | Some agreement => Ok agreement
  | None => Err (errors_New "governance agreement not found")
  end.

Definition FindByApplicationID (r : t) (appID : ApplicationID)
  : result GovernanceAgreement.t :=
  match byApplication r !! appID with
  | None => Err (errors_New "governance agreement not found for application")
  | Some agreementID =>
      match agreements r !! agreementID with
      | None => Err (errors_New "governance agreement not found")
      | Some agreement => Ok agreement
      end
  end.

(** [Update] leaves the index by application as it is. *)
Definition Update (r : t) (agreement : GovernanceAgreement.t) : t * option error :=
  match agreements r !! GovernanceAgreement.ID agreement with
  | None => (r, Some (errors_New "governance agreement not found"))
  | Some _ =>
      ({| agreements := <[GovernanceAgreement.ID agreement := agreement]> (agreements r);
          byApplication := byApplication r |}, None)
  end.

(** [Delete] removes the agreement and the index entry of its application. *)
Definition Delete (r : t) (id : GovernanceAgreementID) : t * option error :=
  match agreements r !! id with
  | None => (r, Some (errors_New "governance agreement not found"))
  | Some agreement =>
      ({| agreements := delete id (agreements r);
          byApplication :=
            delete (GovernanceAgreement.ApplicationID agreement) (byApplication r) |}, None)
  end.

Definition Exists (r : t) (id : GovernanceAgreementID) : bool :=
  match agreements r !! id with
  | Some _ => true
  | None => false
  end.

Definition as_repository (r : t) : GovernanceAgreementRepository.t :=
  {| GovernanceAgreementRepository.FindByID := FindByID r;
     GovernanceAgreementRepository.FindByApplicationID := FindByApplicationID r |}.
End GovernanceAgreementRepositoryMemory.

Module ApplicationPortfolioRepositoryMemory.
Record t : Type :=
  { portfolios : gmap string ApplicationPortfolio.t;
    byOwner : gmap string (list PortfolioID) }.

Definition New : t := {| portfolios := ∅; byOwner := ∅ |}.

Definition Save (r : t) (portfolio : ApplicationPortfolio.t) : t :=
  {| portfolios := <[ApplicationPortfolio.ID portfolio := portfolio]> (portfolios r);
     byOwner :=
       <[ApplicationPortfolio.Owner portfolio :=
           default [] (byOwner r !! ApplicationPortfolio.Owner portfolio)
             ++ [ApplicationPortfolio.ID portfolio]]> (byOwner r) |}.

Definition FindByID (r : t) (id : PortfolioID) : result ApplicationPortfolio.t :=
  match portfolios r !! id with
  | Some portfolio => Ok portfolio
  | None => Err (errors_New "portfolio not found")
  end.

(** The placeholder that [AddApplication] stores: [domain.Application{ID: appID}]. *)
Definition placeholderApp (appID : ApplicationID) : Application.t :=
  {| Application.ID := appID; Application.Name := ""; Application.Description := "";
     Application.Version := ""; Application.Status := "";
     Application.CreatedAt := time.zero; Application.UpdatedAt := time.zero;
     Application.GovernanceAgreementID := "";
     Application.Catalogue :=
       {| ApplicationCatalogue.Functionality := [];
          ApplicationCatalogue.LastUpdated := time.zero |};
     Application.SecurityProvisions :=
       {| SecurityProvisions.DataConfidentiality := [];
          SecurityProvisions.DataIntegrity := [];
          SecurityProvisions.ApplicationAuthenticity := [];
          SecurityProvisions.RolesAndPermissions := [];
          SecurityProvisions.ApplicationAvailability :=
            {| SLA.ServiceName := ""; SLA.ResponseTime := 0;
               SLA.Availability := S754_zero false |} |} |}.

(** [AddApplication(ctx, portfolioID, appID)]: the repository after the
    call and the error returned. *)
Definition AddApplication (r : t) (portfolioID : PortfolioID) (appID : ApplicationID)
  : t * option error :=
  match portfolios r !! portfolioID with
  | None => (r, Some (errors_New "portfolio not found"))
  | Some portfolio =>
      if ApplicationPortfolio.has_ID (ApplicationPortfolio.Applications portfolio) appID
      then (r, Some (errors_New "application already in portfolio"))
      else
        let portfolio' :=
          ApplicationPortfolio.with_Applications
            (ApplicationPortfolio.Applications portfolio ++ [placeholderApp appID])
            portfolio in
        ({| portfolios := <[portfolioID := portfolio']> (portfolios r);
            byOwner := byOwner r |}, None)
  end.

(** [FindByOwner]: one portfolio for each entry of the owner index whose
    ID is stored, in the order of the index. *)
Definition FindByOwner (r : t) (owner : string) : result (list ApplicationPortfolio.t) :=
  match byOwner r !! owner with
  | None => Ok []
  | Some portfolioIDs =>
      Ok (fold_left (fun found id =>
                       match portfolios r !! id with
                       | Some portfolio => found ++ [portfolio]
                       | None => found
                       end) portfolioIDs [])
  end.

(** [Update] leaves the owner index as it is. *)
Definition Update (r : t) (portfolio : ApplicationPortfolio.t) : t * option error :=
  match portfolios r !! ApplicationPortfolio.ID portfolio with
  | None => (r, Some (errors_New "portfolio not found"))
  | Some _ =>
      ({| portfolios := <[ApplicationPortfolio.ID portfolio := portfolio]> (portfolios r);
          byOwner := byOwner r |}, None)
  end.

(** The index at which the loop of [Delete] over the owner's IDs stops. *)
Fixpoint indexOf (ids : list PortfolioID) (id : PortfolioID) : option nat :=
  match ids with
  | [] => None
  | pid :: rest =>
      if String.eqb pid id then Some 0%nat else option_map S (indexOf rest id)
  end.

(** [Delete] removes the portfolio and the first entry for its ID in the
    index of the owner that the stored portfolio names. *)
Definition Delete (r : t) (id : PortfolioID) : t * option error :=
  match portfolios r !! id with
  | None => (r, Some (errors_New "portfolio not found"))
  | Some portfolio =>
      let ownerPortfolios :=
        default [] (byOwner r !! ApplicationPortfolio.Owner portfolio) in
      ({| portfolios := delete id (portfolios r);
          byOwner :=
            match indexOf ownerPortfolios id with
            | Some i =>
                <[ApplicationPortfolio.Owner portfolio :=
                    ApplicationPortfolio.removeAt i ownerPortfolios]> (byOwner r)
            | None => byOwner r
            end |}, None)
  end.

Definition Exists (r : t) (id : PortfolioID) : bool :=
  match portfolios r !! id with
  | Some _ => true
  | None => false
  end.

(** [RemoveApplication(ctx, portfolioID, appID)]: the first member with
    the ID is removed from the stored portfolio. *)
Definition RemoveApplication (r : t) (portfolioID : PortfolioID) (appID : ApplicationID)
  : t * option error :=
  match portfolios r !! portfolioID with
  | None => (r, Some (errors_New "portfolio not found"))
  | Some portfolio =>
      match ApplicationPortfolio.indexOfID
              (ApplicationPortfolio.Applications portfolio) appID with
      | Some i =>
          let portfolio' :=
            ApplicationPortfolio.with_Applications
              (ApplicationPortfolio.removeAt i (ApplicationPortfolio.Applications portfolio))
              portfolio in
          ({| portfolios := <[portfolioID := portfolio']> (portfolios r);
              byOwner := byOwner r |}, None)
      | None => (r, Some (errors_New "application not found in portfolio"))
      end
  end.

Definition as_repository (r : t) : ApplicationPortfolioRepository.t :=
  {| ApplicationPortfolioRepository.FindByID := FindByID r |}.
End ApplicationPortfolioRepositoryMemory.

(** ** Package strings, as far as the engine uses it *)

Module strings.

(** [strings.Split(s, sep)] for a separator of one byte. *)
Fixpoint Split (s : string) (sep : ascii) : list string :=
  match s with
  | EmptyString => [EmptyString]
  | String a rest =>
      let parts := Split rest sep in
      if Ascii.eqb a sep then EmptyString :: parts
      else match parts with
           | p :: ps => String a p :: ps
           | [] => [String a EmptyString]
           end
  end.

Definition lower_byte (a : ascii) : ascii :=
  let n := N_of_ascii a in
  if (65 <=? n)%N && (n <=? 90)%N then ascii_of_N (n + 32) else a.

(** [strings.ToLower] on the ASCII letters.  No letter outside ASCII has
    a lower-case form among the letters of the words that the engine
    searches for (dev, alpha, beta, rc, legacy). *)
Fixpoint ToLower (s : string) : string :=
  match s with
  | EmptyString => EmptyString
  | String a rest => String (lower_byte a) (ToLower rest)
  end.

(** [strings.Contains(s, substr)]. *)
Fixpoint Contains (s substr : string) : bool :=
  if String.prefix substr s then true
  else match s with
       | EmptyString => false
       | String _ rest => Contains rest substr
       end.

End strings.

(** [len(l)] as a Go int. *)
Definition len {A : Type} (l : list A) : Z := Z.of_nat (length l).

(** ** The evaluation service (services.go, the signal-based scorer) *)

Module EvaluationService.

(** The service and its collaborators; [agreementRepo], [kpiRepo] and
    [riskRepo] may be nil. *)
Record t : Type :=
  { applicationRepo : ApplicationRepository.t;
    agreementRepo : option GovernanceAgreementRepository.t;
    portfolioRepo : ApplicationPortfolioRepository.t;
    kpiRepo : option KPIRepository.t;
    riskRepo : option RiskRepository.t }.

Definition NewEvaluationService := Build_t.

Definition analyzeVersionMaturity (version : string) : Z :=
  if String.eqb version "" then -1
  else
    let parts := strings.Split version "." in
    if 3 <=? len parts then 1
    else
      let lowerVersion := strings.ToLower version in
      if strings.Contains lowerVersion "dev"
         || strings.Contains lowerVersion "alpha"
         || strings.Contains lowerVersion "beta"
         || strings.Contains lowerVersion "rc"
      then 0
      else 0.

Definition analyzeSecurityProvisions (provisions : SecurityProvisions.t) : Z :=
  let score := 0 in
  let score :=
    if 0 <? len (SecurityProvisions.DataConfidentiality provisions) then
      let score := score + 1 in
      if 2 <? len (SecurityProvisions.DataConfidentiality provisions)
      then score + 1 else score
    else score in
  let score :=
    if 0 <? len (SecurityProvisions.DataIntegrity provisions) then
      let score := score + 1 in
      if 2 <? len (SecurityProvisions.DataIntegrity provisions)
      then score + 1 else score
    else score in
  let score :=
    if 0 <? len (SecurityProvisions.ApplicationAuthenticity provisions)
    then score + 1 else score in
  let score :=
    if 0 <? len (SecurityProvisions.RolesAndPermissions provisions) then
      let score := score + 1 in
      if 3 <? len (SecurityProvisions.RolesAndPermissions provisions)
      then score + 1 else score
    else score in
  let score :=
    if 0 <? SLA.ResponseTime (SecurityProvisions.ApplicationAvailability provisions)
    then score + 1 else score in
  score - 2.

(** [time.Since(u).Hours() / 24]. *)
Definition daysSince (now u : time.Time) : spec_float :=
  F64.div (time.Hours (time.Since now u)) (F64.of_int 24).

(** [time.Since(u).Hours() / (24 * 365)]. *)
Definition yearsSince (now u : time.Time) : spec_float :=
  F64.div (time.Hours (time.Since now u)) (F64.of_int (24 * 365)).

Definition analyzeDocumentationCompleteness (now : time.Time)
    (catalogue : ApplicationCatalogue.t) : Z :=
  let score := 0 in
  let score :=
    if negb (time.IsZero (ApplicationCatalogue.LastUpdated catalogue)) then
      let daysSinceUpdate := daysSince now (ApplicationCatalogue.LastUpdated catalogue) in
      if F64.ltb daysSinceUpdate (F64.of_int 90) then score + 2
      else if F64.ltb daysSinceUpdate (F64.of_int 365) then score + 1
      else score
    else score - 1 in
  let score :=
    if 0 <? len (ApplicationCatalogue.Functionality catalogue) then
      let score := score + 1 in
      if 5 <? len (ApplicationCatalogue.Functionality catalogue)
      then score + 1 else score
    else score in
  score.

Definition analyzeApplicationAge (now createdAt updatedAt : time.Time) : Z :=
  if time.IsZero createdAt then 0
  else
    let ageInDays := daysSince now createdAt in
    if F64.gtb ageInDays (F64.of_int (365 * 5)) then -2
    else if F64.gtb ageInDays (F64.of_int (365 * 2)) then -1
    else if negb (time.IsZero updatedAt) then
      let daysSinceUpdate := daysSince now updatedAt in
      if F64.ltb daysSinceUpdate (F64.of_int 90) then 1
      else if F64.ltb daysSinceUpdate (F64.of_int 180) then 0
      else 0
    else 0.

Definition analyzeApplicationStatus (status : ApplicationStatus) : Z :=
  if String.eqb status StatusActive then 1
  else if String.eqb status StatusDeprecated then -1
  else if String.eqb status StatusRetired then -2
  else if String.eqb status StatusPlanned then 0
  else 0.

(** [minFactor] and [maxFactor] are accepted and not used, as in the
    source. *)
Definition adjustScoreWithVariance (baseScore : Z) (minFactor maxFactor : spec_float) : Z :=
  let variance := F64.mul (F64.of_int baseScore) (F64.lit 1 1) in
  let variance := if F64.gtb variance (F64.lit 5 1) then F64.lit 5 1 else variance in
  let variance :=
    if F64.ltb variance (SFopp (F64.lit 5 1)) then SFopp (F64.lit 5 1) else variance in
  let adjusted := F64.add (F64.of_int baseScore) variance in
  let adjusted := if F64.ltb adjusted (F64.of_int 1) then F64.of_int 1 else adjusted in
  let adjusted := if F64.gtb adjusted (F64.of_int 5) then F64.of_int 5 else adjusted in
  F64.to_int (F64.add adjusted (F64.lit 5 1)).

(** The running score of [assessTechnicalHealth] after the bounds check. *)
Definition clampScore (score : Z) : Z :=
  let score := if score <? 1 then 1 else score in
  let score := if 5 <? score then 5 else score in
  score.

Definition assessTechnicalHealth (now : time.Time) (app : Application.t) : TechnicalHealth.t :=
  let score := 3 in
  let versionScore := analyzeVersionMaturity (Application.Version app) in
  let score := score + versionScore in
  let securityScore := analyzeSecurityProvisions (Application.SecurityProvisions app) in
  let score := score + securityScore in
  let documentationScore :=
    analyzeDocumentationCompleteness now (Application.Catalogue app) in
  let score := score + documentationScore in
  let ageScore :=
    analyzeApplicationAge now (Application.CreatedAt app) (Application.UpdatedAt app) in
  let score := score + ageScore in
  let statusScore := analyzeApplicationStatus (Application.Status app) in
  let score := score + statusScore in
  let score := clampScore score in
  let basePercentage := F64.mul (F64.of_int score) (F64.of_int 20) in
  {| TechnicalHealth.CodeQuality :=
       adjustScoreWithVariance score (F64.lit 8 1) (F64.lit 12 1);
     TechnicalHealth.Documentation :=
       adjustScoreWithVariance score (F64.lit 9 1) (F64.lit 11 1);
     TechnicalHealth.TestCoverage :=
       F64.add basePercentage (F64.mul (F64.of_int securityScore) (F64.of_int 5));
     TechnicalHealth.SecurityScore :=
       adjustScoreWithVariance (score + securityScore) (F64.lit 7 1) (F64.lit 13 1);
     TechnicalHealth.PerformanceScore :=
       adjustScoreWithVariance (score + ageScore) (F64.lit 8 1) (F64.lit 12 1) |}.

Definition calculateUsageMetrics (now : time.Time) (app : Application.t)
    (agreement : option GovernanceAgreement.t) : UsageMetrics.t :=
  let activeUsers := 50 in
  let transactionVolume := 1000 in
  let '(activeUsers, transactionVolume) :=
    if String.eqb (Application.Status app) StatusActive
    then (activeUsers * 2, transactionVolume * 3)
    else if String.eqb (Application.Status app) StatusDeprecated
    then (Z.quot activeUsers 2, Z.quot transactionVolume 2)
    else if String.eqb (Application.Status app) StatusRetired
    then (Z.quot activeUsers 4, Z.quot transactionVolume 4)
    else (activeUsers, transactionVolume) in
  let '(activeUsers, transactionVolume) :=
    match agreement with
    | Some _ =>
        (F64.to_int (F64.mul (F64.of_int activeUsers) (F64.lit 15 1)),
         F64.to_int (F64.mul (F64.of_int transactionVolume) (F64.lit 18 1)))
    | None => (activeUsers, transactionVolume)
    end in
  let '(activeUsers, transactionVolume) :=
    if negb (time.IsZero (Application.CreatedAt app)) then
      let ageInYears := yearsSince now (Application.CreatedAt app) in
      if F64.gtb ageInYears (F64.of_int 3)
      then (F64.to_int (F64.mul (F64.of_int activeUsers) (F64.lit 13 1)),
            F64.to_int (F64.mul (F64.of_int transactionVolume) (F64.lit 14 1)))
      else (activeUsers, transactionVolume)
    else (activeUsers, transactionVolume) in
  let uptimePercentage := F64.of_int 99 in
  let uptimePercentage :=
    if 0 <? len (SecurityProvisions.RolesAndPermissions (Application.SecurityProvisions app))
    then F64.add uptimePercentage (F64.lit 5 1) else uptimePercentage in
  let uptimePercentage :=
    if negb (time.IsZero (Application.UpdatedAt app))
       && F64.ltb (time.Hours (time.Since now (Application.UpdatedAt app)))
                  (F64.of_int (24 * 30))
    then F64.add uptimePercentage (F64.lit 4 1) else uptimePercentage in
  let responseTime := time.Millisecond * 300 in
  let responseTime :=
    if strings.Contains (strings.ToLower (Application.Name app)) "legacy"
    then responseTime + time.Millisecond * 200 else responseTime in
  let responseTime :=
    if 0 <? len (SecurityProvisions.DataIntegrity (Application.SecurityProvisions app))
    then responseTime + time.Millisecond * 50 else responseTime in
  {| UsageMetrics.ActiveUsers := activeUsers;
     UsageMetrics.TransactionVolume := transactionVolume;
     UsageMetrics.UptimePercentage := uptimePercentage;
     UsageMetrics.ResponseTime := responseTime |}.

(** The bounds check that ends each percentage computation. *)
Definition ensureBounds (x : spec_float) : spec_float :=
  let x := if F64.gtb x (F64.of_int 100) then F64.of_int 100 else x in
  let x := if F64.ltb x (F64.of_int 0) then F64.of_int 0 else x in
  x.

Definition calculateBusinessAlignment (now : time.Time) (app : Application.t)
    (agreement : option GovernanceAgreement.t) : spec_float :=
  let baseAlignment := F64.of_int 70 in
  let baseAlignment :=
    match agreement with
    | Some agreement =>
        let baseAlignment := F64.add baseAlignment (F64.of_int 20) in
        let baseAlignment :=
          if 0 <? len (GovernanceAgreement.Direct_StrategicDirection_Objectives agreement)
          then F64.add baseAlignment (F64.of_int 5) else baseAlignment in
        if negb (String.eqb
                   (ComplianceMonitoring.MonitoringFrequency
                      (GovernanceAgreement.Conformance_ComplianceMonitoring agreement)) "")
        then F64.add baseAlignment (F64.of_int 5) else baseAlignment
    | None => baseAlignment
    end in
  let baseAlignment :=
    if String.eqb (Application.Status app) StatusActive
    then F64.add baseAlignment (F64.of_int 5)
    else if String.eqb (Application.Status app) StatusPlanned
    then F64.add baseAlignment (F64.of_int 2)
    else if String.eqb (Application.Status app) StatusDeprecated
    then F64.sub baseAlignment (F64.of_int 10)
    else if String.eqb (Application.Status app) StatusRetired
    then F64.sub baseAlignment (F64.of_int 20)
    else baseAlignment in
  let baseAlignment :=
    if negb (time.IsZero (Application.UpdatedAt app))
       && F64.ltb (time.Hours (time.Since now (Application.UpdatedAt app)))
                  (F64.of_int (24 * 90))
    then F64.add baseAlignment (F64.of_int 3) else baseAlignment in
  ensureBounds baseAlignment.

Definition calculateCostEfficiency (now : time.Time) (app : Application.t)
    (agreement : option GovernanceAgreement.t) : spec_float :=
  let baseEfficiency := F64.of_int 60 in
  let baseEfficiency :=
    match agreement with
    | Some agreement =>
        let baseEfficiency := F64.add baseEfficiency (F64.of_int 15) in
        if 0 <? len (GovernanceAgreement.Direct_ResourceAllocation_BudgetAllocations agreement)
        then F64.add baseEfficiency (F64.of_int 10) else baseEfficiency
    | None => baseEfficiency
    end in
  let baseEfficiency :=
    if String.eqb (Application.Status app) StatusActive
    then F64.add baseEfficiency (F64.of_int 10)
    else if String.eqb (Application.Status app) StatusDeprecated
    then F64.sub baseEfficiency (F64.of_int 15)
    else if String.eqb (Application.Status app) StatusRetired
    then F64.sub baseEfficiency (F64.of_int 25)
    else if String.eqb (Application.Status app) StatusPlanned
    then F64.add baseEfficiency (F64.of_int 5)
    else baseEfficiency in
  let baseEfficiency :=
    if negb (time.IsZero (Application.CreatedAt app)) then
      let ageInYears := yearsSince now (Application.CreatedAt app) in
      if F64.gtb ageInYears (F64.of_int 5)
      then F64.sub baseEfficiency (F64.of_int 10)
      else if F64.ltb ageInYears (F64.of_int 1)
      then F64.add baseEfficiency (F64.of_int 5)
      else baseEfficiency
    else baseEfficiency in
  let securityMeasures :=
    len (SecurityProvisions.DataConfidentiality (Application.SecurityProvisions app))
    + len (SecurityProvisions.DataIntegrity (Application.SecurityProvisions app))
    + len (SecurityProvisions.RolesAndPermissions (Application.SecurityProvisions app)) in
  let baseEfficiency :=
    if 3 <? securityMeasures
    then F64.add baseEfficiency (F64.of_int 5) else baseEfficiency in
  ensureBounds baseEfficiency.

Definition calculateUserSatisfaction (now : time.Time) (app : Application.t)
    (agreement : option GovernanceAgreement.t) : spec_float :=
  let baseSatisfaction := F64.of_int 65 in
  let baseSatisfaction :=
    match agreement with
    | Some agreement =>
        let baseSatisfaction := F64.add baseSatisfaction (F64.of_int 15) in
        if 0 <? len (GovernanceAgreement.Evaluate_PerformanceMetrics agreement)
        then F64.add baseSatisfaction (F64.of_int 5) else baseSatisfaction
    | None => baseSatisfaction
    end in
  let baseSatisfaction :=
    if String.eqb (Application.Status app) StatusActive
    then F64.add baseSatisfaction (F64.of_int 10)
    else if String.eqb (Application.Status app) StatusDeprecated
    then F64.sub baseSatisfaction (F64.of_int 15)
    else if String.eqb (Application.Status app) StatusRetired
    then F64.sub baseSatisfaction (F64.of_int 30)
    else if String.eqb (Application.Status app) StatusPlanned
    then F64.add baseSatisfaction (F64.of_int 5)
    else baseSatisfaction in
  let baseSatisfaction :=
    if negb (time.IsZero (Application.UpdatedAt app))
       && F64.ltb (time.Hours (time.Since now (Application.UpdatedAt app)))
                  (F64.of_int (24 * 60))
    then F64.add baseSatisfaction (F64.of_int 8) else baseSatisfaction in
  let baseSatisfaction :=
    if 0 <? len (SecurityProvisions.RolesAndPermissions (Application.SecurityProvisions app))
    then F64.add baseSatisfaction (F64.of_int 3) else baseSatisfaction in
  ensureBounds baseSatisfaction.

(** [assessBusinessValue]: the agreement is looked up when the
    repository is not nil, and a failed lookup leaves it nil. *)
Definition assessBusinessValue (s : t) (now : time.Time) (app : Application.t)
  : BusinessValueAssessment.t :=
  let agreement :=
    match agreementRepo s with
    | Some repo =>
        match GovernanceAgreementRepository.FindByApplicationID repo (Application.ID app) with
        | Ok govAgreement => Some govAgreement
        | _ => None
        end
    | None => None
    end in
  {| BusinessValueAssessment.UsageMetrics := calculateUsageMetrics now app agreement;
     BusinessValueAssessment.BusinessAlignment := calculateBusinessAlignment now app agreement;
     BusinessValueAssessment.CostEfficiency := calculateCostEfficiency now app agreement;
     BusinessValueAssessment.UserSatisfaction := calculateUserSatisfaction now app agreement |}.

Definition determineRiskLevel (techHealth : TechnicalHealth.t)
    (businessValue : BusinessValueAssessment.t) : RiskLevel :=
  let avgScore :=
    Z.quot (wrap64 (wrap64 (TechnicalHealth.CodeQuality techHealth
                            + TechnicalHealth.SecurityScore techHealth)
                    + TechnicalHealth.PerformanceScore techHealth)) 3 in
  if (avgScore <=? 2)
     || F64.ltb (BusinessValueAssessment.CostEfficiency businessValue) (F64.of_int 50)
  then RiskCritical
  else if (avgScore <=? 3)
          || F64.ltb (BusinessValueAssessment.CostEfficiency businessValue) (F64.of_int 70)
  then RiskHigh
  else if avgScore <=? 4 then RiskMedium
  else RiskLow.

Definition generateRecommendations (techHealth : TechnicalHealth.t)
    (businessValue : BusinessValueAssessment.t) (riskLevel : RiskLevel)
  : list Recommendation.t :=
  let recommendations := [] in
  let recommendations :=
    if TechnicalHealth.SecurityScore techHealth <? 3 then
      recommendations ++
        [ {| Recommendation.ID := "sec-001";
             Recommendation.Type_ := RecModernize;
             Recommendation.Description :=
               "Improve security measures and implement additional security controls";
             Recommendation.Priority := PriorityHigh;
             Recommendation.EstimatedEffort := time.Hour * 80;
             Recommendation.BusinessImpact :=
               "Reduce security risks and ensure compliance" |} ]
    else recommendations in
  let recommendations :=
    if TechnicalHealth.CodeQuality techHealth <? 3 then
      recommendations ++
        [ {| Recommendation.ID := "tech-001";
             Recommendation.Type_ := RecEnhance;
             Recommendation.Description :=
               "Refactor code to improve quality and maintainability";
             Recommendation.Priority := PriorityMedium;
             Recommendation.EstimatedEffort := time.Hour * 120;
             Recommendation.BusinessImpact :=
               "Reduce technical debt and improve development velocity" |} ]
    else recommendations in
  let recommendations :=
    if F64.ltb (BusinessValueAssessment.CostEfficiency businessValue) (F64.of_int 70) then
      recommendations ++
        [ {| Recommendation.ID := "cost-001";
             Recommendation.Type_ := RecReplace;
             Recommendation.Description := "Evaluate more cost-effective alternatives";
             Recommendation.Priority := PriorityMedium;
             Recommendation.EstimatedEffort := time.Hour * 40;
             Recommendation.BusinessImpact := "Reduce operational costs" |} ]
    else recommendations in
  let recommendations :=
    if String.eqb riskLevel RiskCritical then
      recommendations ++
        [ {| Recommendation.ID := "risk-001";
             Recommendation.Type_ := RecRetire;
             Recommendation.Description :=
               "Consider retiring or replacing this high-risk application";
             Recommendation.Priority := PriorityCritical;
             Recommendation.EstimatedEffort := time.Hour * 160;
             Recommendation.BusinessImpact :=
               "Eliminate critical business and technical risks" |} ]
    else recommendations in
  recommendations.

(** [EvaluateApplication(ctx, appID, evaluator)].  The agreement is
    fetched and not used; a nil agreement repository makes the lookup
    panic. *)
Definition EvaluateApplication (s : t) (now : time.Time) (appID : ApplicationID)
    (evaluator : string) : result ApplicationAssessment.t :=
  match ApplicationRepository.FindByID (applicationRepo s) appID with
  | Err err => Err (wrap_error "failed to find application" err)
  | Panic => Panic
  | Ok app =>
      match agreementRepo s with
      | None => Panic
      | Some repo =>
          match GovernanceAgreementRepository.FindByApplicationID repo appID with
          | Err err => Err (wrap_error "failed to find governance agreement" err)
          | Panic => Panic
          | Ok _ =>
              let technicalHealth := assessTechnicalHealth now app in
              let businessValue := assessBusinessValue s now app in
              let riskLevel := determineRiskLevel technicalHealth businessValue in
              let recommendations :=
                generateRecommendations technicalHealth businessValue riskLevel in
              Ok {| ApplicationAssessment.ApplicationID := appID;
                    ApplicationAssessment.TechnicalHealth := technicalHealth;
                    ApplicationAssessment.BusinessValue := businessValue;
                    ApplicationAssessment.RiskLevel := riskLevel;
                    ApplicationAssessment.Recommendations := recommendations |}
          end
      end
  end.

(** [calculateAverageApplicationAge]: the total is an int64 sum, and the
    division is the one place where the engine divides by a variable. *)
Definition calculateAverageApplicationAge (now : time.Time) (apps : list Application.t)
  : result time.Duration :=
  if len apps =? 0 then Ok 0
  else
    let totalAge :=
      fold_left (fun totalAge app =>
                   wrap64 (totalAge + time.Since now (Application.CreatedAt app)))
                apps 0 in
    divInt64 totalAge (len apps).

(** The variables that the loop of [EvaluatePortfolio] updates. *)
Record tally : Type :=
  { assessments : list ApplicationAssessment.t;
    activeApps : Z;
    deprecatedApps : Z;
    riskDistribution : gmap string Z }.

Definition tally0 : tally :=
  {| assessments := []; activeApps := 0; deprecatedApps := 0; riskDistribution := ∅ |}.

(** One iteration of the loop: a failed evaluation is skipped. *)
Definition tallyApplication (s : t) (now : time.Time) (acc : tally) (app : Application.t)
  : result tally :=
  match EvaluateApplication s now (Application.ID app) "system" with
  | Panic => Panic
  | Err _ => Ok acc
  | Ok assessment =>
      let '(active, deprecated) :=
        if String.eqb (Application.Status app) StatusActive
        then (activeApps acc + 1, deprecatedApps acc)
        else if String.eqb (Application.Status app) StatusDeprecated
        then (activeApps acc, deprecatedApps acc + 1)
        else if String.eqb (Application.Status app) StatusRetired
        then (activeApps acc, deprecatedApps acc)
        else (activeApps acc, deprecatedApps acc) in
      let level := ApplicationAssessment.RiskLevel assessment in
      Ok {| assessments := assessments acc ++ [assessment];
            activeApps := active;
            deprecatedApps := deprecated;
            riskDistribution :=
              <[level := default 0 (riskDistribution acc !! level) + 1]>
                (riskDistribution acc) |}
  end.

Fixpoint tallyApplications (s : t) (now : time.Time) (acc : tally)
    (apps : list Application.t) : result tally :=
  match apps with
  | [] => Ok acc
  | app :: rest =>
      match tallyApplication s now acc app with
      | Ok acc' => tallyApplications s now acc' rest
      | Err e => Err e
      | Panic => Panic
      end
  end.

Definition EvaluatePortfolio (s : t) (now : time.Time) (portfolioID : PortfolioID)
  : result PortfolioHealthAssessment.t :=
  match ApplicationPortfolioRepository.FindByID (portfolioRepo s) portfolioID with
  | Err err => Err (wrap_error "failed to find portfolio" err)
  | Panic => Panic
  | Ok portfolio =>
      let apps := ApplicationPortfolio.Applications portfolio in
      let totalApps := len apps in
      let redundantApps := 0 in
      let totalCost := F64.of_int 0 in
      match tallyApplications s now tally0 apps with
      | Err e => Err e
      | Panic => Panic
      | Ok acc =>
          match calculateAverageApplicationAge now apps with
          | Err e => Err e
          | Panic => Panic
          | Ok avgAge =>
              Ok {| PortfolioHealthAssessment.TotalApplications := totalApps;
                    PortfolioHealthAssessment.ActiveApplications := activeApps acc;
                    PortfolioHealthAssessment.DeprecatedApplications := deprecatedApps acc;
                    PortfolioHealthAssessment.RedundantApplications := redundantApps;
                    PortfolioHealthAssessment.TotalCost := totalCost;
                    PortfolioHealthAssessment.AverageApplicationAge := avgAge;
                    PortfolioHealthAssessment.RiskDistribution := riskDistribution acc |}
          end
      end
  end.

End EvaluationService.

(** ** The monitoring service (services.go) *)

Module MonitoringService.

(** Every collaborator but the agreement repository may be nil. *)
Record t : Type :=
  { kpiRepo : option KPIRepository.t;
    measurementRepo : option KPIMeasurementRepository.t;
    riskRepo : option RiskRepository.t;
    agreementRepo : GovernanceAgreementRepository.t }.

Definition NewMonitoringService := Build_t.

Definition isKPITargetAchieved (kpi : KPI.t) (measurement : KPIMeasurement.t) : bool :=
  if String.eqb (KPI.Category kpi) "performance"
  then F64.geb (KPIMeasurement.Value measurement) (KPI.Target kpi)
  else if String.eqb (KPI.Category kpi) "efficiency"
  then F64.leb (KPIMeasurement.Value measurement) (KPI.Target kpi)
  else F64.geb (KPIMeasurement.Value measurement) (KPI.Target kpi).

Definition with_Achieved (b : bool) (m : KPIMeasurement.t) : KPIMeasurement.t :=
  {| KPIMeasurement.KPIID := KPIMeasurement.KPIID m;
     KPIMeasurement.Value := KPIMeasurement.Value m;
     KPIMeasurement.Target := KPIMeasurement.Target m;
     KPIMeasurement.Achieved := b;
     KPIMeasurement.MeasuredAt := KPIMeasurement.MeasuredAt m;
     KPIMeasurement.Notes := KPIMeasurement.Notes m |}.

(** The demonstration data returned when a repository is missing. *)
Definition mockMeasurements (now : time.Time) : list KPIMeasurement.t :=
  [ {| KPIMeasurement.KPIID := "kpi-001";
       KPIMeasurement.Value := F64.lit 955 1;
       KPIMeasurement.Target := F64.of_int 100;
       KPIMeasurement.Achieved := false;
       KPIMeasurement.MeasuredAt := now;
       KPIMeasurement.Notes := "Demo KPI measurement" |};
    {| KPIMeasurement.KPIID := "kpi-002";
       KPIMeasurement.Value := F64.lit 992 1;
       KPIMeasurement.Target := F64.of_int 98;
       KPIMeasurement.Achieved := true;
       KPIMeasurement.MeasuredAt := now;
       KPIMeasurement.Notes := "Demo KPI measurement" |} ].

(** The loop of [MonitorKPIs] over the stored KPIs. *)
Fixpoint measureKPIs (measurementRepo : KPIMeasurementRepository.t) (now : time.Time)
    (kpis : list KPI.t) (measurements : list KPIMeasurement.t)
  : result (list KPIMeasurement.t) :=
  match kpis with
  | [] => Ok measurements
  | kpi :: rest =>
      match KPIMeasurementRepository.FindLatest measurementRepo (KPI.ID kpi) with
      | Panic => Panic
      | r =>
          let measurement :=
            match r with
            | Ok measurement => measurement
            | _ => {| KPIMeasurement.KPIID := KPI.ID kpi;
                      KPIMeasurement.Value := F64.of_int 0;
                      KPIMeasurement.Target := KPI.Target kpi;
                      KPIMeasurement.Achieved := false;
                      KPIMeasurement.MeasuredAt := now;
                      KPIMeasurement.Notes := "No measurement available" |}
            end in
          let measurement :=
            with_Achieved (isKPITargetAchieved kpi measurement) measurement in
          measureKPIs measurementRepo now rest (measurements ++ [measurement])
      end
  end.

Definition MonitorKPIs (s : t) (now : time.Time) (agreementID : GovernanceAgreementID)
  : result (list KPIMeasurement.t) :=
  match GovernanceAgreementRepository.FindByID (agreementRepo s) agreementID with
  | Err err => Err (wrap_error "failed to find governance agreement" err)
  | Panic => Panic
  | Ok _ =>
      match kpiRepo s, measurementRepo s with
      | Some kpiRepo, Some measurementRepo =>
          match KPIRepository.FindAll kpiRepo with
          | Err err => Err (wrap_error "failed to find KPIs" err)
          | Panic => Panic
          | Ok kpis => measureKPIs measurementRepo now kpis []
          end
      | _, _ => Ok (mockMeasurements now)
      end
  end.

Definition MonitorCompliance (s : t) (agreementID : GovernanceAgreementID)
  : result ComplianceMonitoring.t :=
  match GovernanceAgreementRepository.FindByID (agreementRepo s) agreementID with
  | Err err => Err (wrap_error "failed to find governance agreement" err)
  | Panic => Panic
  | Ok agreement => Ok (GovernanceAgreement.Conformance_ComplianceMonitoring agreement)
  end.

Definition convertImpactToNumeric (impact : RiskImpact) : spec_float :=
  if String.eqb impact ImpactLow then F64.of_int 1
  else if String.eqb impact ImpactMedium then F64.of_int 2
  else if String.eqb impact ImpactHigh then F64.of_int 3
  else if String.eqb impact ImpactCritical then F64.of_int 4
  else F64.of_int 1.

Definition getRiskThreshold (level : RiskLevel) : spec_float :=
  if String.eqb level RiskLow then F64.of_int 2
  else if String.eqb level RiskMedium then F64.of_int 4
  else if String.eqb level RiskHigh then F64.of_int 8
  else if String.eqb level RiskCritical then F64.of_int 12
  else F64.of_int 2.

Definition determineRiskStatus (risk : Risk.t) : RiskStatus :=
  let currentValue :=
    F64.mul (Risk.Probability risk) (convertImpactToNumeric (Risk.Impact risk)) in
  let threshold := getRiskThreshold (Risk.Level risk) in
  if F64.geb currentValue (F64.mul threshold (F64.lit 15 1)) then RiskStatusCritical
  else if F64.geb currentValue threshold then RiskStatusWarning
  else RiskStatusNormal.

Definition riskIndicator (risk : Risk.t) : RiskIndicator.t :=
  {| RiskIndicator.Name := Risk.Name risk;
     RiskIndicator.Value :=
       F64.mul (Risk.Probability risk) (convertImpactToNumeric (Risk.Impact risk));
     RiskIndicator.Threshold := getRiskThreshold (Risk.Level risk);
     RiskIndicator.Status := determineRiskStatus risk |}.

Definition mockRiskMonitoring : RiskMonitoring.t :=
  {| RiskMonitoring.RiskIndicators :=
       [ {| RiskIndicator.Name := "Technical Debt";
            RiskIndicator.Value := F64.of_int 75;
            RiskIndicator.Threshold := F64.of_int 80;
            RiskIndicator.Status := RiskStatusWarning |};
         {| RiskIndicator.Name := "Security Vulnerabilities";
            RiskIndicator.Value := F64.of_int 25;
            RiskIndicator.Threshold := F64.of_int 50;
            RiskIndicator.Status := RiskStatusNormal |} ];
     RiskMonitoring.RiskHeatMaps := [];
     RiskMonitoring.MitigationTracking := [] |}.

Definition MonitorRisks (s : t) (agreementID : GovernanceAgreementID)
  : result RiskMonitoring.t :=
  match riskRepo s with
  | None => Ok mockRiskMonitoring
  | Some riskRepo =>
      match RiskRepository.FindAll riskRepo with
      | Err err => Err (wrap_error "failed to find risks" err)
      | Panic => Panic
      | Ok risks =>
          Ok {| RiskMonitoring.RiskIndicators := map riskIndicator risks;
                RiskMonitoring.RiskHeatMaps := [];
                RiskMonitoring.MitigationTracking := [] |}
      end
  end.

End MonitoringService.

(** ** Domain events and aggregates (events.go, aggregates.go) *)

Inductive DomainEvent : Type :=
| PortfolioCreatedEvent (PortfolioID : PortfolioID) (Name Owner : string)
    (OccurredAt : time.Time)
| ApplicationAddedToPortfolioEvent (PortfolioID : PortfolioID)
    (ApplicationID : ApplicationID) (ApplicationName : string)
    (GovernanceAgreementID : GovernanceAgreementID) (OccurredAt : time.Time)
| GovernanceAgreementCreatedEvent (AgreementID : GovernanceAgreementID)
    (ApplicationID : ApplicationID) (Title : string) (OccurredAt : time.Time)
| GovernanceAgreementApprovedEvent (AgreementID : GovernanceAgreementID)
    (OccurredAt : time.Time)
| GovernanceAgreementActivatedEvent (AgreementID : GovernanceAgreementID)
    (OccurredAt : time.Time).

Module ApplicationPortfolioAggregate.

Record t : Type :=
  { portfolio : ApplicationPortfolio.t;
    domainEvents : list DomainEvent }.

Definition addDomainEvent (a : t) (event : DomainEvent) : t :=
  {| portfolio := portfolio a; domainEvents := domainEvents a ++ [event] |}.

Definition NewApplicationPortfolioAggregate (now : time.Time) (id : PortfolioID)
    (name description owner : string) : result t :=
  if String.eqb id "" then Err (errors_New "portfolio ID cannot be empty")
  else if String.eqb name "" then Err (errors_New "portfolio name cannot be empty")
  else if String.eqb owner "" then Err (errors_New "portfolio owner cannot be empty")
  else
    let portfolio :=
      {| ApplicationPortfolio.ID := id;
         ApplicationPortfolio.Name := name;
         ApplicationPortfolio.Description := description;
         ApplicationPortfolio.Owner := owner;
         ApplicationPortfolio.Applications := [];
         ApplicationPortfolio.KPIs := [];
         ApplicationPortfolio.CreatedAt := now;
         ApplicationPortfolio.UpdatedAt := now |} in
    let aggregate := {| portfolio := portfolio; domainEvents := [] |} in
    Ok (addDomainEvent aggregate (PortfolioCreatedEvent id name owner now)).

(** The duplicate scan of the aggregate: for each member in turn, first
    its ID and then its name is compared. *)
Fixpoint findDuplicate (apps : list Application.t) (app : Application.t) : option error :=
  match apps with
  | [] => None
  | existing :: rest =>
      if String.eqb (Application.ID existing) (Application.ID app)
      then Some (errors_New "application already exists in portfolio")
      else if String.eqb (Application.Name existing) (Application.Name app)
      then Some (errors_New "application with same name already exists in portfolio")
      else findDuplicate rest app
  end.

(** [func (a *ApplicationPortfolioAggregate) AddApplication(app) error]:
    the aggregate after the call and the error returned. *)
Definition AddApplication (now : time.Time) (a : t) (app : Application.t)
  : t * option error :=
  match Application.Validate app with
  | Some err => (a, Some (wrap_error "invalid application" err))
  | None =>
      match findDuplicate (ApplicationPortfolio.Applications (portfolio a)) app with
      | Some err => (a, Some err)
      | None =>
          if String.eqb (Application.GovernanceAgreementID app) ""
          then (a, Some (errors_New "application must have a governance agreement"))
          else
            let portfolio' :=
              ApplicationPortfolio.with_UpdatedAt now
                (ApplicationPortfolio.with_Applications
                   (ApplicationPortfolio.Applications (portfolio a) ++ [app])
                   (portfolio a)) in
            (addDomainEvent {| portfolio := portfolio'; domainEvents := domainEvents a |}
               (ApplicationAddedToPortfolioEvent
                  (ApplicationPortfolio.ID portfolio') (Application.ID app)
                  (Application.Name app) (Application.GovernanceAgreementID app) now),
             None)
      end
  end.

Definition GetDomainEvents (a : t) : list DomainEvent := domainEvents a.

Definition ClearDomainEvents (a : t) : t :=
  {| portfolio := portfolio a; domainEvents := [] |}.

Definition GetPortfolio (a : t) : ApplicationPortfolio.t := portfolio a.

End ApplicationPortfolioAggregate.

Module GovernanceAgreementAggregate.

Record t : Type :=
  { agreement : GovernanceAgreement.t;
    domainEvents : list DomainEvent }.

Definition addDomainEvent (a : t) (event : DomainEvent) : t :=
  {| agreement := agreement a; domainEvents := domainEvents a ++ [event] |}.

Definition NewGovernanceAgreementAggregate (now : time.Time) (id : GovernanceAgreementID)
    (applicationID : ApplicationID) (title : string) : result t :=
  if String.eqb id "" then Err (errors_New "governance agreement ID cannot be empty")
  else if String.eqb applicationID "" then Err (errors_New "application ID cannot be empty")
  else if String.eqb title ""
  then Err (errors_New "governance agreement title cannot be empty")
  else
    let agreement :=
      {| GovernanceAgreement.ID := id;
         GovernanceAgreement.ApplicationID := applicationID;
         GovernanceAgreement.Title := title;
         GovernanceAgreement.Version := "1.0";
         GovernanceAgreement.Status := AgreementDraft;
         GovernanceAgreement.CreatedAt := now;
         GovernanceAgreement.UpdatedAt := now;
         GovernanceAgreement.Conformance_ComplianceMonitoring :=
           {| ComplianceMonitoring.MonitoringFrequency := "";
              ComplianceMonitoring.ResponsibleParties := [];
              ComplianceMonitoring.ReportingSchedule := "" |};
         GovernanceAgreement.Evaluate_PerformanceMetrics := [];
         GovernanceAgreement.Direct_StrategicDirection_Objectives := [];
         GovernanceAgreement.Direct_ResourceAllocation_BudgetAllocations := [] |} in
    let aggregate := {| agreement := agreement; domainEvents := [] |} in
    Ok (addDomainEvent aggregate (GovernanceAgreementCreatedEvent id applicationID title now)).

(** [Approve]: the aggregate after the call and the error returned. *)
Definition Approve (now : time.Time) (a : t) : t * option error :=
  if negb (String.eqb (GovernanceAgreement.Status (agreement a)) AgreementDraft)
  then (a, Some (errors_New "only draft agreements can be approved"))
  else
    let agreement' :=
      GovernanceAgreement.with_UpdatedAt now
        (GovernanceAgreement.with_Status AgreementApproved (agreement a)) in
    (addDomainEvent {| agreement := agreement'; domainEvents := domainEvents a |}
       (GovernanceAgreementApprovedEvent (GovernanceAgreement.ID agreement') now),
     None).

(** [Activate]: the aggregate after the call and the error returned. *)
Definition Activate (now : time.Time) (a : t) : t * option error :=
  if negb (String.eqb (GovernanceAgreement.Status (agreement a)) AgreementApproved)
  then (a, Some (errors_New "only approved agreements can be activated"))
  else
    let agreement' :=
      GovernanceAgreement.with_UpdatedAt now
        (GovernanceAgreement.with_Status AgreementActive (agreement a)) in
    (addDomainEvent {| agreement := agreement'; domainEvents := domainEvents a |}
       (GovernanceAgreementActivatedEvent (GovernanceAgreement.ID agreement') now),
     None).

Definition GetDomainEvents (a : t) : list DomainEvent := domainEvents a.

Definition ClearDomainEvents (a : t) : t :=
  {| agreement := agreement a; domainEvents := [] |}.

Definition GetAgreement (a : t) : GovernanceAgreement.t := agreement a.

(** The two status-changing operations, and a run of them from a given
    aggregate: each call gets its own clock reading, an error leaves the
    aggregate as it is and the run goes on. *)
Inductive operation : Type := OpApprove | OpActivate.

Definition apply (now : time.Time) (op : operation) (a : t) : t * option error :=
  match op with
  | OpApprove => Approve now a
  | OpActivate => Activate now a
  end.

(** The statuses after each call of the run that succeeded. *)
Fixpoint transitions (a : t) (ops : list (time.Time * operation)) : list AgreementStatus :=
  match ops with
  | [] => []
  | (now, op) :: rest =>
      match apply now op a with
      | (a', None) => GovernanceAgreement.Status (agreement a') :: transitions a' rest
      | (a', Some _) => transitions a' rest
      end
  end.

End GovernanceAgreementAggregate.

(** ** The methods of the events and the event store (events.go,
    event_repository.go) *)

Module Event.

Definition EventType (e : DomainEvent) : string :=
  match e with
  | PortfolioCreatedEvent _ _ _ _ => "PortfolioCreated"
  | ApplicationAddedToPortfolioEvent _ _ _ _ _ => "ApplicationAddedToPortfolio"
  | GovernanceAgreementCreatedEvent _ _ _ _ => "GovernanceAgreementCreated"
  | GovernanceAgreementApprovedEvent _ _ => "GovernanceAgreementApproved"
  | GovernanceAgreementActivatedEvent _ _ => "GovernanceAgreementActivated"
  end.

(** [Time()] returns the [OccurredAt] field. *)
Definition Time (e : DomainEvent) : time.Time :=
  match e with
  | PortfolioCreatedEvent _ _ _ occurredAt => occurredAt
  | ApplicationAddedToPortfolioEvent _ _ _ _ occurredAt => occurredAt
  | GovernanceAgreementCreatedEvent _ _ _ occurredAt => occurredAt
  | GovernanceAgreementApprovedEvent _ occurredAt => occurredAt
  | GovernanceAgreementActivatedEvent _ occurredAt => occurredAt
  end.

End Event.

Module DomainEventRepositoryMemory.

Record t : Type := { events : list DomainEvent }.

Definition New : t := {| events := [] |}.

Definition Save (r : t) (event : DomainEvent) : t :=
  {| events := events r ++ [event] |}.

(** [aggregateID] is accepted and not used, as in the source. *)
Definition FindByAggregateID (r : t) (aggregateID : string) : result (list DomainEvent) :=
  Ok (fold_left (fun found event => found ++ [event]) (events r) []).

Definition FindByEventType (r : t) (eventType : string) : result (list DomainEvent) :=
  Ok (fold_left (fun found event =>
                   if String.eqb (Event.EventType event) eventType
                   then found ++ [event] else found) (events r) []).

Definition FindByTimeRange (r : t) (start finish : time.Time)
  : result (list DomainEvent) :=
  Ok (fold_left (fun found event =>
                   if time.After (Event.Time event) start
                      && time.Before (Event.Time event) finish
                   then found ++ [event] else found) (events r) []).

(** [Delete] does nothing and returns no error. *)
Definition Delete (r : t) (eventID : string) : t := r.

End DomainEventRepositoryMemory.

(** ** The direction service (services.go)

    The service over the in-memory agreement repository, as the example
    program wires it.  Of the Direct principle the agreement record keeps
    the objectives and the budget allocations; the initiatives, the action
    plans made from the objectives, the personnel allocations and the
    [LastDirected] stamp, which no engine reads, are not represented.  Each
    operation returns the repository after the call and its outcome, [Ok tt]
    for the nil error. *)

Module DirectionService.

Definition SetStrategicDirection (agreementRepo : GovernanceAgreementRepositoryMemory.t)
    (agreementID : GovernanceAgreementID) (director : string)
    (objectives : list StrategicObjective.t)
  : GovernanceAgreementRepositoryMemory.t * result unit :=
  match GovernanceAgreementRepositoryMemory.FindByID agreementRepo agreementID with
  | Ok agreement =>
      let agreement := GovernanceAgreement.with_Objectives objectives agreement in
      match GovernanceAgreementRepositoryMemory.Update agreementRepo agreement with
      | (agreementRepo', Some err) =>
          (agreementRepo', Err (wrap_error "failed to update governance agreement" err))
      | (agreementRepo', None) => (agreementRepo', Ok tt)
      end
  | Err err => (agreementRepo, Err (wrap_error "failed to find governance agreement" err))
  | Panic => (agreementRepo, Panic)
  end.

Definition AllocateResources (agreementRepo : GovernanceAgreementRepositoryMemory.t)
    (agreementID : GovernanceAgreementID) (budgetAllocations : list BudgetAllocation.t)
  : GovernanceAgreementRepositoryMemory.t * result unit :=
  match GovernanceAgreementRepositoryMemory.FindByID agreementRepo agreementID with
  | Ok agreement =>
      let agreement := GovernanceAgreement.with_BudgetAllocations budgetAllocations agreement in
      match GovernanceAgreementRepositoryMemory.Update agreementRepo agreement with
      | (agreementRepo', Some err) =>
          (agreementRepo', Err (wrap_error "failed to update governance agreement" err))
      | (agreementRepo', None) => (agreementRepo', Ok tt)
      end
  | Err err => (agreementRepo, Err (wrap_error "failed to find governance agreement" err))
  | Panic => (agreementRepo, Panic)
  end.

End DirectionService.

(** ** The evaluation service of the SDK (domain/services.go)

    The scorer of the SDK differs from the signal-based one in its two
    assessments; [determineRiskLevel] and [generateRecommendations] are the
    same functions. *)

Module SDKEvaluationService.

Definition assessTechnicalHealth (app : Application.t) : TechnicalHealth.t :=
  let score := 3 in
  let score :=
    if 0 <? len (SecurityProvisions.DataConfidentiality (Application.SecurityProvisions app))
    then score + 1 else score in
  let score :=
    if 0 <? len (SecurityProvisions.DataIntegrity (Application.SecurityProvisions app))
    then score + 1 else score in
  let score :=
    if time.IsZero (ApplicationCatalogue.LastUpdated (Application.Catalogue app))
    then score - 1 else score in
  let score := if score <? 1 then 1 else score in
  let score := if 5 <? score then 5 else score in
  {| TechnicalHealth.CodeQuality := score;
     TechnicalHealth.Documentation := score;
     TechnicalHealth.TestCoverage := F64.mul (F64.of_int score) (F64.of_int 20);
     TechnicalHealth.SecurityScore := score;
     TechnicalHealth.PerformanceScore := score |}.

Definition assessBusinessValue (app : Application.t) : BusinessValueAssessment.t :=
  {| BusinessValueAssessment.UsageMetrics :=
       {| UsageMetrics.ActiveUsers := 100;
          UsageMetrics.TransactionVolume := 1000;
          UsageMetrics.UptimePercentage := F64.lit 999 1;
          UsageMetrics.ResponseTime := time.Millisecond * 200 |};
     BusinessValueAssessment.BusinessAlignment := F64.of_int 85;
     BusinessValueAssessment.CostEfficiency := F64.of_int 75;
     BusinessValueAssessment.UserSatisfaction := F64.of_int 80 |}.

Definition EvaluateApplication (s : EvaluationService.t) (appID : ApplicationID)
    (evaluator : string) : result ApplicationAssessment.t :=
  match ApplicationRepository.FindByID (EvaluationService.applicationRepo s) appID with
  | Err err => Err (wrap_error "failed to find application" err)
  | Panic => Panic
  | Ok app =>
      match EvaluationService.agreementRepo s with
      | None => Panic
      | Some repo =>
          match GovernanceAgreementRepository.FindByApplicationID repo appID with
          | Err err => Err (wrap_error "failed to find governance agreement" err)
          | Panic => Panic
          | Ok _ =>
              let technicalHealth := assessTechnicalHealth app in
              let businessValue := assessBusinessValue app in
              let riskLevel :=
                EvaluationService.determineRiskLevel technicalHealth businessValue in
              let recommendations :=
                EvaluationService.generateRecommendations technicalHealth businessValue
                  riskLevel in
              Ok {| ApplicationAssessment.ApplicationID := appID;
                    ApplicationAssessment.TechnicalHealth := technicalHealth;
                    ApplicationAssessment.BusinessValue := businessValue;
                    ApplicationAssessment.RiskLevel := riskLevel;
                    ApplicationAssessment.Recommendations := recommendations |}
          end
      end
  end.

End SDKEvaluationService.

(** ** Wiring and vocabulary of the properties *)

(** The services over the in-memory repositories, wired as the test
    program wires them: no KPI and no risk repository for the evaluation. *)
Definition memoryEvaluationService (apps : ApplicationRepositoryMemory.t)
    (agreements : GovernanceAgreementRepositoryMemory.t)
    (portfolios : ApplicationPortfolioRepositoryMemory.t) : EvaluationService.t :=
  EvaluationService.NewEvaluationService
    (ApplicationRepositoryMemory.as_repository apps)
    (Some (GovernanceAgreementRepositoryMemory.as_repository agreements))
    (ApplicationPortfolioRepositoryMemory.as_repository portfolios)
    None None.

Definition memoryMonitoringService (kpiRepo : option KPIRepository.t)
    (measurementRepo : option KPIMeasurementRepository.t)
    (riskRepo : option RiskRepository.t)
    (agreements : GovernanceAgreementRepositoryMemory.t) : MonitoringService.t :=
  MonitoringService.NewMonitoringService kpiRepo measurementRepo riskRepo
    (GovernanceAgreementRepositoryMemory.as_repository agreements).

(** The kinds of error of the specification.  The code has no error
    types: a kind is the set of root messages that stand for it, and a
    wrapped error keeps the kind of its cause. *)
Fixpoint hasSuffix (s suffix : string) : bool :=
  if String.eqb s suffix then true
  else match s with
       | EmptyString => false
       | String _ rest => hasSuffix rest suffix
       end.

Definition isNotFound (e : error) : bool :=
  hasSuffix e "application not found"
  || hasSuffix e "governance agreement not found"
  || hasSuffix e "governance agreement not found for application"
  || hasSuffix e "portfolio not found".

Definition isAlreadyExists (e : error) : bool :=
  hasSuffix e "application already exists in portfolio"
  || hasSuffix e "application with same name already exists in portfolio"
  || hasSuffix e "application already in portfolio".

Definition isInvalidState (e : error) : bool :=
  hasSuffix e "only draft agreements can be approved"
  || hasSuffix e "only approved agreements can be activated".

Definition isValidationError (e : error) : bool :=
  hasSuffix e "application ID cannot be empty"
  || hasSuffix e "application name cannot be empty".

(** The running score of [assessTechnicalHealth] once bounded, and the
    two deltas that enter the reported numbers. *)
Definition overallScore (now : time.Time) (app : Application.t) : Z :=
  EvaluationService.clampScore
    (3 + EvaluationService.analyzeVersionMaturity (Application.Version app)
       + EvaluationService.analyzeSecurityProvisions (Application.SecurityProvisions app)
       + EvaluationService.analyzeDocumentationCompleteness now (Application.Catalogue app)
       + EvaluationService.analyzeApplicationAge now (Application.CreatedAt app)
           (Application.UpdatedAt app)
       + EvaluationService.analyzeApplicationStatus (Application.Status app)).

Definition securityDelta (app : Application.t) : Z :=
  EvaluationService.analyzeSecurityProvisions (Application.SecurityProvisions app).

Definition ageDelta (now : time.Time) (app : Application.t) : Z :=
  EvaluationService.analyzeApplicationAge now (Application.CreatedAt app)
    (Application.UpdatedAt app).

(** The adjustment as the specification words it, in exact rational
    arithmetic: a variance of 10% of the sub-score, clamped to [-1/2, 1/2],
    is added; the sum is rounded to the nearest integer and the result is
    clamped to [1, 5]. *)
Definition Qclamp (lo hi x : Q) : Q :=
  if Qle_bool x lo then lo else if Qle_bool hi x then hi else x.

Definition roundNearest (x : Q) : Z := Qfloor (Qplus x (1 # 2)).

Definition nominalAdjust (subScore : Z) : Z :=
  let variance := Qclamp (Qopp (1 # 2)) (1 # 2) (Qmult (inject_Z subScore) (1 # 10)) in
  Z.max 1 (Z.min 5 (roundNearest (Qplus (inject_Z subScore) variance))).

(** The integer-truncating average of the three scores that decide the
    risk level. *)
Definition truncatedAverage (techHealth : TechnicalHealth.t) : Z :=
  Z.quot (TechnicalHealth.CodeQuality techHealth
          + TechnicalHealth.SecurityScore techHealth
          + TechnicalHealth.PerformanceScore techHealth) 3.

(** Comparisons of float64 values as propositions. *)
Definition F64lt (x y : spec_float) : Prop := F64.ltb x y = true.
Definition F64le (x y : spec_float) : Prop := F64.leb x y = true.

(** Every comparison of a clock reading that the evaluation of an
    application makes, in the order of the source. *)
Definition clockSignals (now : time.Time) (app : Application.t) : list bool :=
  let created := Application.CreatedAt app in
  let updated := Application.UpdatedAt app in
  let catalogued := ApplicationCatalogue.LastUpdated (Application.Catalogue app) in
  [ F64.ltb (EvaluationService.daysSince now catalogued) (F64.of_int 90);
    F64.ltb (EvaluationService.daysSince now catalogued) (F64.of_int 365);
    F64.gtb (EvaluationService.daysSince now created) (F64.of_int (365 * 5));
    F64.gtb (EvaluationService.daysSince now created) (F64.of_int (365 * 2));
    F64.ltb (EvaluationService.daysSince now updated) (F64.of_int 90);
    F64.ltb (EvaluationService.daysSince now updated) (F64.of_int 180);
    F64.gtb (EvaluationService.yearsSince now created) (F64.of_int 3);
    F64.ltb (time.Hours (time.Since now updated)) (F64.of_int (24 * 30));
    F64.ltb (time.Hours (time.Since now updated)) (F64.of_int (24 * 90));
    F64.gtb (EvaluationService.yearsSince now created) (F64.of_int 5);
    F64.ltb (EvaluationService.yearsSince now created) (F64.of_int 1);
    F64.ltb (time.Hours (time.Since now updated)) (F64.of_int (24 * 60)) ].

(** The members of a portfolio whose evaluation succeeds, and the count of
    those among them that have a given status. *)
Definition evaluable (s : EvaluationService.t) (now : time.Time) (app : Application.t) : bool :=
  is_Ok (EvaluationService.EvaluateApplication s now (Application.ID app) "system").

Definition countStatus (s : EvaluationService.t) (now : time.Time)
    (status : ApplicationStatus) (apps : list Application.t) : Z :=
  len (List.filter (fun app => evaluable s now app && String.eqb (Application.Status app) status)
         apps).

(** A percentage: a float64 between 0 and 100. *)
Definition percentage (x : spec_float) : Prop :=
  F64le (F64.of_int 0) x /\ F64le x (F64.of_int 100).

(** A probability: a float64 value (every float64 is a valid binary64
    number) between 0 and 1. *)
Definition probability (p : spec_float) : Prop :=
  F64.valid p = true /\ F64le (F64.of_int 0) p /\ F64le p (F64.of_int 1).

(** A float64 that is zero, or finite and of magnitude at most four: its
    exponent is at most -51, or it is the power of two [2^52 * 2^(-50)]. *)
Definition withinFour (x : spec_float) : Prop :=
  match x with
  | S754_zero _ => True
  | S754_finite _ m e => e <= -51 \/ (e = -50 /\ Z.pos m = 2 ^ 52)
  | _ => False
  end.

(** ** The application services (package application)

    The services hold the repositories by reference and share them; the
    stores below are the four in-memory repositories that the example
    program creates and hands to every service.  An operation returns the
    stores after the call and its outcome, [Ok tt] for the nil error.  The
    in-memory event store never fails, so the branch that logs a failed
    save of an event is never taken. *)

Module Stores.
Record t : Type :=
  { appRepo : ApplicationRepositoryMemory.t;
    agreementRepo : GovernanceAgreementRepositoryMemory.t;
    portfolioRepo : ApplicationPortfolioRepositoryMemory.t;
    eventRepo : DomainEventRepositoryMemory.t }.

Definition New : t :=
  {| appRepo := ApplicationRepositoryMemory.New;
     agreementRepo := GovernanceAgreementRepositoryMemory.New;
     portfolioRepo := ApplicationPortfolioRepositoryMemory.New;
     eventRepo := DomainEventRepositoryMemory.New |}.

Definition with_agreementRepo (r : GovernanceAgreementRepositoryMemory.t) (w : t) : t :=
  {| appRepo := appRepo w; agreementRepo := r; portfolioRepo := portfolioRepo w;
     eventRepo := eventRepo w |}.

Definition with_portfolioRepo (r : ApplicationPortfolioRepositoryMemory.t) (w : t) : t :=
  {| appRepo := appRepo w; agreementRepo := agreementRepo w; portfolioRepo := r;
     eventRepo := eventRepo w |}.

Definition with_eventRepo (r : DomainEventRepositoryMemory.t) (w : t) : t :=
  {| appRepo := appRepo w; agreementRepo := agreementRepo w;
     portfolioRepo := portfolioRepo w; eventRepo := r |}.

(** The loop that saves the events of an aggregate. *)
Definition saveEvents (events : list DomainEvent) (w : t) : t :=
  with_eventRepo (fold_left DomainEventRepositoryMemory.Save events (eventRepo w)) w.
End Stores.

Module PortfolioService.

Definition CreatePortfolio (now : time.Time) (w : Stores.t) (id : PortfolioID)
    (name description owner : string) : Stores.t * result ApplicationPortfolio.t :=
  match ApplicationPortfolioAggregate.NewApplicationPortfolioAggregate
          now id name description owner with
  | Err err => (w, Err (wrap_error "failed to create portfolio aggregate" err))
  | Panic => (w, Panic)
  | Ok aggregate =>
      let portfolio := ApplicationPortfolioAggregate.GetPortfolio aggregate in
      let w :=
        Stores.with_portfolioRepo
          (ApplicationPortfolioRepositoryMemory.Save (Stores.portfolioRepo w) portfolio) w in
      let w :=
        Stores.saveEvents (ApplicationPortfolioAggregate.GetDomainEvents aggregate) w in
      (w, Ok portfolio)
  end.

Definition AddApplicationToPortfolio (now : time.Time) (w : Stores.t)
    (portfolioID : PortfolioID) (applicationID : ApplicationID)
  : Stores.t * result unit :=
  match ApplicationRepositoryMemory.FindByID (Stores.appRepo w) applicationID with
  | Err err => (w, Err (wrap_error "application not found" err))
  | Panic => (w, Panic)
  | Ok app =>
      match GovernanceAgreementRepositoryMemory.FindByApplicationID
              (Stores.agreementRepo w) applicationID with
      | Err err => (w, Err (wrap_error "governance agreement not found for application" err))
      | Panic => (w, Panic)
      | Ok _ =>
          match ApplicationPortfolioRepositoryMemory.FindByID
                  (Stores.portfolioRepo w) portfolioID with
          | Err err => (w, Err (wrap_error "portfolio not found" err))
          | Panic => (w, Panic)
          | Ok portfolio =>
              if ApplicationPortfolio.has_ID
                   (ApplicationPortfolio.Applications portfolio) applicationID
              then (w, Err (errors_New "application already exists in portfolio"))
              else
                let portfolio :=
                  ApplicationPortfolio.with_UpdatedAt now
                    (ApplicationPortfolio.with_Applications
                       (ApplicationPortfolio.Applications portfolio ++ [app]) portfolio) in
                let w :=
                  Stores.with_portfolioRepo
                    (ApplicationPortfolioRepositoryMemory.Save (Stores.portfolioRepo w)
                       portfolio) w in
                let event :=
                  ApplicationAddedToPortfolioEvent portfolioID applicationID
                    (Application.Name app) (Application.GovernanceAgreementID app) now in
                let w :=
                  Stores.with_eventRepo
                    (DomainEventRepositoryMemory.Save (Stores.eventRepo w) event) w in
                (w, Ok tt)
          end
      end
  end.

Definition ListPortfoliosByOwner (w : Stores.t) (owner : string)
  : result (list ApplicationPortfolio.t) :=
  match ApplicationPortfolioRepositoryMemory.FindByOwner (Stores.portfolioRepo w) owner with
  | Err err => Err (wrap_error "failed to list portfolios by owner" err)
  | Panic => Panic
  | Ok portfolios => Ok portfolios
  end.

Definition UpdatePortfolio (now : time.Time) (w : Stores.t) (id : PortfolioID)
    (name description : string) : Stores.t * result unit :=
  match ApplicationPortfolioRepositoryMemory.FindByID (Stores.portfolioRepo w) id with
  | Err err => (w, Err (wrap_error "portfolio not found" err))
  | Panic => (w, Panic)
  | Ok portfolio =>
      let portfolio :=
        {| ApplicationPortfolio.ID := ApplicationPortfolio.ID portfolio;
           ApplicationPortfolio.Name := name;
           ApplicationPortfolio.Description := description;
           ApplicationPortfolio.Owner := ApplicationPortfolio.Owner portfolio;
           ApplicationPortfolio.Applications := ApplicationPortfolio.Applications portfolio;
           ApplicationPortfolio.KPIs := ApplicationPortfolio.KPIs portfolio;
           ApplicationPortfolio.CreatedAt := ApplicationPortfolio.CreatedAt portfolio;
           ApplicationPortfolio.UpdatedAt := now |} in
      (Stores.with_portfolioRepo
         (ApplicationPortfolioRepositoryMemory.Save (Stores.portfolioRepo w) portfolio) w,
       Ok tt)
  end.

Definition DeletePortfolio (w : Stores.t) (portfolioID : PortfolioID)
  : Stores.t * result unit :=
  match ApplicationPortfolioRepositoryMemory.FindByID (Stores.portfolioRepo w) portfolioID with
  | Err err => (w, Err (wrap_error "portfolio not found" err))
  | Panic => (w, Panic)
  | Ok portfolio =>
      if 0 <? len (ApplicationPortfolio.Applications portfolio)
      then (w, Err (errors_New "cannot delete portfolio with applications"))
      else
        match ApplicationPortfolioRepositoryMemory.Delete (Stores.portfolioRepo w)
                portfolioID with
        | (portfolioRepo', Some err) =>
            (Stores.with_portfolioRepo portfolioRepo' w,
             Err (wrap_error "failed to delete portfolio" err))
        | (portfolioRepo', None) => (Stores.with_portfolioRepo portfolioRepo' w, Ok tt)
        end
  end.

End PortfolioService.

Module GovernanceMonitoringResult.
Record t : Type :=
  { KPIMeasurements : list KPIMeasurement.t;
    ComplianceStatus : ComplianceMonitoring.t;
    RiskStatus : RiskMonitoring.t }.
End GovernanceMonitoringResult.

Module GovernanceService.

Definition CreateGovernanceAgreement (now : time.Time) (w : Stores.t)
    (id : GovernanceAgreementID) (applicationID : ApplicationID) (title : string)
  : Stores.t * result GovernanceAgreement.t :=
  match ApplicationRepositoryMemory.FindByID (Stores.appRepo w) applicationID with
  | Err err => (w, Err (wrap_error "application not found" err))
  | Panic => (w, Panic)
  | Ok _ =>
      match GovernanceAgreementAggregate.NewGovernanceAgreementAggregate
              now id applicationID title with
      | Err err =>
          (w, Err (wrap_error "failed to create governance agreement aggregate" err))
      | Panic => (w, Panic)
      | Ok aggregate =>
          let agreement := GovernanceAgreementAggregate.GetAgreement aggregate in
          let w :=
            Stores.with_agreementRepo
              (GovernanceAgreementRepositoryMemory.Save (Stores.agreementRepo w) agreement)
              w in
          let w :=
            Stores.saveEvents (GovernanceAgreementAggregate.GetDomainEvents aggregate) w in
          (w, Ok agreement)
      end
  end.

Definition ApproveGovernanceAgreement (now : time.Time) (w : Stores.t)
    (agreementID : GovernanceAgreementID) : Stores.t * result unit :=
  match GovernanceAgreementRepositoryMemory.FindByID (Stores.agreementRepo w) agreementID with
  | Err err => (w, Err (wrap_error "governance agreement not found" err))
  | Panic => (w, Panic)
  | Ok agreement =>
      if negb (String.eqb (GovernanceAgreement.Status agreement) AgreementDraft)
      then (w, Err (errors_New "only draft agreements can be approved"))
      else
        let agreement :=
          GovernanceAgreement.with_UpdatedAt now
            (GovernanceAgreement.with_Status AgreementApproved agreement) in
        match GovernanceAgreementRepositoryMemory.Update (Stores.agreementRepo w)
                agreement with
        | (agreementRepo', Some err) =>
            (Stores.with_agreementRepo agreementRepo' w,
             Err (wrap_error "failed to save approved agreement" err))
        | (agreementRepo', None) =>
            let w := Stores.with_agreementRepo agreementRepo' w in
            let event := GovernanceAgreementApprovedEvent agreementID now in
            (Stores.with_eventRepo
               (DomainEventRepositoryMemory.Save (Stores.eventRepo w) event) w,
             Ok tt)
        end
  end.

Definition ActivateGovernanceAgreement (now : time.Time) (w : Stores.t)
    (agreementID : GovernanceAgreementID) : Stores.t * result unit :=
  match GovernanceAgreementRepositoryMemory.FindByID (Stores.agreementRepo w) agreementID with
  | Err err => (w, Err (wrap_error "governance agreement not found" err))
  | Panic => (w, Panic)
  | Ok agreement =>
      if negb (String.eqb (GovernanceAgreement.Status agreement) AgreementApproved)
      then (w, Err (errors_New "only approved agreements can be activated"))
      else
        let agreement :=
          GovernanceAgreement.with_UpdatedAt now
            (GovernanceAgreement.with_Status AgreementActive agreement) in
        match GovernanceAgreementRepositoryMemory.Update (Stores.agreementRepo w)
                agreement with
        | (agreementRepo', Some err) =>
            (Stores.with_agreementRepo agreementRepo' w,
             Err (wrap_error "failed to save activated agreement" err))
        | (agreementRepo', None) =>
            let w := Stores.with_agreementRepo agreementRepo' w in
            let event := GovernanceAgreementActivatedEvent agreementID now in
            (Stores.with_eventRepo
               (DomainEventRepositoryMemory.Save (Stores.eventRepo w) event) w,
             Ok tt)
        end
  end.

(** [MonitorGovernance] runs the three monitors of the monitoring service
    in turn and stops at the first error. *)
Definition MonitorGovernance (monitorService : MonitoringService.t) (now : time.Time)
    (agreementID : GovernanceAgreementID) : result GovernanceMonitoringResult.t :=
  match MonitoringService.MonitorKPIs monitorService now agreementID with
  | Err err => Err (wrap_error "failed to monitor KPIs" err)
  | Panic => Panic
  | Ok kpiMeasurements =>
      match MonitoringService.MonitorCompliance monitorService agreementID with
      | Err err => Err (wrap_error "failed to monitor compliance" err)
      | Panic => Panic
      | Ok compliance =>
          match MonitoringService.MonitorRisks monitorService agreementID with
          | Err err => Err (wrap_error "failed to monitor risks" err)
          | Panic => Panic
          | Ok risks =>
              Ok {| GovernanceMonitoringResult.KPIMeasurements := kpiMeasurements;
                    GovernanceMonitoringResult.ComplianceStatus := compliance;
                    GovernanceMonitoringResult.RiskStatus := risks |}
          end
      end
  end.

End GovernanceService.

(** ** Vocabulary of the properties of the stores and the services *)

(** The number of occurrences of a byte in a string. *)
Fixpoint countByte (c : ascii) (s : string) : Z :=
  match s with
  | EmptyString => 0
  | String a rest => (if Ascii.eqb a c then 1 else 0) + countByte c rest
  end.

(** The IDs of a list of recommendations, in order. *)
Definition recommendationIDs (recommendations : list Recommendation.t) : list string :=
  map Recommendation.ID recommendations.

(** The number of members whose evaluation succeeds with a given risk
    level. *)
Definition hasLevel (s : EvaluationService.t) (now : time.Time) (level : RiskLevel)
    (app : Application.t) : bool :=
  match EvaluationService.EvaluateApplication s now (Application.ID app) "system" with
  | Ok assessment => String.eqb (ApplicationAssessment.RiskLevel assessment) level
  | _ => false
  end.

Definition countLevel (s : EvaluationService.t) (now : time.Time) (level : RiskLevel)
    (apps : list Application.t) : Z :=
  len (List.filter (hasLevel s now level) apps).

(** A histogram entry: absent when the count is zero. *)
Definition histogramEntry (count : Z) : option Z :=
  if count =? 0 then None else Some count.

(** The sum of the ages of the members, as a mathematical integer. *)
Definition totalAge (now : time.Time) (apps : list Application.t) : Z :=
  fold_right (fun app total => time.Since now (Application.CreatedAt app) + total) 0 apps.

(** What [MonitorKPIs] reports for a KPI: the latest measurement with
    its [Achieved] flag computed anew, or a measurement of zero when the
    store has none. *)
Definition reportedFor (measurementRepo : KPIMeasurementRepository.t) (now : time.Time)
    (kpi : KPI.t) (m : KPIMeasurement.t) : Prop :=
  KPIMeasurement.Achieved m = MonitoringService.isKPITargetAchieved kpi m
  /\ match KPIMeasurementRepository.FindLatest measurementRepo (KPI.ID kpi) with
     | Ok latest =>
         m = MonitoringService.with_Achieved (KPIMeasurement.Achieved m) latest
     | _ =>
         KPIMeasurement.KPIID m = KPI.ID kpi
         /\ KPIMeasurement.Value m = F64.of_int 0
         /\ KPIMeasurement.Target m = KPI.Target kpi
         /\ KPIMeasurement.MeasuredAt m = now
         /\ KPIMeasurement.Notes m = "No measurement available"
     end.

(** A run of [AddApplication] calls on a portfolio aggregate: each call
    has its own clock reading, and a refused call leaves the aggregate as
    it is. *)
Fixpoint addApplications (a : ApplicationPortfolioAggregate.t)
    (calls : list (time.Time * Application.t)) : ApplicationPortfolioAggregate.t :=
  match calls with
  | [] => a
  | (now, app) :: rest =>
      addApplications (fst (ApplicationPortfolioAggregate.AddApplication now a app)) rest
  end.

(** The rules that the portfolio aggregate checks before it takes a new
    member. *)
Definition admissible (members : list Application.t) (app : Application.t) : Prop :=
  Application.ID app <> "" /\ Application.Name app <> ""
  /\ Application.GovernanceAgreementID app <> ""
  /\ Forall (fun member =>
               Application.ID member <> Application.ID app
               /\ Application.Name member <> Application.Name app) members.

(** The aggregate invariant: distinct IDs, distinct names, valid members
    with an agreement, and one event for the creation and for each member. *)
Definition wellFormed (a : ApplicationPortfolioAggregate.t) : Prop :=
  let members :=
    ApplicationPortfolio.Applications (ApplicationPortfolioAggregate.portfolio a) in
  NoDup (map Application.ID members)
  /\ NoDup (map Application.Name members)
  /\ Forall (fun member =>
               Application.Validate member = None
               /\ Application.GovernanceAgreementID member <> "") members
  /\ len (ApplicationPortfolioAggregate.domainEvents a) = 1 + len members.

(** The state-changing operations of the agreement store and of the
    application store, and runs of them; an operation that returns an
    error leaves the store as it is. *)
Inductive agreementOp : Type :=
| SaveAgreement (agreement : GovernanceAgreement.t)
| UpdateAgreement (agreement : GovernanceAgreement.t)
| DeleteAgreement (id : GovernanceAgreementID).

Definition applyAgreementOp (r : GovernanceAgreementRepositoryMemory.t) (op : agreementOp)
  : GovernanceAgreementRepositoryMemory.t :=
  match op with
  | SaveAgreement agreement => GovernanceAgreementRepositoryMemory.Save r agreement
  | UpdateAgreement agreement => fst (GovernanceAgreementRepositoryMemory.Update r agreement)
  | DeleteAgreement id => fst (GovernanceAgreementRepositoryMemory.Delete r id)
  end.

Inductive applicationOp : Type :=
| SaveApplication (app : Application.t)
| UpdateApplication (app : Application.t)
| DeleteApplication (id : ApplicationID).

Definition applyApplicationOp (r : ApplicationRepositoryMemory.t) (op : applicationOp)
  : ApplicationRepositoryMemory.t :=
  match op with
  | SaveApplication app => ApplicationRepositoryMemory.Save r app
  | UpdateApplication app => fst (ApplicationRepositoryMemory.Update r app)
  | DeleteApplication id => fst (ApplicationRepositoryMemory.Delete r id)
  end.

(** The score of the SDK's [assessTechnicalHealth] before its bounds
    check: three, plus one for each of the two data-protection lists that
    is not empty, minus one when the catalogue was never updated. *)
Definition sdkScore (app : Application.t) : Z :=
  3
  + (if 0 <? len (SecurityProvisions.DataConfidentiality (Application.SecurityProvisions app))
     then 1 else 0)
  + (if 0 <? len (SecurityProvisions.DataIntegrity (Application.SecurityProvisions app))
     then 1 else 0)
  - (if time.IsZero (ApplicationCatalogue.LastUpdated (Application.Catalogue app))
     then 1 else 0).

(** ** Sample data

    The stores of a small installation, used to run the operations on
    concrete inputs: one application "a1" with its agreement "g1", and a
    portfolio that holds a copy of "a1" and a copy of an application "a2"
    that the application store does not know. *)

Definition day : time.Duration := 24 * time.Hour.

Definition sampleStart : time.Time := 730000 * day.

(** Two clock readings: ten days and 2000 days after [sampleStart]. *)
Definition sampleNow : time.Time := sampleStart + 10 * day.

Definition sampleLater : time.Time := sampleStart + 2000 * day.

Definition noProvisions : SecurityProvisions.t :=
  {| SecurityProvisions.DataConfidentiality := [];
     SecurityProvisions.DataIntegrity := [];
     SecurityProvisions.ApplicationAuthenticity := [];
     SecurityProvisions.RolesAndPermissions := [];
     SecurityProvisions.ApplicationAvailability :=
       {| SLA.ServiceName := ""; SLA.ResponseTime := 0;
          SLA.Availability := S754_zero false |} |}.

Definition sampleApplicationWith (id : ApplicationID) (name : string)
    (status : ApplicationStatus) : Application.t :=
  {| Application.ID := id; Application.Name := name; Application.Description := "";
     Application.Version := "1.0.0"; Application.Status := status;
     Application.CreatedAt := sampleStart; Application.UpdatedAt := sampleStart;
     Application.GovernanceAgreementID := "g1";
     Application.Catalogue :=
       {| ApplicationCatalogue.Functionality := [];
          ApplicationCatalogue.LastUpdated := time.zero |};
     Application.SecurityProvisions := noProvisions |}.

Definition sampleApplication : Application.t :=
  sampleApplicationWith "a1" "X" StatusActive.

(** An application with the ID of [sampleApplication] and no name. *)
Definition unnamedDuplicate : Application.t :=
  sampleApplicationWith "a1" "" StatusActive.

Definition sampleAgreement : GovernanceAgreement.t :=
  {| GovernanceAgreement.ID := "g1"; GovernanceAgreement.ApplicationID := "a1";
     GovernanceAgreement.Title := "T"; GovernanceAgreement.Version := "1.0";
     GovernanceAgreement.Status := AgreementDraft;
     GovernanceAgreement.CreatedAt := sampleStart;
     GovernanceAgreement.UpdatedAt := sampleStart;
     GovernanceAgreement.Conformance_ComplianceMonitoring :=
       {| ComplianceMonitoring.MonitoringFrequency := "";
          ComplianceMonitoring.ResponsibleParties := [];
          ComplianceMonitoring.ReportingSchedule := "" |};
     GovernanceAgreement.Evaluate_PerformanceMetrics := [];
     GovernanceAgreement.Direct_StrategicDirection_Objectives := [];
     GovernanceAgreement.Direct_ResourceAllocation_BudgetAllocations := [] |}.

Definition samplePortfolio : ApplicationPortfolio.t :=
  {| ApplicationPortfolio.ID := "p1"; ApplicationPortfolio.Name := "P";
     ApplicationPortfolio.Description := ""; ApplicationPortfolio.Owner := "o";
     ApplicationPortfolio.Applications :=
       [sampleApplication; sampleApplicationWith "a2" "Y" StatusDeprecated];
     ApplicationPortfolio.KPIs := [];
     ApplicationPortfolio.CreatedAt := sampleStart;
     ApplicationPortfolio.UpdatedAt := sampleStart |}.

Definition sampleApplications : ApplicationRepositoryMemory.t :=
  ApplicationRepositoryMemory.Save ApplicationRepositoryMemory.New sampleApplication.

Definition sampleAgreements : GovernanceAgreementRepositoryMemory.t :=
  GovernanceAgreementRepositoryMemory.Save GovernanceAgreementRepositoryMemory.New
    sampleAgreement.

Definition samplePortfolios : ApplicationPortfolioRepositoryMemory.t :=
  ApplicationPortfolioRepositoryMemory.Save ApplicationPortfolioRepositoryMemory.New
    samplePortfolio.

Definition sampleService : EvaluationService.t :=
  memoryEvaluationService sampleApplications sampleAgreements samplePortfolios.

Definition sampleRiskWith (level : RiskLevel) (probability : spec_float) : Risk.t :=
  {| Risk.ID := "r1"; Risk.Name := "Outage"; Risk.Description := "";
     Risk.Category := "operational"; Risk.Probability := probability;
     Risk.Impact := ImpactCritical; Risk.Level := level |}.

(** A risk of level High with probability 0.9, and a certain risk whose
    level was left unset. *)
Definition sampleRisk : Risk.t := sampleRiskWith RiskHigh (F64.lit 9 1).

Definition unlistedLevelRisk : Risk.t := sampleRiskWith "" (F64.of_int 1).

Definition sampleRiskRepository : RiskRepository.t :=
  {| RiskRepository.FindAll := Ok [sampleRisk] |}.

(** More of the sample installation: agreements with other IDs, a
    portfolio without members, the four stores, a KPI with an empty
    measurement store, and one objective and one budget line. *)
Definition sampleAgreementWith (id : GovernanceAgreementID) (applicationID : ApplicationID)
  : GovernanceAgreement.t :=
  {| GovernanceAgreement.ID := id; GovernanceAgreement.ApplicationID := applicationID;
     GovernanceAgreement.Title := "T"; GovernanceAgreement.Version := "1.0";
     GovernanceAgreement.Status := AgreementDraft;
     GovernanceAgreement.CreatedAt := sampleStart;
     GovernanceAgreement.UpdatedAt := sampleStart;
     GovernanceAgreement.Conformance_ComplianceMonitoring :=
       {| ComplianceMonitoring.MonitoringFrequency := "";
          ComplianceMonitoring.ResponsibleParties := [];
          ComplianceMonitoring.ReportingSchedule := "" |};
     GovernanceAgreement.Evaluate_PerformanceMetrics := [];
     GovernanceAgreement.Direct_StrategicDirection_Objectives := [];
     GovernanceAgreement.Direct_ResourceAllocation_BudgetAllocations := [] |}.

Definition emptyPortfolio : ApplicationPortfolio.t :=
  {| ApplicationPortfolio.ID := "p2"; ApplicationPortfolio.Name := "Q";
     ApplicationPortfolio.Description := ""; ApplicationPortfolio.Owner := "o";
     ApplicationPortfolio.Applications := [];
     ApplicationPortfolio.KPIs := [];
     ApplicationPortfolio.CreatedAt := sampleStart;
     ApplicationPortfolio.UpdatedAt := sampleStart |}.

Definition sampleStores : Stores.t :=
  {| Stores.appRepo := sampleApplications;
     Stores.agreementRepo := sampleAgreements;
     Stores.portfolioRepo :=
       ApplicationPortfolioRepositoryMemory.Save samplePortfolios emptyPortfolio;
     Stores.eventRepo := DomainEventRepositoryMemory.New |}.

Definition sampleKPI : KPI.t :=
  {| KPI.ID := "k1"; KPI.Name := "Cost per ticket"; KPI.Category := "efficiency";
     KPI.Target := F64.of_int 10 |}.

Definition sampleKPIRepository : KPIRepository.t :=
  {| KPIRepository.FindAll := Ok [sampleKPI] |}.

Definition emptyMeasurementRepository : KPIMeasurementRepository.t :=
  {| KPIMeasurementRepository.FindLatest := fun _ => Err "measurement not found" |}.



(** ** Proof automation *)

(** Case analysis on the signals that a percentage depends on: the status
    tests, the list lengths and the clock comparisons.  What remains is a
    closed float64 computation. *)
Ltac destruct_signals :=
  repeat match goal with
         | |- context [String.eqb ?a ?b] => destruct (String.eqb a b)
         | |- context [Z.ltb ?a ?b] => destruct (Z.ltb a b)
         | |- context [time.IsZero ?a] => destruct (time.IsZero a)
         | |- context [F64.ltb (time.Hours ?d) ?k] => destruct (F64.ltb (time.Hours d) k)
         | |- context [F64.gtb (EvaluationService.yearsSince ?n ?u) ?k] =>
             destruct (F64.gtb (EvaluationService.yearsSince n u) k)
         | |- context [F64.ltb (EvaluationService.yearsSince ?n ?u) ?k] =>
             destruct (F64.ltb (EvaluationService.yearsSince n u) k)
         end.

(** Replace a closed float64 expression by its value, computed by the
    virtual machine. *)
Ltac eval_float c :=
  let v := eval vm_compute in c in
  let E := fresh "E" in
  assert (E : c = v) by (vm_compute; reflexivity); rewrite E; clear E.

Ltac eval_float_in c H :=
  let v := eval vm_compute in c in
  let E := fresh "E" in
  assert (E : c = v) by (vm_compute; reflexivity); rewrite E in H; clear E.

(** * Properties *)

Section TechnicalHealthBounds.
Import EvaluationService.

Lemma len_nonneg {A} (l : list A) : 0 <= len l.
Proof. unfold len. lia. Qed.

Lemma analyzeVersionMaturity_range version :
  -1 <= analyzeVersionMaturity version <= 1.
Proof. unfold analyzeVersionMaturity. repeat case_match; lia. Qed.

Lemma analyzeSecurityProvisions_range provisions :
  -2 <= analyzeSecurityProvisions provisions <= 6.
Proof. unfold analyzeSecurityProvisions. repeat case_match; lia. Qed.

Lemma analyzeDocumentationCompleteness_range now catalogue :
  -1 <= analyzeDocumentationCompleteness now catalogue <= 4.
Proof. unfold analyzeDocumentationCompleteness. repeat case_match; lia. Qed.

Lemma analyzeApplicationAge_range now createdAt updatedAt :
  -2 <= analyzeApplicationAge now createdAt updatedAt <= 1.
Proof. unfold analyzeApplicationAge. repeat case_match; lia. Qed.

Lemma analyzeApplicationStatus_range status :
  -2 <= analyzeApplicationStatus status <= 1.
Proof. unfold analyzeApplicationStatus. repeat case_match; lia. Qed.

Lemma clampScore_range score : 1 <= clampScore score <= 5.
Proof. unfold clampScore. repeat case_match; lia. Qed.

Lemma overallScore_range now app : 1 <= overallScore now app <= 5.
Proof. apply clampScore_range. Qed.

(** On the sub-scores that the engine can produce, the adjustment
    computed in float64 is the adjustment of the specification, and both
    are the sub-score clamped to [1, 5]. *)
Lemma adjustScoreWithVariance_nominal baseScore minFactor maxFactor :
  -1 <= baseScore <= 11 ->
  adjustScoreWithVariance baseScore minFactor maxFactor = nominalAdjust baseScore
  /\ nominalAdjust baseScore = Z.max 1 (Z.min 5 baseScore).
Proof.
  intros H.
  assert (Hcases : In baseScore [-1; 0; 1; 2; 3; 4; 5; 6; 7; 8; 9; 10; 11]).
  { simpl. lia. }
  simpl in Hcases.
  repeat (destruct Hcases as [<- | Hcases]; [vm_compute; split; reflexivity |]).
  destruct Hcases.
Qed.

End TechnicalHealthBounds.

Lemma wrap64_small z : minInt64 <= z <= maxInt64 -> wrap64 z = z.
Proof.
unfold minInt64, maxInt64, wrap64. intros H.
rewrite Z.mod_small by lia. lia.
Qed.

Section TechnicalHealth.
Import EvaluationService.

Lemma testCoverage_exact score security :
  1 <= score <= 5 -> -2 <= security <= 6 ->
  F64.add (F64.mul (F64.of_int score) (F64.of_int 20))
          (F64.mul (F64.of_int security) (F64.of_int 5))
  = F64.of_int (score * 20 + security * 5).
Proof.
  intros Hs Hd.
  assert (Hscore : In score [1; 2; 3; 4; 5]) by (simpl; lia).
  assert (Hsec : In security [-2; -1; 0; 1; 2; 3; 4; 5; 6]) by (simpl; lia).
  simpl in Hscore, Hsec.
  repeat (destruct Hscore as [<- | Hscore];
          [repeat (destruct Hsec as [<- | Hsec]; [vm_compute; reflexivity |]);
           destruct Hsec |]).
  destruct Hscore.
Qed.

Lemma assessTechnicalHealth_fields now app :
  let th := assessTechnicalHealth now app in
  TechnicalHealth.CodeQuality th
    = adjustScoreWithVariance (overallScore now app) (F64.lit 8 1) (F64.lit 12 1)
  /\ TechnicalHealth.Documentation th
    = adjustScoreWithVariance (overallScore now app) (F64.lit 9 1) (F64.lit 11 1)
  /\ TechnicalHealth.SecurityScore th
    = adjustScoreWithVariance (overallScore now app + securityDelta app)
        (F64.lit 7 1) (F64.lit 13 1)
  /\ TechnicalHealth.PerformanceScore th
    = adjustScoreWithVariance (overallScore now app + ageDelta now app)
        (F64.lit 8 1) (F64.lit 12 1)
  /\ TechnicalHealth.TestCoverage th
    = F64.add (F64.mul (F64.of_int (overallScore now app)) (F64.of_int 20))
              (F64.mul (F64.of_int (securityDelta app)) (F64.of_int 5)).
Proof. repeat split. Qed.

Lemma subScores_range now app :
  -1 <= overallScore now app <= 11
  /\ -1 <= overallScore now app + securityDelta app <= 11
  /\ -1 <= overallScore now app + ageDelta now app <= 11.
Proof.
  pose proof (overallScore_range now app).
  pose proof (analyzeSecurityProvisions_range (Application.SecurityProvisions app)).
  pose proof (analyzeApplicationAge_range now (Application.CreatedAt app)
                (Application.UpdatedAt app)).
  unfold securityDelta, ageDelta. lia.
Qed.

Lemma reported_numbers now app :
  let th := assessTechnicalHealth now app in
  TechnicalHealth.CodeQuality th = nominalAdjust (overallScore now app)
  /\ TechnicalHealth.Documentation th = nominalAdjust (overallScore now app)
  /\ TechnicalHealth.SecurityScore th
     = nominalAdjust (overallScore now app + securityDelta app)
  /\ TechnicalHealth.PerformanceScore th
     = nominalAdjust (overallScore now app + ageDelta now app)
  /\ TechnicalHealth.TestCoverage th
     = F64.of_int (overallScore now app * 20 + securityDelta app * 5).
Proof.
  destruct (assessTechnicalHealth_fields now app) as (Hc & Hd & Hs & Hp & Ht).
  destruct (subScores_range now app) as (Ro & Rs & Ra).
  cbv zeta. rewrite Hc, Hd, Hs, Hp, Ht.
  repeat split; try (apply adjustScoreWithVariance_nominal; assumption).
  apply testCoverage_exact.
  - apply overallScore_range.
  - apply analyzeSecurityProvisions_range.
Qed.


Lemma technicalHealth_range now app :
  let th := assessTechnicalHealth now app in
  1 <= TechnicalHealth.CodeQuality th <= 5
  /\ 1 <= TechnicalHealth.Documentation th <= 5
  /\ 1 <= TechnicalHealth.SecurityScore th <= 5
  /\ 1 <= TechnicalHealth.PerformanceScore th <= 5.
Proof.
  destruct (reported_numbers now app) as (Hc & Hd & Hs & Hp & _).
  destruct (subScores_range now app) as (Ro & Rs & Ra).
  cbv zeta. rewrite Hc, Hd, Hs, Hp.
  pose proof (proj2 (adjustScoreWithVariance_nominal _ (F64.of_int 0) (F64.of_int 0) Ro)).
  pose proof (proj2 (adjustScoreWithVariance_nominal _ (F64.of_int 0) (F64.of_int 0) Rs)).
  pose proof (proj2 (adjustScoreWithVariance_nominal _ (F64.of_int 0) (F64.of_int 0) Ra)).
  lia.
Qed.

Lemma determineRiskLevel_in_range techHealth businessValue :
  1 <= TechnicalHealth.CodeQuality techHealth <= 5 ->
  1 <= TechnicalHealth.SecurityScore techHealth <= 5 ->
  1 <= TechnicalHealth.PerformanceScore techHealth <= 5 ->
  let avg := truncatedAverage techHealth in
  let cost := BusinessValueAssessment.CostEfficiency businessValue in
  let level := determineRiskLevel techHealth businessValue in
  (avg <= 2 \/ F64lt cost (F64.of_int 50) -> level = RiskCritical)
  /\ (~ (avg <= 2 \/ F64lt cost (F64.of_int 50)) ->
      avg <= 3 \/ F64lt cost (F64.of_int 70) -> level = RiskHigh)
  /\ (~ (avg <= 2 \/ F64lt cost (F64.of_int 50)) ->
      ~ (avg <= 3 \/ F64lt cost (F64.of_int 70)) ->
      avg <= 4 -> level = RiskMedium)
  /\ (~ (avg <= 2 \/ F64lt cost (F64.of_int 50)) ->
      ~ (avg <= 3 \/ F64lt cost (F64.of_int 70)) ->
      ~ avg <= 4 -> level = RiskLow).
Proof.
  intros Hc Hs Hp. unfold determineRiskLevel, truncatedAverage, F64lt. cbv zeta.
  rewrite (wrap64_small (_ + TechnicalHealth.SecurityScore _))
    by (unfold minInt64, maxInt64; lia).
  rewrite wrap64_small by (unfold minInt64, maxInt64; lia).
  set (avg := Z.quot _ 3).
  destruct (Z.leb_spec avg 2); destruct (Z.leb_spec avg 3); destruct (Z.leb_spec avg 4);
    destruct (F64.ltb _ (F64.of_int 50)); destruct (F64.ltb _ (F64.of_int 70));
    simpl; repeat split; intros; try reflexivity; try lia;
    try (exfalso; intuition (lia || congruence)).
Qed.

End TechnicalHealth.


Section BusinessValueBounds.
Import EvaluationService.


Lemma calculateBusinessAlignment_range now app agreement :
  percentage (calculateBusinessAlignment now app agreement).
Proof.
  unfold calculateBusinessAlignment, percentage, F64le.
  destruct agreement; destruct_signals; vm_compute; split; reflexivity.
Qed.

Lemma calculateCostEfficiency_range now app agreement :
  percentage (calculateCostEfficiency now app agreement).
Proof.
  unfold calculateCostEfficiency, percentage, F64le.
  destruct agreement; destruct_signals; vm_compute; split; reflexivity.
Qed.

Lemma calculateUserSatisfaction_range now app agreement :
  percentage (calculateUserSatisfaction now app agreement).
Proof.
  unfold calculateUserSatisfaction, percentage, F64le.
  destruct agreement; destruct_signals; vm_compute; split; reflexivity.
Qed.

(** C2.  Clamping invariant: for every application, clock reading and
    wiring of the service, the four integer fields of the TechnicalHealth
    returned by [assessTechnicalHealth] lie in [1, 5], and the three
    percentages of the BusinessValueAssessment returned by
    [assessBusinessValue] lie in [0, 100]. *)
Theorem clamping_invariant s now app :
  let th := assessTechnicalHealth now app in
  let bv := assessBusinessValue s now app in
  (1 <= TechnicalHealth.CodeQuality th <= 5
   /\ 1 <= TechnicalHealth.Documentation th <= 5
   /\ 1 <= TechnicalHealth.SecurityScore th <= 5
   /\ 1 <= TechnicalHealth.PerformanceScore th <= 5)
  /\ (percentage (BusinessValueAssessment.BusinessAlignment bv)
      /\ percentage (BusinessValueAssessment.CostEfficiency bv)
      /\ percentage (BusinessValueAssessment.UserSatisfaction bv)).
Proof.
  split.
  - apply technicalHealth_range.
  - unfold assessBusinessValue. simpl.
    auto using calculateBusinessAlignment_range, calculateCostEfficiency_range,
      calculateUserSatisfaction_range.
Qed.

(** C1.  On the TechnicalHealth and BusinessValueAssessment that the
    evaluation produces, [determineRiskLevel] follows the integer-truncating
    average of CodeQuality, SecurityScore and PerformanceScore: Critical
    if the average is at most 2 or CostEfficiency is below 50; otherwise
    High if the average is at most 3 or CostEfficiency is below 70;
    otherwise Medium if the average is at most 4; otherwise Low. *)
Theorem determineRiskLevel_by_average s now app :
  let th := assessTechnicalHealth now app in
  let bv := assessBusinessValue s now app in
  let avg := truncatedAverage th in
  let cost := BusinessValueAssessment.CostEfficiency bv in
  let level := determineRiskLevel th bv in
  (avg <= 2 \/ F64lt cost (F64.of_int 50) -> level = RiskCritical)
  /\ (~ (avg <= 2 \/ F64lt cost (F64.of_int 50)) ->
      avg <= 3 \/ F64lt cost (F64.of_int 70) -> level = RiskHigh)
  /\ (~ (avg <= 2 \/ F64lt cost (F64.of_int 50)) ->
      ~ (avg <= 3 \/ F64lt cost (F64.of_int 70)) ->
      avg <= 4 -> level = RiskMedium)
  /\ (~ (avg <= 2 \/ F64lt cost (F64.of_int 50)) ->
      ~ (avg <= 3 \/ F64lt cost (F64.of_int 70)) ->
      ~ avg <= 4 -> level = RiskLow).
Proof.
  destruct (technicalHealth_range now app) as (Hc & _ & Hs & Hp).
  apply determineRiskLevel_in_range; assumption.
Qed.
End BusinessValueBounds.

Section Evaluation.
Import EvaluationService.

Variable apps : ApplicationRepositoryMemory.t.
Variable agreements : GovernanceAgreementRepositoryMemory.t.
Variable portfolios : ApplicationPortfolioRepositoryMemory.t.

Let s := memoryEvaluationService apps agreements portfolios.

(** The outcome of [EvaluateApplication] by cases on the two lookups. *)
Lemma EvaluateApplication_cases now appID evaluator :
  EvaluateApplication s now appID evaluator =
    match ApplicationRepositoryMemory.applications apps !! appID with
    | None => Err "failed to find application: application not found"
    | Some app =>
        match GovernanceAgreementRepositoryMemory.FindByApplicationID agreements appID with
        | Ok _ =>
            let technicalHealth := assessTechnicalHealth now app in
            let businessValue := assessBusinessValue s now app in
            let riskLevel := determineRiskLevel technicalHealth businessValue in
            Ok {| ApplicationAssessment.ApplicationID := appID;
                  ApplicationAssessment.TechnicalHealth := technicalHealth;
                  ApplicationAssessment.BusinessValue := businessValue;
                  ApplicationAssessment.RiskLevel := riskLevel;
                  ApplicationAssessment.Recommendations :=
                    generateRecommendations technicalHealth businessValue riskLevel |}
        | Err err => Err (wrap_error "failed to find governance agreement" err)
        | Panic => Panic
        end
    end.
Proof.
  unfold EvaluateApplication, s, memoryEvaluationService, NewEvaluationService. simpl.
  unfold ApplicationRepositoryMemory.FindByID.
  destruct (ApplicationRepositoryMemory.applications apps !! appID); reflexivity.
Qed.



End Evaluation.

Lemma filter_disjoint_length {A} (p q : A -> bool) (l : list A) :
(forall x, p x = true -> q x = false) ->
len (List.filter p l) + len (List.filter q l) <= len l.
Proof.
intros Hpq. unfold len. induction l as [|x l IH]; simpl; [lia |].
destruct (p x) eqn:Hp.
- rewrite (Hpq x Hp). simpl. lia.
- destruct (q x); simpl; lia.
Qed.

Section Portfolio.
Import EvaluationService.

Variable apps : ApplicationRepositoryMemory.t.
Variable agreements : GovernanceAgreementRepositoryMemory.t.
Variable portfolios : ApplicationPortfolioRepositoryMemory.t.

Let s := memoryEvaluationService apps agreements portfolios.

Lemma EvaluateApplication_no_panic now appID evaluator :
  EvaluateApplication s now appID evaluator <> Panic.
Proof.
  unfold s. rewrite EvaluateApplication_cases.
  unfold GovernanceAgreementRepositoryMemory.FindByApplicationID.
  repeat case_match; discriminate.
Qed.

(** One iteration either skips the member or counts it. *)
Lemma tallyApplication_counts now acc app :
  exists acc',
    tallyApplication s now acc app = Ok acc'
    /\ activeApps acc' = activeApps acc + countStatus s now StatusActive [app]
    /\ deprecatedApps acc' = deprecatedApps acc + countStatus s now StatusDeprecated [app]
    /\ (evaluable s now app = false -> acc' = acc).
Proof.
  unfold tallyApplication, countStatus, evaluable. simpl.
  pose proof (EvaluateApplication_no_panic now (Application.ID app) "system") as Hnp.
  destruct (EvaluateApplication s now (Application.ID app) "system") as [a|e|];
    [| |contradiction]; simpl.
  - destruct (String.eqb_spec (Application.Status app) StatusActive) as [-> | Hna]; simpl.
    + eexists. repeat split; unfold len; simpl; try lia; discriminate.
    + destruct (String.eqb (Application.Status app) StatusDeprecated); simpl.
      * eexists. repeat split; unfold len; simpl; try lia; discriminate.
      * destruct (String.eqb (Application.Status app) StatusRetired); simpl;
          eexists; repeat split; unfold len; simpl; try lia; discriminate.
  - exists acc. unfold len. simpl. repeat split; lia.
Qed.

Lemma countStatus_cons now status app rest :
  countStatus s now status (app :: rest)
  = countStatus s now status [app] + countStatus s now status rest.
Proof.
  unfold countStatus, len. simpl.
  destruct (evaluable s now app && String.eqb (Application.Status app) status); simpl; lia.
Qed.

Lemma tallyApplications_counts now members : forall acc,
  exists acc',
    tallyApplications s now acc members = Ok acc'
    /\ activeApps acc' = activeApps acc + countStatus s now StatusActive members
    /\ deprecatedApps acc' = deprecatedApps acc + countStatus s now StatusDeprecated members.
Proof.
  induction members as [|app rest IH]; intros acc; simpl.
  - exists acc. unfold countStatus, len. simpl. repeat split; lia.
  - destruct (tallyApplication_counts now acc app) as (acc1 & Hstep & Ha & Hd & _).
    rewrite Hstep.
    destruct (IH acc1) as (acc' & Hrest & Ha' & Hd').
    exists acc'. rewrite (countStatus_cons _ StatusActive), (countStatus_cons _ StatusDeprecated).
    repeat split; [assumption | lia | lia].
Qed.

Lemma countStatus_bound now members :
  0 <= countStatus s now StatusActive members
  /\ 0 <= countStatus s now StatusDeprecated members
  /\ countStatus s now StatusActive members + countStatus s now StatusDeprecated members
     <= len members.
Proof.
  unfold countStatus. repeat split; try apply len_nonneg.
  apply filter_disjoint_length.
  intros app [_ H]%andb_prop.
  apply String.eqb_eq in H. rewrite H. apply andb_false_r.
Qed.

Lemma calculateAverageApplicationAge_returns now members :
  exists avgAge,
    calculateAverageApplicationAge now members = Ok avgAge
    /\ (members = [] -> avgAge = 0).
Proof.
  unfold calculateAverageApplicationAge, divInt64.
  destruct (Z.eqb_spec (len members) 0) as [Hz | Hnz].
  - exists 0. split; reflexivity.
  - eexists. split; [reflexivity |].
    intros ->. contradiction Hnz. reflexivity.
Qed.

(** C5.  For every stored portfolio, [EvaluatePortfolio] returns an
    assessment whatever the evaluations of the members do: a member whose
    evaluation fails is skipped, so the active and deprecated counts are
    the counts over the members that evaluate, and their sum is at most
    TotalApplications.  A portfolio without members yields
    TotalApplications = 0 and AverageApplicationAge = 0: the division is
    not reached. *)
Theorem EvaluatePortfolio_skips_and_counts now portfolioID portfolio :
  ApplicationPortfolioRepositoryMemory.portfolios portfolios !! portfolioID = Some portfolio ->
  let members := ApplicationPortfolio.Applications portfolio in
  exists assessment,
    EvaluatePortfolio s now portfolioID = Ok assessment
    /\ PortfolioHealthAssessment.TotalApplications assessment = len members
    /\ PortfolioHealthAssessment.ActiveApplications assessment
       = countStatus s now StatusActive members
    /\ PortfolioHealthAssessment.DeprecatedApplications assessment
       = countStatus s now StatusDeprecated members
    /\ PortfolioHealthAssessment.ActiveApplications assessment
       + PortfolioHealthAssessment.DeprecatedApplications assessment
       <= PortfolioHealthAssessment.TotalApplications assessment
    /\ (members = [] ->
        PortfolioHealthAssessment.TotalApplications assessment = 0
        /\ PortfolioHealthAssessment.AverageApplicationAge assessment = 0).
Proof.
  intros Hfind members.
  unfold EvaluatePortfolio, s, memoryEvaluationService, NewEvaluationService. simpl.
  unfold ApplicationPortfolioRepositoryMemory.FindByID. rewrite Hfind.
  destruct (tallyApplications_counts now members tally0) as (acc & Hrun & Ha & Hd).
  fold members. unfold s, memoryEvaluationService, NewEvaluationService in Hrun.
  rewrite Hrun. simpl in Ha, Hd.
  destruct (calculateAverageApplicationAge_returns now members) as (avgAge & Havg & Hzero).
  rewrite Havg.
  destruct (countStatus_bound now members) as (_ & _ & Hsum).
  eexists. split; [reflexivity |]. simpl.
  split; [reflexivity |]. split; [exact Ha |]. split; [exact Hd |]. split; [lia |].
  intros Hempty. split; [rewrite Hempty; reflexivity | exact (Hzero Hempty)].
Qed.

End Portfolio.

Lemma cons_eq_inv {A} (x y : A) (l l' : list A) : x :: l = y :: l' -> x = y /\ l = l'.
Proof. intros H. injection H as -> ->. split; reflexivity. Qed.

Section Determinism.
Import EvaluationService.

Lemma assessTechnicalHealth_signals now1 now2 app :
  clockSignals now1 app = clockSignals now2 app ->
  assessTechnicalHealth now1 app = assessTechnicalHealth now2 app.
Proof.
  unfold clockSignals. cbv zeta. intros H.
  apply cons_eq_inv in H as [H1 H]. apply cons_eq_inv in H as [H2 H].
  apply cons_eq_inv in H as [H3 H]. apply cons_eq_inv in H as [H4 H].
  apply cons_eq_inv in H as [H5 H]. apply cons_eq_inv in H as [H6 _].
  unfold assessTechnicalHealth, analyzeDocumentationCompleteness, analyzeApplicationAge.
  rewrite H1, H2, H3, H4, H5, H6. reflexivity.
Qed.

Lemma businessValue_signals now1 now2 app agreement :
  clockSignals now1 app = clockSignals now2 app ->
  calculateUsageMetrics now1 app agreement = calculateUsageMetrics now2 app agreement
  /\ calculateBusinessAlignment now1 app agreement
     = calculateBusinessAlignment now2 app agreement
  /\ calculateCostEfficiency now1 app agreement = calculateCostEfficiency now2 app agreement
  /\ calculateUserSatisfaction now1 app agreement
     = calculateUserSatisfaction now2 app agreement.
Proof.
  unfold clockSignals. cbv zeta. intros H.
  do 6 apply cons_eq_inv in H as [_ H].
  apply cons_eq_inv in H as [H7 H]. apply cons_eq_inv in H as [H8 H].
  apply cons_eq_inv in H as [H9 H]. apply cons_eq_inv in H as [H10 H].
  apply cons_eq_inv in H as [H11 H]. apply cons_eq_inv in H as [H12 _].
  unfold calculateUsageMetrics, calculateBusinessAlignment, calculateCostEfficiency,
    calculateUserSatisfaction.
  rewrite H7, H8, H9, H10, H11, H12. repeat split.
Qed.

Lemma assessBusinessValue_signals s now1 now2 app :
  clockSignals now1 app = clockSignals now2 app ->
  assessBusinessValue s now1 app = assessBusinessValue s now2 app.
Proof.
  intros H. unfold assessBusinessValue.
  set (agreement := match agreementRepo s with Some _ => _ | None => _ end).
  destruct (businessValue_signals now1 now2 app agreement H) as (-> & -> & -> & ->).
  reflexivity.
Qed.

Variable apps : ApplicationRepositoryMemory.t.
Variable agreements : GovernanceAgreementRepositoryMemory.t.
Variable portfolios : ApplicationPortfolioRepositoryMemory.t.

Let s := memoryEvaluationService apps agreements portfolios.

(** C8, amended.  Two evaluations of the same application ID on the same
    stores return the same result (the same TechnicalHealth,
    BusinessValueAssessment, RiskLevel and Recommendations, or the same
    error) provided that every comparison of the clock with the
    application's timestamps has the same outcome at the two clock
    readings; in particular when the two readings are equal. *)
Theorem EvaluateApplication_deterministic_given_clock now1 now2 appID evaluator :
  (forall app, ApplicationRepositoryMemory.applications apps !! appID = Some app ->
               clockSignals now1 app = clockSignals now2 app) ->
  EvaluateApplication s now1 appID evaluator = EvaluateApplication s now2 appID evaluator.
Proof.
  intros Hsig. unfold s. rewrite !EvaluateApplication_cases.
  destruct (ApplicationRepositoryMemory.applications apps !! appID) as [app|];
    [| reflexivity].
  specialize (Hsig app eq_refl).
  rewrite (assessTechnicalHealth_signals now1 now2 app Hsig).
  rewrite (assessBusinessValue_signals _ now1 now2 app Hsig).
  reflexivity.
Qed.
End Determinism.

Section AgreementLifecycle.
Import GovernanceAgreementAggregate.

Local Abbreviation status a := (GovernanceAgreement.Status (agreement a)).

Lemma Approve_spec now a :
  (status a = AgreementDraft ->
     exists a', Approve now a = (a', None) /\ status a' = AgreementApproved)
  /\ (status a <> AgreementDraft ->
        exists e, Approve now a = (a, Some e) /\ isInvalidState e = true).
Proof.
  unfold Approve.
  destruct (String.eqb_spec (status a) AgreementDraft) as [Heq | Hne]; simpl; split.
  - intros _. eexists. split; reflexivity.
  - intros Hne. contradiction.
  - intros Heq. contradiction.
  - intros _. eexists. split; reflexivity.
Qed.

Lemma Activate_spec now a :
  (status a = AgreementApproved ->
     exists a', Activate now a = (a', None) /\ status a' = AgreementActive)
  /\ (status a <> AgreementApproved ->
        exists e, Activate now a = (a, Some e) /\ isInvalidState e = true).
Proof.
  unfold Activate.
  destruct (String.eqb_spec (status a) AgreementApproved) as [Heq | Hne]; simpl; split.
  - intros _. eexists. split; reflexivity.
  - intros Hne. contradiction.
  - intros Heq. contradiction.
  - intros _. eexists. split; reflexivity.
Qed.

Lemma transitions_from_Active ops : forall a,
  status a = AgreementActive -> transitions a ops = [].
Proof.
  induction ops as [|[now op] rest IH]; intros a Ha; simpl; [reflexivity |].
  destruct op; simpl.
  - destruct (proj2 (Approve_spec now a)) as (e & -> & _).
    { rewrite Ha. discriminate. }
    apply IH, Ha.
  - destruct (proj2 (Activate_spec now a)) as (e & -> & _).
    { rewrite Ha. discriminate. }
    apply IH, Ha.
Qed.

Lemma transitions_from_Approved ops : forall a,
  status a = AgreementApproved ->
  transitions a ops = [] \/ transitions a ops = [AgreementActive].
Proof.
  induction ops as [|[now op] rest IH]; intros a Ha; simpl; [left; reflexivity |].
  destruct op; simpl.
  - destruct (proj2 (Approve_spec now a)) as (e & -> & _).
    { rewrite Ha. discriminate. }
    apply IH, Ha.
  - destruct (proj1 (Activate_spec now a) Ha) as (a' & -> & Ha').
    right. rewrite Ha', (transitions_from_Active rest a' Ha'). reflexivity.
Qed.

Lemma transitions_from_Draft ops : forall a,
  status a = AgreementDraft ->
  transitions a ops = []
  \/ transitions a ops = [AgreementApproved]
  \/ transitions a ops = [AgreementApproved; AgreementActive].
Proof.
  induction ops as [|[now op] rest IH]; intros a Ha; simpl; [left; reflexivity |].
  destruct op; simpl.
  - destruct (proj1 (Approve_spec now a) Ha) as (a' & -> & Ha').
    right. rewrite Ha'.
    destruct (transitions_from_Approved rest a' Ha') as [-> | ->]; auto.
  - destruct (proj2 (Activate_spec now a)) as (e & -> & _).
    { rewrite Ha. discriminate. }
    apply IH, Ha.
Qed.

(** C6.  [Approve] succeeds exactly on a Draft agreement, which becomes
    Approved; on any other status it returns an InvalidState error and
    leaves the aggregate as it was.  [Activate] succeeds exactly on an
    Approved agreement, which becomes Active, and otherwise fails
    likewise.  A new aggregate is a Draft, and the successful calls of any
    run of the two operations from it are, in order, a prefix of
    Draft to Approved, Approved to Active. *)
Theorem agreement_status_transitions :
  (forall now a,
     (status a = AgreementDraft ->
        exists a', Approve now a = (a', None) /\ status a' = AgreementApproved)
     /\ (status a <> AgreementDraft ->
           exists e, Approve now a = (a, Some e) /\ isInvalidState e = true)
     /\ (status a = AgreementApproved ->
           exists a', Activate now a = (a', None) /\ status a' = AgreementActive)
     /\ (status a <> AgreementApproved ->
           exists e, Activate now a = (a, Some e) /\ isInvalidState e = true))
  /\ (forall now id applicationID title a ops,
        NewGovernanceAgreementAggregate now id applicationID title = Ok a ->
        status a = AgreementDraft
        /\ (transitions a ops = []
            \/ transitions a ops = [AgreementApproved]
            \/ transitions a ops = [AgreementApproved; AgreementActive])).
Proof.
  split.
  - intros now a.
    destruct (Approve_spec now a) as [? ?]. destruct (Activate_spec now a) as [? ?].
    auto.
  - intros now id applicationID title a ops Hnew.
    assert (Hdraft : status a = AgreementDraft).
    { revert Hnew. unfold NewGovernanceAgreementAggregate.
      repeat case_match; try discriminate. intros [= <-]. reflexivity. }
    split; [exact Hdraft | apply transitions_from_Draft, Hdraft].
Qed.
End AgreementLifecycle.

Section Monitoring.
Import MonitoringService.

(** The constants of the demonstration data: 95.5 is a binary64 number,
    and 99.2 is represented by the binary64 number nearest to it, within
    half a unit in the last place (2^-47). *)
Lemma demo_values :
  F64.lit 955 1 = S754_finite false (191 * 2 ^ 45) (-46)
  /\ exists m, F64.lit 992 1 = S754_finite false m (-46)
               /\ Z.abs (10 * Z.pos m - 992 * 2 ^ 46) <= 5.
Proof.
  split; [vm_compute; reflexivity |].
  eexists. split; [vm_compute; reflexivity |].
  apply Z.leb_le. vm_compute. reflexivity.
Qed.

(** C7.  With no KPI repository or no measurement repository configured,
    [MonitorKPIs] on an agreement ID that resolves returns exactly two
    measurements, in order: "kpi-001" with Value 95.5, Target 100 and
    Achieved false, and "kpi-002" with Value 99.2, Target 98 and Achieved
    true; on an agreement ID that does not resolve it returns an error. *)
Theorem MonitorKPIs_fallback kpiRepo measurementRepo riskRepo agreements now agreementID :
  kpiRepo = None \/ measurementRepo = None ->
  let s := memoryMonitoringService kpiRepo measurementRepo riskRepo agreements in
  (forall agreement,
     GovernanceAgreementRepositoryMemory.agreements agreements !! agreementID
       = Some agreement ->
     MonitorKPIs s now agreementID =
       Ok [ {| KPIMeasurement.KPIID := "kpi-001";
               KPIMeasurement.Value := F64.lit 955 1;
               KPIMeasurement.Target := F64.of_int 100;
               KPIMeasurement.Achieved := false;
               KPIMeasurement.MeasuredAt := now;
               KPIMeasurement.Notes := "Demo KPI measurement" |};
            {| KPIMeasurement.KPIID := "kpi-002";
               KPIMeasurement.Value := F64.lit 992 1;
               KPIMeasurement.Target := F64.of_int 98;
               KPIMeasurement.Achieved := true;
               KPIMeasurement.MeasuredAt := now;
               KPIMeasurement.Notes := "Demo KPI measurement" |} ])
  /\ (GovernanceAgreementRepositoryMemory.agreements agreements !! agreementID = None ->
      exists e, MonitorKPIs s now agreementID = Err e /\ isNotFound e = true).
Proof.
  intros Hnil s. unfold MonitorKPIs, s, memoryMonitoringService, NewMonitoringService.
  simpl. unfold GovernanceAgreementRepositoryMemory.FindByID. split.
  - intros agreement ->.
    destruct Hnil as [-> | ->]; [reflexivity | destruct kpiRepo; reflexivity].
  - intros ->. eexists. split; reflexivity.
Qed.
End Monitoring.

(** *** Exponent of a rounded product *)

Lemma digits2_pos_size p : digits2_pos p = Pos.size p.
Proof. induction p; simpl; congruence. Qed.

Lemma Zdigits2_nonneg x : 0 <= Zdigits2 x.
Proof. destruct x; simpl; lia. Qed.

Lemma Zdigits2_upper x : 0 <= x -> x < 2 ^ Zdigits2 x.
Proof.
  destruct x as [|p|p]; simpl; intros H; [lia | | lia].
  rewrite digits2_pos_size.
  pose proof (Pos.size_gt p) as Hgt.
  apply Pos2Z.pos_lt_pos in Hgt. rewrite Pos2Z.inj_pow in Hgt. exact Hgt.
Qed.

Lemma Zdigits2_le x k : 0 <= k -> 0 <= x < 2 ^ k -> Zdigits2 x <= k.
Proof.
  intros Hk [H0 Hx]. destruct x as [|p|p]; simpl; [lia | | lia].
  rewrite digits2_pos_size.
  pose proof (Pos.size_le p) as Hle.
  apply Pos2Z.pos_le_pos in Hle. rewrite Pos2Z.inj_pow in Hle.
  change (Z.pos p~0) with (2 * Z.pos p) in Hle.
  assert (2 ^ Z.pos (Pos.size p) < 2 ^ (k + 1)).
  { rewrite Z.pow_add_r by lia. lia. }
  apply Z.pow_lt_mono_r_iff in H; lia.
Qed.

Lemma pow2_double p : 2 ^ (2 * Z.pos p) = 2 ^ Z.pos p * 2 ^ Z.pos p.
Proof.
  replace (2 * Z.pos p) with (Z.pos p + Z.pos p) by lia.
  apply Z.pow_add_r; lia.
Qed.

Lemma shr_1_m r : 0 <= shr_m r -> shr_m (shr_1 r) = shr_m r / 2.
Proof.
  destruct r as [m rb sb]. simpl. intros Hm.
  destruct m as [|[p|p|]|p]; cbn [shr_m]; try lia; try reflexivity.
  - apply Z.div_unique with 1; lia.
  - apply Z.div_unique with 0; lia.
Qed.

Lemma iter_pos_shr_1_m p : forall r,
  0 <= shr_m r -> shr_m (SpecFloat.iter_pos shr_1 p r) = shr_m r / 2 ^ Z.pos p.
Proof.
  induction p as [p IH|p IH|]; intros r Hr; simpl.
  - assert (H1 : 0 <= shr_m (shr_1 r)) by (rewrite shr_1_m by lia; apply Z.div_pos; lia).
    assert (H2 : 0 <= shr_m (SpecFloat.iter_pos shr_1 p (shr_1 r))).
    { rewrite IH by lia. apply Z.div_pos; lia. }
    rewrite IH by lia. rewrite IH by lia. rewrite shr_1_m by lia.
    rewrite !Z.div_div by lia. f_equal.
    rewrite (Pos2Z.inj_xI p), Z.add_1_r, Z.pow_succ_r by lia.
    rewrite pow2_double. ring.
  - assert (H2 : 0 <= shr_m (SpecFloat.iter_pos shr_1 p r)).
    { rewrite IH by lia. apply Z.div_pos; lia. }
    rewrite IH by lia. rewrite IH by lia.
    rewrite Z.div_div by lia. f_equal.
    rewrite (Pos2Z.inj_xO p), pow2_double. reflexivity.
  - rewrite shr_1_m by lia. reflexivity.
Qed.

(** A right shift by [n] bits when [n] is positive, nothing otherwise. *)
Lemma shr_cases r e n :
  0 <= shr_m r ->
  (0 < n /\ shr_m (fst (shr r e n)) = shr_m r / 2 ^ n /\ snd (shr r e n) = e + n)
  \/ (n <= 0 /\ fst (shr r e n) = r /\ snd (shr r e n) = e).
Proof.
  intros Hr. destruct n as [|p|p]; simpl.
  - right. split; [lia |]. split; reflexivity.
  - left. split; [lia |]. split; [apply iter_pos_shr_1_m, Hr | reflexivity].
  - right. split; [lia |]. split; reflexivity.
Qed.

Lemma round_nearest_even_bounds m l :
  m <= round_nearest_even m l <= m + 1.
Proof. destruct l as [|[| |]]; simpl; try lia. destruct (Z.even m); lia. Qed.

Lemma div_pow2_lt m d n : 0 <= m < 2 ^ d -> 0 <= n <= d -> m / 2 ^ n < 2 ^ (d - n).
Proof.
  intros [H0 Hm] Hn. apply Z.div_lt_upper_bound; [lia |].
  rewrite <- Z.pow_add_r by lia. replace (n + (d - n)) with d by lia. exact Hm.
Qed.

Lemma Zdigits2_pow2 k : 0 <= k -> Zdigits2 (2 ^ k) = k + 1.
Proof.
  intros Hk. apply Z.le_antisymm.
  - apply Zdigits2_le; [lia |]. rewrite Z.pow_add_r by lia. lia.
  - pose proof (Zdigits2_upper (2 ^ k) ltac:(lia)) as H.
    apply Z.pow_lt_mono_r_iff in H; [lia | lia | apply Zdigits2_nonneg].
Qed.

(** The result of rounding [M * 2^E] is zero or a finite number.  When
    [B] bounds the format's exponent of the exact value, the exponent of
    the result is at most [B], unless the rounding carried into the next
    binade, where the result is the power of two [2^52 * 2^(B+1)]. *)
Lemma binary_round_aux_exponent s M E B :
  Z.pos (digits2_pos M) + E - F64.prec <= B -> E <= B ->
  emin F64.prec F64.emax <= B -> B + 1 <= F64.emax - F64.prec ->
  match binary_round_aux F64.prec F64.emax s (Z.pos M) E loc_Exact with
  | S754_zero _ => True
  | S754_finite _ m e => e <= B \/ (e = B + 1 /\ Z.pos m = 2 ^ 52)
  | _ => False
  end.
Proof.
  unfold F64.prec, F64.emax, emin. intros Hd HE Hmin Hmax.
  unfold binary_round_aux, shr_fexp, fexp, emin. simpl Zdigits2. simpl shr_record_of_loc.
  set (d := Z.pos (digits2_pos M)) in *.
  set (n1 := Z.max (d + E - 53) (3 - 1024 - 53) - E).
  set (r0 := {| shr_m := Z.pos M; shr_r := false; shr_s := false |}).
  assert (HM : 0 <= Z.pos M < 2 ^ d).
  { split; [lia |]. apply (Zdigits2_upper (Z.pos M)). lia. }
  assert (Hd0 : 0 <= d) by (unfold d; lia).
  destruct (shr r0 E n1) as [r1 e1] eqn:Hs1.
  (* after the first shift: a mantissa below 2^k with k + e1 <= B + 53 *)
  assert (H1 : exists k, 0 <= k /\ 0 <= shr_m r1 < 2 ^ k /\ k + e1 <= B + 53 /\ e1 <= B).
  { destruct (shr_cases r0 E n1) as [(Hn & Hm & He) | (Hn & Hm & He)]; [simpl; lia | |];
      rewrite Hs1 in Hm, He; simpl in Hm, He.
    - destruct (Z_le_gt_dec n1 d) as [Hle | Hgt].
      + exists (d - n1). rewrite Hm. repeat split; try lia.
        * apply Z.div_pos; lia.
        * apply div_pow2_lt; lia.
      + exists 0. rewrite Hm. rewrite Z.div_small.
        * simpl. lia.
        * split; [lia |]. apply Z.lt_le_trans with (2 ^ d); [lia |].
          apply Z.pow_le_mono_r; lia.
    - exists d. subst r1. simpl. lia. }
  destruct H1 as (k & Hk & Hm1 & Hke & He1).
  set (m2 := round_nearest_even (shr_m r1) (loc_of_shr_record r1)).
  pose proof (round_nearest_even_bounds (shr_m r1) (loc_of_shr_record r1)) as Hr.
  fold m2 in Hr.
  set (n2 := Z.max (Zdigits2 m2 + e1 - 53) (3 - 1024 - 53) - e1).
  set (r2 := {| shr_m := m2; shr_r := false; shr_s := false |}).
  destruct (shr r2 e1 n2) as [r3 e3] eqn:Hs2.
  (* after the second shift, which happens when the rounding carried *)
  assert (H3 : 0 <= shr_m r3 /\ (e3 <= B \/ (e3 = B + 1 /\ shr_m r3 = 2 ^ 52))).
  { destruct (shr_cases r2 e1 n2) as [(Hn & Hm & He) | (Hn & Hm & He)];
      [change (0 <= m2); lia | |]; rewrite Hs2 in Hm, He; simpl in Hm, He.
    - rewrite Hm. change (shr_m r2) with m2. split; [apply Z.div_pos; lia |].
      destruct (Z_lt_le_dec m2 (2 ^ k)) as [Hlt | Hge].
      + left. pose proof (Zdigits2_le m2 k Hk ltac:(lia)). lia.
      + assert (Heq : m2 = 2 ^ k) by lia.
        pose proof (Zdigits2_pow2 k Hk) as Hdig. rewrite <- Heq in Hdig.
        destruct (Z_le_gt_dec e3 B) as [Hle | Hgt]; [left; exact Hle | right].
        assert (Hn2 : n2 = k - 52) by lia.
        split; [lia |].
        rewrite Heq, Hn2. rewrite <- Z.pow_sub_r by lia. f_equal. lia.
    - subst r3. change (shr_m r2) with m2. split; [lia | left; lia]. }
  destruct H3 as [Hm3 He3].
  destruct (shr_m r3) as [|m3|m3]; [exact I | | lia].
  destruct (Z.leb_spec e3 (1024 - 53)); [exact He3 | lia].
Qed.




(** A float64 in [0, 1] is a zero, the number one, or a positive number
    with an exponent of at most -53 and a mantissa of at most 53 bits. *)
Lemma compare_cont_not_gt m c :
  match Pos.compare_cont Eq m c with Gt => false | _ => true end = true ->
  (m <= c)%positive.
Proof.
  intros H. unfold Pos.le, Pos.compare.
  destruct (Pos.compare_cont Eq m c); [discriminate | discriminate | discriminate H].
Qed.


Lemma probability_cases p :
  probability p ->
  (exists s, p = S754_zero s)
  \/ p = F64.of_int 1
  \/ (exists m e, p = S754_finite false m e /\ e <= -53 /\ Z.pos (digits2_pos m) <= 53).
Proof.
  unfold probability, F64le, F64.leb, F64.valid. intros (Hv & H0 & H1).
  eval_float_in (F64.of_int 0) H0. eval_float_in (F64.of_int 1) H1.
  unfold SFleb, SFcompare in H0, H1.
  destruct p as [s|s| |s m e]; try discriminate.
  - left. eauto.
  - destruct s; discriminate.
  - destruct s; [discriminate |]. right.
    unfold valid_binary, bounded, canonical_mantissa, fexp, emin, F64.prec, F64.emax in Hv.
    apply andb_prop in Hv as [Hc _]. apply Z.eqb_eq in Hc.
    destruct (Z.compare_spec e (-52)) as [He | He | He]; try discriminate.
    + left. subst e.
      assert (Hd : digits2_pos m = 53%positive) by (clear - Hc; lia).
      assert (Hm : (m <= 4503599627370496)%positive) by (apply compare_cont_not_gt, H1).
      assert (Hm' : (4503599627370496 <= m)%positive).
      { pose proof (Pos.size_le m) as Hs. rewrite <- digits2_pos_size, Hd in Hs.
        change (2 ^ 53)%positive with 9007199254740992%positive in Hs.
        clear - Hs. lia. }
      assert (Heq : m = 4503599627370496%positive) by (apply Pos.le_antisym; assumption).
      subst m. vm_compute. reflexivity.
    + right. exists m, e. split; [reflexivity |]. clear - Hc He. lia.
Qed.

(** The product of a positive float64 below one with a positive float64
    [mw * 2^ew] of at most [2^k / 2^53 * 2^ew] is within four when
    [k + ew] is at most 55. *)
Lemma mul_finite_withinFour m e mw ew k :
  e <= -53 -> Z.pos (digits2_pos m) <= 53 ->
  0 <= k -> Z.pos mw * 2 ^ 53 <= 2 ^ k -> k + ew <= 55 -> ew <= 2 ->
  withinFour (F64.mul (S754_finite false m e) (S754_finite false mw ew)).
Proof.
  intros He Hd Hk Hmw Hkw Hew.
  unfold F64.mul, SFmul, F64.prec, F64.emax. simpl xorb.
  assert (Hm : Z.pos m < 2 ^ 53).
  { pose proof (Zdigits2_upper (Z.pos m) ltac:(lia)) as Hu. simpl Zdigits2 in Hu.
    apply Z.lt_le_trans with (2 ^ Z.pos (digits2_pos m)); [exact Hu |].
    apply Z.pow_le_mono_r; lia. }
  assert (Hprod : 0 <= Z.pos (m * mw) < 2 ^ k).
  { split; [lia |]. rewrite Pos2Z.inj_mul.
    apply Z.lt_le_trans with (2 ^ 53 * Z.pos mw); [| lia].
    apply Z.mul_lt_mono_pos_r; lia. }
  pose proof (Zdigits2_le (Z.pos (m * mw)) k Hk Hprod) as Hdig. simpl Zdigits2 in Hdig.
  pose proof (binary_round_aux_exponent false (m * mw) (e + ew) (-51)) as Hround.
  unfold F64.prec, F64.emax, emin in Hround.
  specialize (Hround ltac:(lia) ltac:(lia) ltac:(lia) ltac:(lia)).
  destruct (binary_round_aux 53 1024 false (Z.pos (m * mw)) (e + ew) loc_Exact);
    simpl; first [exact Hround | contradiction].
Qed.

Lemma convertImpactToNumeric_cases impact :
  In (MonitoringService.convertImpactToNumeric impact)
     [F64.of_int 1; F64.of_int 2; F64.of_int 3; F64.of_int 4].
Proof.
  unfold MonitoringService.convertImpactToNumeric. simpl.
  repeat case_match; auto.
Qed.

(** The indicator value of a risk whose probability lies in [0, 1]. *)
Lemma indicator_withinFour p impact :
  probability p ->
  withinFour (F64.mul p (MonitoringService.convertImpactToNumeric impact)).
Proof.
  intros Hp.
  pose proof (convertImpactToNumeric_cases impact) as Hw.
  set (w := MonitoringService.convertImpactToNumeric impact) in *.
  destruct (probability_cases p Hp) as [[s ->] | [-> | (m & e & -> & He & Hd)]].
  - destruct Hw as [<- | [<- | [<- | [<- | []]]]]; vm_compute; exact I.
  - destruct Hw as [<- | [<- | [<- | [<- | []]]]];
      match goal with |- withinFour ?x => eval_float x end; simpl;
      first [left; lia | right; split; reflexivity].
  - destruct Hw as [<- | [<- | [<- | [<- | []]]]].
    + eval_float (F64.of_int 1).
      apply mul_finite_withinFour with (k := 105); try assumption; vm_compute; congruence.
    + eval_float (F64.of_int 2).
      apply mul_finite_withinFour with (k := 105); try assumption; vm_compute; congruence.
    + eval_float (F64.of_int 3).
      apply mul_finite_withinFour with (k := 106); try assumption; vm_compute; congruence.
    + eval_float (F64.of_int 4).
      apply mul_finite_withinFour with (k := 105); try assumption; vm_compute; congruence.
Qed.

Lemma withinFour_le x : withinFour x -> F64le x (F64.of_int 4).
Proof.
  unfold F64le, F64.leb. eval_float (F64.of_int 4).
  destruct x as [s|s| |s m e]; simpl; try contradiction; [reflexivity |].
  intros H. unfold SFleb, SFcompare. destruct s; [reflexivity |].
  destruct H as [H | [-> H]].
  - destruct (Z.compare_spec e (-50)); try lia; reflexivity.
  - injection H as ->. reflexivity.
Qed.

(** A value within four is below each of the thresholds 8, 12 and 18. *)
Lemma withinFour_below x t :
  withinFour x -> In t [F64.of_int 8; F64.of_int 12; F64.of_int 18] ->
  F64.geb x t = false.
Proof.
  intros Hx Ht. unfold F64.geb, SFleb, SFcompare.
  destruct x as [s|s| |s m e]; simpl in Hx; try contradiction.
  - destruct Ht as [<- | [<- | [<- | []]]]; reflexivity.
  - assert (He : e <= -50) by lia. clear Hx.
    destruct Ht as [<- | [<- | [<- | []]]].
    + eval_float (F64.of_int 8). destruct s; [reflexivity |].
      destruct (Z.compare_spec (-49) e); try lia; reflexivity.
    + eval_float (F64.of_int 12). destruct s; [reflexivity |].
      destruct (Z.compare_spec (-49) e); try lia; reflexivity.
    + eval_float (F64.of_int 18). destruct s; [reflexivity |].
      destruct (Z.compare_spec (-48) e); try lia; reflexivity.
Qed.

Section RiskMonitoringProperties.
Import MonitoringService.

Lemma determineRiskStatus_Normal risk :
  probability (Risk.Probability risk) ->
  Risk.Level risk = RiskHigh \/ Risk.Level risk = RiskCritical ->
  determineRiskStatus risk = RiskStatusNormal.
Proof.
  intros Hp Hlevel. unfold determineRiskStatus.
  pose proof (indicator_withinFour _ (Risk.Impact risk) Hp) as Hvalue.
  set (value := F64.mul _ _) in *.
  assert (E8 : F64.mul (F64.of_int 8) (F64.lit 15 1) = F64.of_int 12)
    by (vm_compute; reflexivity).
  assert (E12 : F64.mul (F64.of_int 12) (F64.lit 15 1) = F64.of_int 18)
    by (vm_compute; reflexivity).
  destruct Hlevel as [-> | ->]; unfold getRiskThreshold; simpl String.eqb; cbv iota.
  - rewrite E8.
    rewrite (withinFour_below value (F64.of_int 12)) by (simpl; auto).
    rewrite (withinFour_below value (F64.of_int 8)) by (simpl; auto).
    reflexivity.
  - rewrite E12.
    rewrite (withinFour_below value (F64.of_int 18)) by (simpl; auto).
    rewrite (withinFour_below value (F64.of_int 12)) by (simpl; auto).
    reflexivity.
Qed.

(** C10, amended.  When the stored risks have probabilities in [0, 1],
    [MonitorRisks] reports one indicator per risk, every indicator value
    (probability times impact weight) is at most 4, and a risk whose Level
    is High or Critical has status Normal in [determineRiskStatus] and in
    its indicator; so an indicator with status Warning or Critical belongs
    to a risk whose Level is neither High nor Critical. *)
Theorem MonitorRisks_high_levels_normal
    kpiRepo measurementRepo riskRepo agreements agreementID risks :
  RiskRepository.FindAll riskRepo = Ok risks ->
  Forall (fun risk => probability (Risk.Probability risk)) risks ->
  exists monitoring,
    MonitorRisks (memoryMonitoringService kpiRepo measurementRepo (Some riskRepo) agreements)
      agreementID = Ok monitoring
    /\ RiskMonitoring.RiskIndicators monitoring = map riskIndicator risks
    /\ Forall (fun risk =>
                 F64le (RiskIndicator.Value (riskIndicator risk)) (F64.of_int 4)
                 /\ (Risk.Level risk = RiskHigh \/ Risk.Level risk = RiskCritical ->
                     determineRiskStatus risk = RiskStatusNormal
                     /\ RiskIndicator.Status (riskIndicator risk) = RiskStatusNormal)
                 /\ (RiskIndicator.Status (riskIndicator risk) <> RiskStatusNormal ->
                     Risk.Level risk <> RiskHigh /\ Risk.Level risk <> RiskCritical))
              risks.
Proof.
  intros Hfind Hprob.
  unfold MonitorRisks, memoryMonitoringService, NewMonitoringService. simpl.
  rewrite Hfind. eexists. split; [reflexivity |]. split; [reflexivity |].
  apply Forall_forall. intros risk Hin.
  rewrite Forall_forall in Hprob. specialize (Hprob risk Hin).
  split; [| split].
  - apply withinFour_le, indicator_withinFour, Hprob.
  - intros Hlevel. split; apply determineRiskStatus_Normal; assumption.
  - intros Hstatus. split; intros Hlevel; apply Hstatus;
      apply determineRiskStatus_Normal; auto.
Qed.
End RiskMonitoringProperties.

Section DuplicateAdd.

Lemma has_ID_In apps id :
  ApplicationPortfolio.has_ID apps id = true <-> In id (map Application.ID apps).
Proof.
  induction apps as [|existing rest IH]; simpl.
  - split; [discriminate | contradiction].
  - destruct (String.eqb_spec (Application.ID existing) id) as [Heq | Hne].
    + split; auto.
    + rewrite IH. split; [auto | intros [H | H]; [contradiction | exact H]].
Qed.

Lemma findDuplicate_In apps app :
  In (Application.ID app) (map Application.ID apps) ->
  exists e, ApplicationPortfolioAggregate.findDuplicate apps app = Some e
            /\ isAlreadyExists e = true.
Proof.
  induction apps as [|existing rest IH]; simpl; [contradiction |].
  intros Hin.
  destruct (String.eqb_spec (Application.ID existing) (Application.ID app)) as [Heq | Hne].
  - eexists. split; reflexivity.
  - destruct (String.eqb (Application.Name existing) (Application.Name app)).
    + eexists. split; reflexivity.
    + apply IH. destruct Hin as [H | H]; [contradiction | exact H].
Qed.

Lemma Validate_cases app :
  (Application.Validate app = None
   /\ Application.ID app <> "" /\ Application.Name app <> "")
  \/ (exists e, Application.Validate app = Some e
                /\ isValidationError e = true /\ isAlreadyExists e = false
                /\ isValidationError (wrap_error "invalid application" e) = true
                /\ isAlreadyExists (wrap_error "invalid application" e) = false
                /\ (Application.ID app = "" \/ Application.Name app = "")).
Proof.
  unfold Application.Validate.
  destruct (String.eqb_spec (Application.ID app) "") as [Hid | Hid].
  - right. eexists. repeat split; auto.
  - destruct (String.eqb_spec (Application.Name app) "") as [Hn | Hn].
    + right. eexists. repeat split; auto.
    + left. auto.
Qed.

(** C9, amended.  Adding an application whose ID already appears in the
    portfolio's Applications list fails and leaves the portfolio (the
    aggregate, the repository) exactly as it was.  The error is an
    AlreadyExists error when the application is valid (which needs no
    check in the repository, whose operation takes the ID alone); for an
    application with an empty ID or name the portfolio and the aggregate
    return the validation error, not an AlreadyExists error. *)
Theorem AddApplication_duplicate :
  (forall now portfolio app,
     In (Application.ID app) (map Application.ID (ApplicationPortfolio.Applications portfolio)) ->
     exists e,
       ApplicationPortfolio.AddApplication now portfolio app = (portfolio, Some e)
       /\ (Application.Validate app = None -> isAlreadyExists e = true)
       /\ (Application.Validate app <> None ->
           isValidationError e = true /\ isAlreadyExists e = false))
  /\ (forall now aggregate app,
        In (Application.ID app)
           (map Application.ID
              (ApplicationPortfolio.Applications
                 (ApplicationPortfolioAggregate.portfolio aggregate))) ->
        exists e,
          ApplicationPortfolioAggregate.AddApplication now aggregate app = (aggregate, Some e)
          /\ (Application.Validate app = None -> isAlreadyExists e = true)
          /\ (Application.Validate app <> None ->
              isValidationError e = true /\ isAlreadyExists e = false))
  /\ (forall repo portfolioID portfolio appID,
        ApplicationPortfolioRepositoryMemory.portfolios repo !! portfolioID = Some portfolio ->
        In appID (map Application.ID (ApplicationPortfolio.Applications portfolio)) ->
        exists e,
          ApplicationPortfolioRepositoryMemory.AddApplication repo portfolioID appID
            = (repo, Some e)
          /\ isAlreadyExists e = true).
Proof.
  split; [| split].
  - intros now portfolio app Hin.
    unfold ApplicationPortfolio.AddApplication.
    destruct (Validate_cases app) as [(Hv & _) | (e & Hv & He1 & He2 & _)]; rewrite Hv.
    + apply has_ID_In in Hin. rewrite Hin.
      eexists. split; [reflexivity |]. split; [reflexivity | congruence].
    + exists e. split; [reflexivity |]. split; [discriminate | auto].
  - intros now aggregate app Hin.
    unfold ApplicationPortfolioAggregate.AddApplication.
    destruct (Validate_cases app) as [(Hv & _) | (e & Hv & _ & _ & He1 & He2 & _)];
      rewrite Hv.
    + destruct (findDuplicate_In _ app Hin) as (e & -> & He).
      exists e. split; [reflexivity |]. split; [auto | congruence].
    + eexists. split; [reflexivity |]. split; [discriminate | auto].
  - intros repo portfolioID portfolio appID Hfind Hin.
    unfold ApplicationPortfolioRepositoryMemory.AddApplication. rewrite Hfind.
    apply has_ID_In in Hin. rewrite Hin.
    eexists. split; reflexivity.
Qed.
End DuplicateAdd.

(** * The properties on the sample data *)

(** C1 on the sample application ten days after its creation: the scores
    are 3, 1 and 4, the average is 2 and the level is Critical. *)
Lemma determineRiskLevel_by_average_witness :
  truncatedAverage (EvaluationService.assessTechnicalHealth sampleNow sampleApplication) <= 2
  /\ EvaluationService.determineRiskLevel
       (EvaluationService.assessTechnicalHealth sampleNow sampleApplication)
       (EvaluationService.assessBusinessValue sampleService sampleNow sampleApplication)
     = RiskCritical.
Proof.
  assert (H : truncatedAverage
                (EvaluationService.assessTechnicalHealth sampleNow sampleApplication) <= 2).
  { apply Z.leb_le. vm_compute. reflexivity. }
  split; [exact H |].
  apply (proj1 (determineRiskLevel_by_average sampleService sampleNow sampleApplication)).
  left. exact H.
Defined.


(** C5 on the sample portfolio: the copy of "a2" is skipped. *)
Lemma EvaluatePortfolio_skips_and_counts_witness :
  exists assessment,
    EvaluationService.EvaluatePortfolio sampleService sampleNow "p1" = Ok assessment
    /\ PortfolioHealthAssessment.TotalApplications assessment = 2
    /\ PortfolioHealthAssessment.ActiveApplications assessment = 1
    /\ PortfolioHealthAssessment.DeprecatedApplications assessment = 0.
Proof.
  destruct (EvaluatePortfolio_skips_and_counts sampleApplications sampleAgreements
              samplePortfolios sampleNow "p1" samplePortfolio)
    as (assessment & Hrun & Htotal & Hactive & Hdeprecated & _).
  { vm_compute. reflexivity. }
  exists assessment. split; [exact Hrun |].
  rewrite Htotal, Hactive, Hdeprecated.
  repeat split; vm_compute; reflexivity.
Defined.

(** C6 on a new agreement: a premature activation and a second approval
    fail, and the two transitions happen in order. *)
Lemma agreement_status_transitions_witness :
  exists a,
    GovernanceAgreementAggregate.NewGovernanceAgreementAggregate sampleStart "g1" "a1" "T"
      = Ok a
    /\ GovernanceAgreement.Status (GovernanceAgreementAggregate.agreement a) = AgreementDraft
    /\ GovernanceAgreementAggregate.transitions a
         [(1, GovernanceAgreementAggregate.OpActivate);
          (2, GovernanceAgreementAggregate.OpApprove);
          (3, GovernanceAgreementAggregate.OpApprove);
          (4, GovernanceAgreementAggregate.OpActivate)]
       = [AgreementApproved; AgreementActive].
Proof.
  eexists. split; [reflexivity |]. split.
  - apply (proj2 agreement_status_transitions sampleStart "g1" "a1" "T" _ [] eq_refl).
  - vm_compute. reflexivity.
Defined.

(** C7 on the sample agreement with no repository configured. *)
Lemma MonitorKPIs_fallback_witness :
  exists measurements,
    MonitoringService.MonitorKPIs
      (memoryMonitoringService None None None sampleAgreements) sampleNow "g1" = Ok measurements
    /\ map KPIMeasurement.KPIID measurements = ["kpi-001"; "kpi-002"]
    /\ map KPIMeasurement.Achieved measurements = [false; true].
Proof.
  destruct (MonitorKPIs_fallback None None None sampleAgreements sampleNow "g1"
              (or_introl eq_refl)) as [Hfound _].
  eexists. split.
  - apply (Hfound sampleAgreement). vm_compute. reflexivity.
  - split; reflexivity.
Defined.

(** C8, amended, on two clock readings one nanosecond apart. *)
Lemma EvaluateApplication_deterministic_given_clock_witness :
  EvaluationService.EvaluateApplication sampleService sampleNow "a1" "auditor"
  = EvaluationService.EvaluateApplication sampleService (sampleNow + 1) "a1" "auditor".
Proof.
  apply (EvaluateApplication_deterministic_given_clock sampleApplications sampleAgreements
           samplePortfolios sampleNow (sampleNow + 1) "a1" "auditor").
  intros app Happ.
  assert (Hstored : ApplicationRepositoryMemory.applications sampleApplications !! "a1"
                    = Some sampleApplication) by (vm_compute; reflexivity).
  assert (Heq : Some sampleApplication = Some app).
  { etransitivity; [symmetry; exact Hstored | exact Happ]. }
  injection Heq as <-.
  vm_compute. reflexivity.
Defined.

(** C8 as written fails: on the same stores, an evaluation ten days
    after the creation of the application and one 2000 days after it
    differ in the TechnicalHealth, in the BusinessValueAssessment and in
    the Recommendations. *)
Lemma EvaluateApplication_depends_on_clock :
  exists first second,
    EvaluationService.EvaluateApplication sampleService sampleNow "a1" "auditor" = Ok first
    /\ EvaluationService.EvaluateApplication sampleService sampleLater "a1" "auditor" = Ok second
    /\ TechnicalHealth.CodeQuality (ApplicationAssessment.TechnicalHealth first) = 3
    /\ TechnicalHealth.CodeQuality (ApplicationAssessment.TechnicalHealth second) = 1
    /\ BusinessValueAssessment.CostEfficiency (ApplicationAssessment.BusinessValue first)
       = F64.of_int 90
    /\ BusinessValueAssessment.CostEfficiency (ApplicationAssessment.BusinessValue second)
       = F64.of_int 75
    /\ map Recommendation.ID (ApplicationAssessment.Recommendations first)
       = ["sec-001"; "risk-001"]
    /\ map Recommendation.ID (ApplicationAssessment.Recommendations second)
       = ["sec-001"; "tech-001"; "risk-001"].
Proof.
  eexists. eexists.
  split; [vm_compute; reflexivity |]. split; [vm_compute; reflexivity |].
  repeat split; vm_compute; reflexivity.
Defined.

(** C9, amended, on the sample portfolio and the application it holds. *)
Lemma AddApplication_duplicate_witness :
  exists e,
    ApplicationPortfolio.AddApplication sampleNow samplePortfolio sampleApplication
      = (samplePortfolio, Some e)
    /\ isAlreadyExists e = true.
Proof.
  destruct (proj1 AddApplication_duplicate sampleNow samplePortfolio sampleApplication)
    as (e & Hrun & Hvalid & _).
  { simpl. auto. }
  exists e. split; [exact Hrun | apply Hvalid; reflexivity].
Defined.

(** C9 as written fails: an application without a name whose ID is in
    the portfolio is refused with the validation error, which is not an
    AlreadyExists error. *)
Lemma AddApplication_duplicate_unnamed :
  In (Application.ID unnamedDuplicate)
     (map Application.ID (ApplicationPortfolio.Applications samplePortfolio))
  /\ ApplicationPortfolio.AddApplication sampleNow samplePortfolio unnamedDuplicate
     = (samplePortfolio, Some "application name cannot be empty")
  /\ isAlreadyExists "application name cannot be empty" = false.
Proof.
  split; [simpl; auto |]. split; vm_compute; reflexivity.
Defined.

Lemma sampleRisk_probability : probability (Risk.Probability sampleRisk).
Proof. unfold probability, F64le. vm_compute. auto. Qed.

(** C10, amended, on a repository that holds the sample risk. *)
Lemma MonitorRisks_high_levels_normal_witness :
  exists monitoring,
    MonitoringService.MonitorRisks
      (memoryMonitoringService None None (Some sampleRiskRepository) sampleAgreements) "g1"
      = Ok monitoring
    /\ map RiskIndicator.Status (RiskMonitoring.RiskIndicators monitoring)
       = [RiskStatusNormal].
Proof.
  destruct (MonitorRisks_high_levels_normal None None sampleRiskRepository
              sampleAgreements "g1" [sampleRisk] eq_refl)
    as (monitoring & Hrun & Hindicators & _).
  { constructor; [exact sampleRisk_probability | constructor]. }
  exists monitoring. split; [exact Hrun |].
  rewrite Hindicators. vm_compute. reflexivity.
Defined.

(** The last clause of C10 as written fails: a certain risk of critical
    impact whose Level is unset gets the default threshold 2 and the
    status Critical, and its Level is neither Low nor Medium. *)
Lemma determineRiskStatus_unlisted_level :
  probability (Risk.Probability unlistedLevelRisk)
  /\ MonitoringService.determineRiskStatus unlistedLevelRisk = RiskStatusCritical
  /\ Risk.Level unlistedLevelRisk <> RiskLow
  /\ Risk.Level unlistedLevelRisk <> RiskMedium.
Proof.
  split; [unfold probability, F64le; vm_compute; auto |].
  split; [vm_compute; reflexivity |].
  split; discriminate.
Defined.

(** * Properties of the stores, the aggregates and the services *)

Section VersionMaturity.
Import EvaluationService.

Lemma Split_nonempty s sep : strings.Split s sep <> [].
Proof.
  destruct s as [|a rest]; simpl; [discriminate |].
  destruct (Ascii.eqb a sep); [discriminate |].
  destruct (strings.Split rest sep); discriminate.
Qed.

Lemma Split_length s sep : len (strings.Split s sep) = 1 + countByte sep s.
Proof.
  unfold len. induction s as [|a rest IH]; simpl; [reflexivity |].
  destruct (Ascii.eqb a sep); simpl.
  - lia.
  - pose proof (Split_nonempty rest sep).
    destruct (strings.Split rest sep); [contradiction |]. simpl in *. lia.
Qed.

(** X1.  The version signal counts dots only: it is -1 for an empty version
    string, 1 when the string has at least two dots, and 0 otherwise.  The
    search for the markers dev, alpha, beta and rc changes nothing: both of
    its branches give 0. *)
Theorem analyzeVersionMaturity_by_dots version :
  analyzeVersionMaturity version
  = if String.eqb version "" then -1
    else if 2 <=? countByte "." version then 1 else 0.
Proof.
  unfold analyzeVersionMaturity.
  destruct (String.eqb version ""); [reflexivity |].
  rewrite Split_length.
  destruct (Z.leb_spec 3 (1 + countByte "." version));
    destruct (Z.leb_spec 2 (countByte "." version)); try lia; try reflexivity.
  destruct (_ || _); reflexivity.
Qed.

End VersionMaturity.

Section Recommendations.
Import EvaluationService.

Lemma determineRiskLevel_cases techHealth businessValue :
  let level := determineRiskLevel techHealth businessValue in
  (level = RiskCritical \/ level = RiskHigh \/ level = RiskMedium \/ level = RiskLow)
  /\ (F64.ltb (BusinessValueAssessment.CostEfficiency businessValue) (F64.of_int 70) = true ->
      level = RiskCritical \/ level = RiskHigh).
Proof.
  unfold determineRiskLevel. cbv zeta.
  set (cost := BusinessValueAssessment.CostEfficiency businessValue).
  destruct (F64.ltb cost (F64.of_int 70)); rewrite ?orb_true_r;
    repeat case_match; split; auto; discriminate.
Qed.

(** X2.  For every technical health and business value, with the risk
    level that [determineRiskLevel] gives them, the recommendations come in
    the fixed order sec-001, tech-001, cost-001, risk-001, each at most
    once: sec-001 exactly when SecurityScore is below 3, tech-001 exactly
    when CodeQuality is below 3, cost-001 exactly when CostEfficiency is
    below 70, and risk-001 exactly when the level is Critical.  An
    application rated Medium or Low never gets cost-001 or risk-001. *)
Theorem generateRecommendations_by_level techHealth businessValue :
  let level := determineRiskLevel techHealth businessValue in
  let ids := recommendationIDs (generateRecommendations techHealth businessValue level) in
  sublist ids ["sec-001"; "tech-001"; "cost-001"; "risk-001"]
  /\ (In "sec-001" ids <-> TechnicalHealth.SecurityScore techHealth < 3)
  /\ (In "tech-001" ids <-> TechnicalHealth.CodeQuality techHealth < 3)
  /\ (In "cost-001" ids <->
      F64lt (BusinessValueAssessment.CostEfficiency businessValue) (F64.of_int 70))
  /\ (In "risk-001" ids <-> level = RiskCritical)
  /\ (level = RiskMedium \/ level = RiskLow ->
      ~ In "cost-001" ids /\ ~ In "risk-001" ids).
Proof.
  cbv zeta.
  destruct (determineRiskLevel_cases techHealth businessValue) as [Hlevel Hcost].
  cbv zeta in Hlevel, Hcost.
  unfold generateRecommendations, recommendationIDs, F64lt.
  destruct (Z.ltb_spec (TechnicalHealth.SecurityScore techHealth) 3);
    destruct (Z.ltb_spec (TechnicalHealth.CodeQuality techHealth) 3);
    destruct (F64.ltb (BusinessValueAssessment.CostEfficiency businessValue) (F64.of_int 70));
    try specialize (Hcost eq_refl);
    destruct Hlevel as [E | [E | [E | E]]]; rewrite E in *; simpl;
    (split; [repeat constructor |]);
    repeat split; intros; try lia; try discriminate; try assumption; try reflexivity;
      try (intuition (discriminate || lia)).
Qed.
End Recommendations.

Section RiskDistribution.
Import EvaluationService.

Variable apps : ApplicationRepositoryMemory.t.
Variable agreements : GovernanceAgreementRepositoryMemory.t.
Variable portfolios : ApplicationPortfolioRepositoryMemory.t.

Let s := memoryEvaluationService apps agreements portfolios.

Lemma countLevel_nonneg now level members : 0 <= countLevel s now level members.
Proof. apply len_nonneg. Qed.

Lemma countLevel_cons now level app rest :
  countLevel s now level (app :: rest)
  = (if hasLevel s now level app then 1 else 0) + countLevel s now level rest.
Proof.
  unfold countLevel, len. simpl. destruct (hasLevel s now level app); simpl; lia.
Qed.

Lemma histogramEntry_default k : 0 <= k -> default 0 (histogramEntry k) = k.
Proof.
  unfold histogramEntry. destruct (Z.eqb_spec k 0); simpl; lia.
Qed.

Lemma tallyApplication_histogram now acc app (k : string -> Z) :
  (forall level, 0 <= k level) ->
  (forall level, riskDistribution acc !! level = histogramEntry (k level)) ->
  exists acc',
    tallyApplication s now acc app = Ok acc'
    /\ forall level,
         riskDistribution acc' !! level
         = histogramEntry (k level + (if hasLevel s now level app then 1 else 0)).
Proof.
  intros Hk Hacc. unfold tallyApplication, hasLevel.
  pose proof (EvaluateApplication_no_panic apps agreements portfolios now
                (Application.ID app) "system") as Hnp.
  fold s in Hnp.
  destruct (EvaluateApplication s now (Application.ID app) "system") as [a|e|];
    [| |contradiction].
  - destruct (String.eqb (Application.Status app) StatusActive);
      [| destruct (String.eqb (Application.Status app) StatusDeprecated);
         [| destruct (String.eqb (Application.Status app) StatusRetired)]];
      (eexists; split; [reflexivity |]; intros level; simpl;
       destruct (String.eqb_spec (ApplicationAssessment.RiskLevel a) level) as [<- | Hne];
       [ rewrite lookup_insert_eq, Hacc, histogramEntry_default by apply Hk;
         unfold histogramEntry;
         pose proof (Hk (ApplicationAssessment.RiskLevel a));
         destruct (Z.eqb_spec (k (ApplicationAssessment.RiskLevel a) + 1) 0);
           [lia | reflexivity]
       | rewrite lookup_insert_ne by assumption; rewrite Hacc, Z.add_0_r; reflexivity ]).
  - exists acc. split; [reflexivity |].
    intros level. rewrite Hacc, Z.add_0_r. reflexivity.
Qed.

Lemma tallyApplications_histogram now members : forall acc (k : string -> Z),
  (forall level, 0 <= k level) ->
  (forall level, riskDistribution acc !! level = histogramEntry (k level)) ->
  exists acc',
    tallyApplications s now acc members = Ok acc'
    /\ forall level,
         riskDistribution acc' !! level
         = histogramEntry (k level + countLevel s now level members).
Proof.
  induction members as [|app rest IH]; intros acc k Hk Hacc; simpl.
  - exists acc. split; [reflexivity |]. intros level.
    unfold countLevel, len. simpl. rewrite Z.add_0_r. apply Hacc.
  - destruct (tallyApplication_histogram now acc app k Hk Hacc) as (acc1 & Hstep & H1).
    rewrite Hstep.
    destruct (IH acc1 (fun level => k level + (if hasLevel s now level app then 1 else 0)))
      as (acc' & Hrun & H').
    + intros level. pose proof (Hk level). destruct (hasLevel s now level app); lia.
    + exact H1.
    + exists acc'. split; [exact Hrun |]. intros level.
      rewrite H', countLevel_cons. f_equal. lia.
Qed.

(** X3.  [EvaluatePortfolio] on an unknown portfolio ID returns the
    wrapped error "portfolio not found".  On a stored portfolio, the
    RiskDistribution maps each risk level to the number of members whose
    evaluation succeeded with that level, and has no entry for a level that
    no member has; RedundantApplications and TotalCost are always zero. *)
Theorem EvaluatePortfolio_risk_distribution now portfolioID :
  match ApplicationPortfolioRepositoryMemory.portfolios portfolios !! portfolioID with
  | None =>
      EvaluatePortfolio s now portfolioID
      = Err "failed to find portfolio: portfolio not found"
  | Some portfolio =>
      exists assessment,
        EvaluatePortfolio s now portfolioID = Ok assessment
        /\ (forall level,
              PortfolioHealthAssessment.RiskDistribution assessment !! level
              = histogramEntry
                  (countLevel s now level (ApplicationPortfolio.Applications portfolio)))
        /\ PortfolioHealthAssessment.RedundantApplications assessment = 0
        /\ PortfolioHealthAssessment.TotalCost assessment = F64.of_int 0
  end.
Proof.
  unfold EvaluatePortfolio, s, memoryEvaluationService, NewEvaluationService. simpl.
  unfold ApplicationPortfolioRepositoryMemory.FindByID.
  destruct (ApplicationPortfolioRepositoryMemory.portfolios portfolios !! portfolioID)
    as [portfolio|]; [| reflexivity].
  destruct (tallyApplications_histogram now (ApplicationPortfolio.Applications portfolio)
              tally0 (fun _ => 0)) as (acc & Hrun & Hhist).
  { intros _. lia. }
  { intros level. simpl. apply lookup_empty. }
  unfold s, memoryEvaluationService, NewEvaluationService in Hrun. rewrite Hrun.
  destruct (calculateAverageApplicationAge_returns now
              (ApplicationPortfolio.Applications portfolio)) as (avgAge & Havg & _).
  rewrite Havg.
  eexists. split; [reflexivity |]. simpl.
  split; [| split; reflexivity].
  intros level. rewrite Hhist. reflexivity.
Qed.

End RiskDistribution.

Section Placeholder.
Import EvaluationService.

Variable apps : ApplicationRepositoryMemory.t.
Variable agreements : GovernanceAgreementRepositoryMemory.t.

Lemma EvaluateApplication_portfolios_irrelevant portfolios1 portfolios2 now appID evaluator :
  EvaluateApplication (memoryEvaluationService apps agreements portfolios1) now appID evaluator
  = EvaluateApplication (memoryEvaluationService apps agreements portfolios2) now appID evaluator.
Proof. reflexivity. Qed.

Lemma countStatus_portfolios_irrelevant portfolios1 portfolios2 now status members :
  countStatus (memoryEvaluationService apps agreements portfolios1) now status members
  = countStatus (memoryEvaluationService apps agreements portfolios2) now status members.
Proof. reflexivity. Qed.

Lemma countStatus_app s now status members1 members2 :
  countStatus s now status (members1 ++ members2)
  = countStatus s now status members1 + countStatus s now status members2.
Proof.
  unfold countStatus, len. rewrite List.filter_app, length_app. lia.
Qed.

Lemma EvaluatePortfolio_counts portfolios now portfolioID portfolio :
  ApplicationPortfolioRepositoryMemory.portfolios portfolios !! portfolioID = Some portfolio ->
  let s := memoryEvaluationService apps agreements portfolios in
  let members := ApplicationPortfolio.Applications portfolio in
  exists assessment,
    EvaluatePortfolio s now portfolioID = Ok assessment
    /\ PortfolioHealthAssessment.TotalApplications assessment = len members
    /\ PortfolioHealthAssessment.ActiveApplications assessment
       = countStatus s now StatusActive members
    /\ PortfolioHealthAssessment.DeprecatedApplications assessment
       = countStatus s now StatusDeprecated members.
Proof.
  intros Hfind s members.
  unfold EvaluatePortfolio, s, memoryEvaluationService, NewEvaluationService. simpl.
  unfold ApplicationPortfolioRepositoryMemory.FindByID. rewrite Hfind.
  destruct (tallyApplications_counts apps agreements portfolios now members tally0)
    as (acc & Hrun & Ha & Hd).
  fold members. unfold memoryEvaluationService, NewEvaluationService in Hrun.
  rewrite Hrun. simpl in Ha, Hd.
  destruct (calculateAverageApplicationAge_returns now members) as (avgAge & Havg & _).
  rewrite Havg.
  eexists. split; [reflexivity |]. simpl.
  split; [reflexivity |]. split; [exact Ha | exact Hd].
Qed.

(** X4.  A member that the portfolio store's [AddApplication] adds is a
    placeholder with an empty status: after a successful call,
    [EvaluatePortfolio] reports one more application in total, and the same
    numbers of active and deprecated applications as before. *)
Theorem EvaluatePortfolio_placeholder_member portfolios portfolios' now portfolioID appID
    before :
  ApplicationPortfolioRepositoryMemory.AddApplication portfolios portfolioID appID
  = (portfolios', None) ->
  EvaluatePortfolio (memoryEvaluationService apps agreements portfolios) now portfolioID
  = Ok before ->
  exists after,
    EvaluatePortfolio (memoryEvaluationService apps agreements portfolios') now portfolioID
    = Ok after
    /\ PortfolioHealthAssessment.TotalApplications after
       = PortfolioHealthAssessment.TotalApplications before + 1
    /\ PortfolioHealthAssessment.ActiveApplications after
       = PortfolioHealthAssessment.ActiveApplications before
    /\ PortfolioHealthAssessment.DeprecatedApplications after
       = PortfolioHealthAssessment.DeprecatedApplications before.
Proof.
  unfold ApplicationPortfolioRepositoryMemory.AddApplication.
  destruct (ApplicationPortfolioRepositoryMemory.portfolios portfolios !! portfolioID)
    as [portfolio|] eqn:Hfind; [| discriminate].
  destruct (ApplicationPortfolio.has_ID _ appID); [discriminate |].
  intros Hadd Hbefore. injection Hadd as <-.
  destruct (EvaluatePortfolio_counts portfolios now portfolioID portfolio Hfind)
    as (before' & Hb & Hbt & Hba & Hbd).
  cbv zeta in Hb. rewrite Hb in Hbefore. injection Hbefore as <-.
  set (portfolio' :=
         ApplicationPortfolio.with_Applications
           (ApplicationPortfolio.Applications portfolio
              ++ [ApplicationPortfolioRepositoryMemory.placeholderApp appID]) portfolio).
  set (portfolios' :=
         {| ApplicationPortfolioRepositoryMemory.portfolios :=
              <[portfolioID := portfolio']>
                (ApplicationPortfolioRepositoryMemory.portfolios portfolios);
            ApplicationPortfolioRepositoryMemory.byOwner :=
              ApplicationPortfolioRepositoryMemory.byOwner portfolios |}).
  destruct (EvaluatePortfolio_counts portfolios' now portfolioID portfolio')
    as (after & Ha & Hat & Haa & Had).
  { simpl. apply lookup_insert_eq. }
  exists after. split; [exact Ha |].
  rewrite Hat, Haa, Had, Hbt, Hba, Hbd.
  rewrite (countStatus_portfolios_irrelevant portfolios' portfolios).
  rewrite (countStatus_portfolios_irrelevant portfolios' portfolios now StatusDeprecated).
  simpl. rewrite !countStatus_app.
  unfold len. rewrite length_app. simpl.
  assert (Hz : forall status, status = StatusActive \/ status = StatusDeprecated ->
             countStatus (memoryEvaluationService apps agreements portfolios) now status
               [ApplicationPortfolioRepositoryMemory.placeholderApp appID] = 0).
  { intros status [-> | ->]; unfold countStatus; simpl;
      destruct (evaluable _ _ _); reflexivity. }
  rewrite !Hz by auto.
  repeat split; lia.
Qed.

End Placeholder.

Section AverageAge.
Import EvaluationService.

Lemma totalAge_bounds now members bound :
  Forall (fun app => 0 <= time.Since now (Application.CreatedAt app) <= bound) members ->
  0 <= totalAge now members <= len members * bound.
Proof.
  unfold len. induction 1 as [|app rest Happ Hrest IH]; simpl; [lia |].
  rewrite Nat2Z.inj_succ. lia.
Qed.

Lemma sum_ages_no_wrap now members bound : forall acc,
  Forall (fun app => 0 <= time.Since now (Application.CreatedAt app) <= bound) members ->
  0 <= acc -> acc + len members * bound <= maxInt64 ->
  fold_left (fun totalAge app =>
               wrap64 (totalAge + time.Since now (Application.CreatedAt app))) members acc
  = acc + totalAge now members.
Proof.
  unfold len. induction members as [|app rest IH]; intros acc Hall Hacc Hmax; simpl.
  - lia.
  - inversion Hall as [|? ? Happ Hrest]; subst.
    pose proof (totalAge_bounds now rest bound Hrest) as Hb. unfold len in Hb.
    simpl length in Hmax. rewrite Nat2Z.inj_succ in Hmax.
    rewrite wrap64_small by (unfold minInt64, maxInt64 in *; lia).
    rewrite IH; [lia | assumption | lia | lia].
Qed.

(** X5.  When the members are not empty and their ages are between zero
    and a bound small enough for the int64 sum not to overflow,
    [calculateAverageApplicationAge] returns the sum of the ages divided by
    the number of members, and the result is between zero and the bound. *)
Theorem calculateAverageApplicationAge_bounded now members bound :
  members <> [] ->
  len members * bound <= maxInt64 ->
  Forall (fun app => 0 <= time.Since now (Application.CreatedAt app) <= bound) members ->
  exists avgAge,
    calculateAverageApplicationAge now members = Ok avgAge
    /\ avgAge = totalAge now members / len members
    /\ 0 <= avgAge <= bound.
Proof.
  intros Hne Hmax Hall.
  assert (Hlen : 0 < len members).
  { unfold len. destruct members; [contradiction | simpl; lia]. }
  pose proof (totalAge_bounds now members bound Hall) as Hb.
  unfold calculateAverageApplicationAge, divInt64.
  destruct (Z.eqb_spec (len members) 0) as [Hz | _]; [lia |].
  rewrite (sum_ages_no_wrap now members bound 0 Hall) by lia.
  rewrite Z.add_0_l, Z.quot_div_nonneg by lia.
  assert (Hq : 0 <= totalAge now members / len members <= bound).
  { split.
    - apply Z.div_pos; lia.
    - apply Z.div_le_upper_bound; lia. }
  assert (Hbound : bound <= maxInt64).
  { unfold maxInt64 in *. nia. }
  rewrite wrap64_small by (unfold minInt64, maxInt64 in *; lia).
  eexists. split; [reflexivity |]. split; [reflexivity | exact Hq].
Qed.

(** X6.  An unset creation date makes [time.Since] saturate.  At a clock
    reading later than 292 years after the zero time, one member with no
    creation date gives the largest Duration as the average age, and two
    such members make the int64 sum wrap around: the average is -1
    nanosecond. *)
Theorem calculateAverageApplicationAge_unset now a b :
  maxInt64 <= now ->
  Application.CreatedAt a = time.zero ->
  Application.CreatedAt b = time.zero ->
  calculateAverageApplicationAge now [a] = Ok time.maxDuration
  /\ calculateAverageApplicationAge now [a; b] = Ok (-1).
Proof.
  intros Hnow Ha Hb.
  assert (Hsince : time.Since now time.zero = time.maxDuration).
  { unfold time.Since, time.Sub, time.zero, time.minDuration, time.maxDuration,
      minInt64, maxInt64 in *.
    rewrite Z.sub_0_r.
    destruct (Z.ltb_spec now (- 2 ^ 63)); [lia |].
    destruct (Z.ltb_spec (2 ^ 63 - 1) now); [reflexivity | lia]. }
  unfold calculateAverageApplicationAge. simpl.
  rewrite Ha, Hb, Hsince. split; vm_compute; reflexivity.
Qed.

End AverageAge.

Lemma Forall2_In_left {A B} (P : A -> B -> Prop) (l : list A) (k : list B) (x : A) :
Forall2 P l k -> In x l -> exists y, In y k /\ P x y.
Proof.
induction 1 as [|a b l k Hab Hrest IH]; simpl; [contradiction |].
intros [<- | Hin].
- exists b. split; [left; reflexivity | exact Hab].
- destruct (IH Hin) as (y & Hy & Hxy). exists y. split; [right; exact Hy | exact Hxy].
Qed.

Section KPIMonitoring.
Import MonitoringService.

Variable measurementRepo : KPIMeasurementRepository.t.
Hypothesis FindLatest_returns :
  forall id, KPIMeasurementRepository.FindLatest measurementRepo id <> Panic.

Lemma measureKPIs_reports now kpis : forall measurements,
  exists reported,
    measureKPIs measurementRepo now kpis measurements = Ok (measurements ++ reported)
    /\ Forall2 (reportedFor measurementRepo now) kpis reported.
Proof.
  induction kpis as [|kpi rest IH]; intros measurements; simpl.
  - exists []. rewrite app_nil_r. split; [reflexivity | constructor].
  - pose proof (FindLatest_returns (KPI.ID kpi)) as Hnp.
    destruct (KPIMeasurementRepository.FindLatest measurementRepo (KPI.ID kpi))
      as [latest|e|] eqn:Hlatest; [| | contradiction].
    + destruct (IH (measurements
                     ++ [with_Achieved (isKPITargetAchieved kpi latest) latest]))
        as (reported & Hrun & Hall).
      eexists (_ :: reported). rewrite Hrun, <- app_assoc. split; [reflexivity |].
      constructor; [| exact Hall].
      unfold reportedFor. rewrite Hlatest. split; reflexivity.
    + match goal with
      | |- context [measureKPIs _ _ _ (measurements ++ [?m])] =>
          destruct (IH (measurements ++ [m])) as (reported & Hrun & Hall);
          exists (m :: reported)
      end.
      rewrite Hrun, <- app_assoc. split; [reflexivity |].
      constructor; [| exact Hall].
      unfold reportedFor. rewrite Hlatest. repeat split.
Qed.

Variable kpiRepo : KPIRepository.t.
Variable riskRepo : option RiskRepository.t.
Variable agreements : GovernanceAgreementRepositoryMemory.t.

Let s := memoryMonitoringService (Some kpiRepo) (Some measurementRepo) riskRepo agreements.

Lemma MonitorKPIs_configured_cases now agreementID :
  is_Some (GovernanceAgreementRepositoryMemory.agreements agreements !! agreementID) ->
  match KPIRepository.FindAll kpiRepo with
  | Ok kpis =>
      exists reported,
        MonitorKPIs s now agreementID = Ok reported
        /\ Forall2 (reportedFor measurementRepo now) kpis reported
  | Err err => MonitorKPIs s now agreementID = Err (wrap_error "failed to find KPIs" err)
  | Panic => MonitorKPIs s now agreementID = Panic
  end.
Proof.
  intros [agreement Hfind].
  unfold MonitorKPIs, s, memoryMonitoringService, NewMonitoringService. simpl.
  unfold GovernanceAgreementRepositoryMemory.FindByID. rewrite Hfind.
  destruct (KPIRepository.FindAll kpiRepo) as [kpis|e|]; try reflexivity.
  destruct (measureKPIs_reports now kpis []) as (reported & Hrun & Hall).
  exists reported. split; assumption.
Qed.

(** X7.  With a KPI store and a measurement store configured and the
    agreement stored, [MonitorKPIs] reports one measurement for each stored
    KPI, in the order of the KPI store: the latest measurement with its
    Achieved flag computed anew from the KPI's target, or a measurement of
    zero with the note "No measurement available".  A failure of the KPI
    store is returned wrapped in "failed to find KPIs". *)
Theorem MonitorKPIs_measures_each_KPI now agreementID :
  is_Some (GovernanceAgreementRepositoryMemory.agreements agreements !! agreementID) ->
  match KPIRepository.FindAll kpiRepo with
  | Ok kpis =>
      exists reported,
        MonitorKPIs s now agreementID = Ok reported
        /\ Forall2 (reportedFor measurementRepo now) kpis reported
  | Err err => MonitorKPIs s now agreementID = Err (wrap_error "failed to find KPIs" err)
  | Panic => MonitorKPIs s now agreementID = Panic
  end.
Proof. exact (MonitorKPIs_configured_cases now agreementID). Qed.

(** X8.  A KPI without a stored measurement is reported with the value
    zero, so its Achieved flag depends on the category alone: for an
    efficiency KPI it is true exactly when the target is at least zero, and
    for every other category it is true exactly when the target is at most
    zero. *)
Theorem MonitorKPIs_missing_measurement now agreementID kpis kpi err :
  is_Some (GovernanceAgreementRepositoryMemory.agreements agreements !! agreementID) ->
  KPIRepository.FindAll kpiRepo = Ok kpis ->
  In kpi kpis ->
  KPIMeasurementRepository.FindLatest measurementRepo (KPI.ID kpi) = Err err ->
  exists reported m,
    MonitorKPIs s now agreementID = Ok reported
    /\ In m reported
    /\ KPIMeasurement.KPIID m = KPI.ID kpi
    /\ KPIMeasurement.Notes m = "No measurement available"
    /\ KPIMeasurement.Achieved m
       = (if String.eqb (KPI.Category kpi) "performance"
          then F64.leb (KPI.Target kpi) (F64.of_int 0)
          else if String.eqb (KPI.Category kpi) "efficiency"
          then F64.leb (F64.of_int 0) (KPI.Target kpi)
          else F64.leb (KPI.Target kpi) (F64.of_int 0)).
Proof.
  intros Hstored Hall Hin Hlatest.
  pose proof (MonitorKPIs_configured_cases now agreementID Hstored) as H.
  rewrite Hall in H. destruct H as (reported & Hrun & Hrep).
  destruct (Forall2_In_left _ _ _ _ Hrep Hin) as (m & Hm & Hach & Hrest).
  rewrite Hlatest in Hrest. destruct Hrest as (Hid & Hvalue & _ & _ & Hnotes).
  exists reported, m. repeat split; try assumption.
  rewrite Hach. unfold isKPITargetAchieved, F64.geb, F64.leb. rewrite Hvalue.
  reflexivity.
Qed.

End KPIMonitoring.

Section GovernanceMonitoring.
Import MonitoringService.

(** X9.  [MonitorRisks] never looks at the agreement: its result is the
    same for every agreement ID.  [MonitorGovernance] and
    [MonitorCompliance] fail with the "governance agreement not found"
    error for an ID that is not stored; with the agreement stored and no
    KPI, measurement or risk store, [MonitorGovernance] returns the
    demonstration measurements, the compliance monitoring of the agreement
    and the demonstration risk indicators. *)
Theorem MonitorGovernance_requires_agreement kpiRepo measurementRepo riskRepo agreements
    now agreementID :
  let s := memoryMonitoringService kpiRepo measurementRepo riskRepo agreements in
  let stored := GovernanceAgreementRepositoryMemory.agreements agreements !! agreementID in
  (stored = None ->
   GovernanceService.MonitorGovernance s now agreementID
   = Err (wrap_error "failed to monitor KPIs"
            (wrap_error "failed to find governance agreement"
               "governance agreement not found"))
   /\ MonitorCompliance s agreementID
      = Err "failed to find governance agreement: governance agreement not found")
  /\ (forall otherID, MonitorRisks s otherID = MonitorRisks s agreementID)
  /\ (forall agreement,
        stored = Some agreement ->
        kpiRepo = None \/ measurementRepo = None ->
        riskRepo = None ->
        GovernanceService.MonitorGovernance s now agreementID
        = Ok {| GovernanceMonitoringResult.KPIMeasurements := mockMeasurements now;
                GovernanceMonitoringResult.ComplianceStatus :=
                  GovernanceAgreement.Conformance_ComplianceMonitoring agreement;
                GovernanceMonitoringResult.RiskStatus := mockRiskMonitoring |}).
Proof.
  cbv zeta.
  unfold GovernanceService.MonitorGovernance, MonitorKPIs, MonitorCompliance, MonitorRisks,
    memoryMonitoringService, NewMonitoringService. simpl.
  unfold GovernanceAgreementRepositoryMemory.FindByID.
  split; [| split].
  - intros ->. split; reflexivity.
  - reflexivity.
  - intros agreement -> Hkpi ->.
    destruct Hkpi as [-> | ->]; [reflexivity |].
    destruct kpiRepo; reflexivity.
Qed.

End GovernanceMonitoring.

Section PortfolioAggregate.
Import ApplicationPortfolioAggregate.

Lemma findDuplicate_None apps app :
  findDuplicate apps app = None
  <-> Forall (fun member =>
                Application.ID member <> Application.ID app
                /\ Application.Name member <> Application.Name app) apps.
Proof.
  induction apps as [|existing rest IH]; simpl.
  - split; [constructor | reflexivity].
  - destruct (String.eqb_spec (Application.ID existing) (Application.ID app)) as [Hid | Hid].
    + split; [discriminate |]. intros H. inversion H; subst. tauto.
    + destruct (String.eqb_spec (Application.Name existing) (Application.Name app))
        as [Hn | Hn].
      * split; [discriminate |]. intros H. inversion H; subst. tauto.
      * rewrite IH. split.
        -- intros H. constructor; auto.
        -- intros H. inversion H; subst. assumption.
Qed.

Lemma Validate_None app :
  Application.Validate app = None
  <-> Application.ID app <> "" /\ Application.Name app <> "".
Proof.
  unfold Application.Validate.
  destruct (String.eqb_spec (Application.ID app) "");
    destruct (String.eqb_spec (Application.Name app) "");
    split; try discriminate; try tauto; reflexivity.
Qed.

Lemma aggregate_AddApplication_cases now a app :
  let members := ApplicationPortfolio.Applications (portfolio a) in
  match AddApplication now a app with
  | (a', None) =>
      admissible members app
      /\ ApplicationPortfolio.Applications (portfolio a') = members ++ [app]
      /\ ApplicationPortfolio.ID (portfolio a') = ApplicationPortfolio.ID (portfolio a)
      /\ domainEvents a'
         = domainEvents a
           ++ [ApplicationAddedToPortfolioEvent (ApplicationPortfolio.ID (portfolio a))
                 (Application.ID app) (Application.Name app)
                 (Application.GovernanceAgreementID app) now]
  | (a', Some _) => ~ admissible members app /\ a' = a
  end.
Proof.
  cbv zeta. unfold AddApplication, admissible.
  destruct (Application.Validate app) as [e|] eqn:Hv.
  - split; [| reflexivity]. intros (Hid & Hn & _).
    assert (Application.Validate app = None) by (apply Validate_None; auto). congruence.
  - apply Validate_None in Hv. destruct Hv as [Hid Hn].
    destruct (findDuplicate _ app) as [e|] eqn:Hd.
    + split; [| reflexivity]. intros (_ & _ & _ & Hall).
      apply findDuplicate_None in Hall. congruence.
    + apply findDuplicate_None in Hd.
      destruct (String.eqb_spec (Application.GovernanceAgreementID app) "") as [Hg | Hg].
      * split; [| reflexivity]. tauto.
      * simpl. repeat split; assumption.
Qed.

(** X10.  The portfolio aggregate's [AddApplication] succeeds exactly
    when the application has an ID, a name and a governance agreement ID
    and no member has its ID or its name.  On success the application is
    the last member and one ApplicationAddedToPortfolio event with its
    data is appended; on failure the aggregate, its events included, is
    unchanged. *)
Theorem aggregate_AddApplication_outcome now a app :
  let members := ApplicationPortfolio.Applications (portfolio a) in
  match AddApplication now a app with
  | (a', None) =>
      admissible members app
      /\ ApplicationPortfolio.Applications (portfolio a') = members ++ [app]
      /\ ApplicationPortfolio.ID (portfolio a') = ApplicationPortfolio.ID (portfolio a)
      /\ domainEvents a'
         = domainEvents a
           ++ [ApplicationAddedToPortfolioEvent (ApplicationPortfolio.ID (portfolio a))
                 (Application.ID app) (Application.Name app)
                 (Application.GovernanceAgreementID app) now]
  | (a', Some _) => ~ admissible members app /\ a' = a
  end.
Proof. exact (aggregate_AddApplication_cases now a app). Qed.

Lemma Forall_snoc_inv {A} (P : A -> Prop) l x : Forall P l -> P x -> Forall P (l ++ [x]).
Proof. intros. apply Forall_app. split; [assumption | constructor; [assumption | constructor]]. Qed.

Lemma NoDup_snoc {A} (l : list A) x : NoDup l -> ~ In x l -> NoDup (l ++ [x]).
Proof.
  intros Hl Hx. apply NoDup_ListNoDup. apply NoDup_ListNoDup in Hl.
  apply List.NoDup_rev in Hl. rewrite <- (rev_involutive (l ++ [x])).
  apply List.NoDup_rev. rewrite rev_app_distr. simpl. constructor; [| assumption].
  rewrite <- in_rev. assumption.
Qed.


Lemma AddApplication_wellFormed now a app :
  wellFormed a -> wellFormed (fst (AddApplication now a app)).
Proof.
  intros (Hids & Hnames & Hvalid & Hevents).
  pose proof (aggregate_AddApplication_cases now a app) as H. cbv zeta in H.
  destruct (AddApplication now a app) as [a' [e|]]; simpl.
  - destruct H as [_ ->]. repeat split; assumption.
  - destruct H as ((Hid & Hn & Hg & Hall) & Happs & _ & Hev).
    unfold wellFormed. cbv zeta. rewrite Happs, Hev, !map_app. simpl.
    repeat split.
    + apply NoDup_snoc; [assumption |].
      rewrite in_map_iff. intros (m & Hm & Hin).
      rewrite Forall_forall in Hall. apply list_elem_of_In in Hin.
      destruct (Hall m Hin). contradiction.
    + apply NoDup_snoc; [assumption |].
      rewrite in_map_iff. intros (m & Hm & Hin).
      rewrite Forall_forall in Hall. apply list_elem_of_In in Hin.
      destruct (Hall m Hin). contradiction.
    + apply Forall_snoc_inv; [assumption |].
      split; [apply Validate_None; auto | assumption].
    + unfold len in *. rewrite !length_app. simpl. lia.
Qed.

Lemma addApplications_wellFormed calls : forall a,
  wellFormed a -> wellFormed (addApplications a calls).
Proof.
  induction calls as [|[now app] rest IH]; intros a Ha; simpl; [assumption |].
  apply IH. apply AddApplication_wellFormed. assumption.
Qed.

Lemma addApplications_ID calls : forall a,
  ApplicationPortfolio.ID (portfolio (addApplications a calls))
  = ApplicationPortfolio.ID (portfolio a).
Proof.
  induction calls as [|[now app] rest IH]; intros a; simpl; [reflexivity |].
  rewrite IH.
  pose proof (aggregate_AddApplication_cases now a app) as H. cbv zeta in H.
  destruct (AddApplication now a app) as [a' [e|]]; simpl.
  - destruct H as [_ ->]. reflexivity.
  - tauto.
Qed.

Lemma NewApplicationPortfolioAggregate_cases now id name description owner :
  match NewApplicationPortfolioAggregate now id name description owner with
  | Ok a =>
      id <> "" /\ name <> "" /\ owner <> ""
      /\ ApplicationPortfolio.Validate (portfolio a) = None
      /\ ApplicationPortfolio.ID (portfolio a) = id
      /\ ApplicationPortfolio.Applications (portfolio a) = []
      /\ domainEvents a = [PortfolioCreatedEvent id name owner now]
  | Err err =>
      (id = "" /\ err = "portfolio ID cannot be empty")
      \/ (id <> "" /\ name = "" /\ err = "portfolio name cannot be empty")
      \/ (id <> "" /\ name <> "" /\ owner = "" /\ err = "portfolio owner cannot be empty")
  | Panic => False
  end.
Proof.
  unfold NewApplicationPortfolioAggregate, ApplicationPortfolio.Validate.
  destruct (String.eqb_spec id ""); [auto |].
  destruct (String.eqb_spec name ""); [auto |].
  destruct (String.eqb_spec owner ""); [auto 10 |].
  simpl.
  destruct (String.eqb_spec id ""); [contradiction |].
  destruct (String.eqb_spec name ""); [contradiction |].
  repeat split; assumption.
Qed.

(** X11.  Whatever [AddApplication] calls are made on a portfolio
    aggregate after its construction, the portfolio keeps its ID, the
    members have distinct IDs and distinct names, every member is valid and
    has a governance agreement ID, and the aggregate holds one event for
    its creation and one for each member. *)
Theorem portfolio_aggregate_invariant now id name description owner a calls :
  NewApplicationPortfolioAggregate now id name description owner = Ok a ->
  let a' := addApplications a calls in
  let members := ApplicationPortfolio.Applications (portfolio a') in
  ApplicationPortfolio.ID (portfolio a') = id
  /\ NoDup (map Application.ID members)
  /\ NoDup (map Application.Name members)
  /\ Forall (fun member =>
               Application.Validate member = None
               /\ Application.GovernanceAgreementID member <> "") members
  /\ len (domainEvents a') = 1 + len members.
Proof.
  intros Hnew. cbv zeta.
  pose proof (NewApplicationPortfolioAggregate_cases now id name description owner) as H.
  rewrite Hnew in H. destruct H as (_ & _ & _ & _ & Hid & Happs & Hev).
  split; [rewrite addApplications_ID; exact Hid |].
  apply addApplications_wellFormed.
  unfold wellFormed. cbv zeta. rewrite Happs, Hev. simpl.
  repeat split; constructor.
Qed.

End PortfolioAggregate.

Section AgreementAggregate.
Import GovernanceAgreementAggregate.

Lemma NewGovernanceAgreementAggregate_cases now id applicationID title :
  match NewGovernanceAgreementAggregate now id applicationID title with
  | Ok a =>
      id <> "" /\ applicationID <> "" /\ title <> ""
      /\ GovernanceAgreement.Validate (agreement a) = None
      /\ GovernanceAgreement.ID (agreement a) = id
      /\ GovernanceAgreement.ApplicationID (agreement a) = applicationID
      /\ GovernanceAgreement.Status (agreement a) = AgreementDraft
      /\ domainEvents a = [GovernanceAgreementCreatedEvent id applicationID title now]
  | Err err =>
      (id = "" /\ err = "governance agreement ID cannot be empty")
      \/ (id <> "" /\ applicationID = "" /\ err = "application ID cannot be empty")
      \/ (id <> "" /\ applicationID <> "" /\ title = ""
          /\ err = "governance agreement title cannot be empty")
  | Panic => False
  end.
Proof.
  unfold NewGovernanceAgreementAggregate, GovernanceAgreement.Validate.
  destruct (String.eqb_spec id ""); [auto |].
  destruct (String.eqb_spec applicationID ""); [auto |].
  destruct (String.eqb_spec title ""); [auto 10 |].
  simpl.
  destruct (String.eqb_spec id ""); [contradiction |].
  destruct (String.eqb_spec applicationID ""); [contradiction |].
  destruct (String.eqb_spec title ""); [contradiction |].
  repeat split; assumption.
Qed.

End AgreementAggregate.

(** X12.  The constructors of the two aggregates return an aggregate
    exactly when the three required strings are not empty, and otherwise
    the error of the first empty one.  The entity of a new aggregate passes
    its own [Validate]; a new portfolio has no members, a new agreement is a
    draft, and the only event is the creation event. *)
Theorem aggregate_constructors_validate now (id name description owner applicationID
    title : string) :
  match ApplicationPortfolioAggregate.NewApplicationPortfolioAggregate
          now id name description owner with
  | Ok a =>
      id <> "" /\ name <> "" /\ owner <> ""
      /\ ApplicationPortfolio.Validate (ApplicationPortfolioAggregate.portfolio a) = None
      /\ ApplicationPortfolio.ID (ApplicationPortfolioAggregate.portfolio a) = id
      /\ ApplicationPortfolio.Applications (ApplicationPortfolioAggregate.portfolio a) = []
      /\ ApplicationPortfolioAggregate.domainEvents a
         = [PortfolioCreatedEvent id name owner now]
  | Err err =>
      (id = "" /\ err = "portfolio ID cannot be empty")
      \/ (id <> "" /\ name = "" /\ err = "portfolio name cannot be empty")
      \/ (id <> "" /\ name <> "" /\ owner = "" /\ err = "portfolio owner cannot be empty")
  | Panic => False
  end
  /\ match GovernanceAgreementAggregate.NewGovernanceAgreementAggregate
             now id applicationID title with
     | Ok a =>
         id <> "" /\ applicationID <> "" /\ title <> ""
         /\ GovernanceAgreement.Validate (GovernanceAgreementAggregate.agreement a) = None
         /\ GovernanceAgreement.ID (GovernanceAgreementAggregate.agreement a) = id
         /\ GovernanceAgreement.ApplicationID (GovernanceAgreementAggregate.agreement a)
            = applicationID
         /\ GovernanceAgreement.Status (GovernanceAgreementAggregate.agreement a)
            = AgreementDraft
         /\ GovernanceAgreementAggregate.domainEvents a
            = [GovernanceAgreementCreatedEvent id applicationID title now]
     | Err err =>
         (id = "" /\ err = "governance agreement ID cannot be empty")
         \/ (id <> "" /\ applicationID = "" /\ err = "application ID cannot be empty")
         \/ (id <> "" /\ applicationID <> "" /\ title = ""
             /\ err = "governance agreement title cannot be empty")
     | Panic => False
     end.
Proof.
split.
- apply NewApplicationPortfolioAggregate_cases.
- apply NewGovernanceAgreementAggregate_cases.
Qed.

Section PortfolioMembers.
Import ApplicationPortfolio.

Lemma indexOfID_Some apps appID i :
  indexOfID apps appID = Some i ->
  exists before app after,
    apps = before ++ app :: after
    /\ Application.ID app = appID
    /\ ~ In appID (map Application.ID before)
    /\ removeAt i apps = before ++ after.
Proof.
  revert i. induction apps as [|existing rest IH]; intros i; simpl; [discriminate |].
  destruct (String.eqb_spec (Application.ID existing) appID) as [Heq | Hne].
  - intros [= <-]. exists [], existing, rest. unfold removeAt. simpl.
    rewrite drop_0. repeat split; auto.
  - destruct (indexOfID rest appID) as [j|]; [| discriminate].
    intros [= <-].
    destruct (IH j eq_refl) as (before & app & after & -> & Hid & Hnot & Hrem).
    exists (existing :: before), app, after. unfold removeAt in *. simpl.
    repeat split; [assumption | | f_equal; exact Hrem].
    intros [H | H]; contradiction.
Qed.

Lemma indexOfID_None apps appID :
  indexOfID apps appID = None <-> ~ In appID (map Application.ID apps).
Proof.
  induction apps as [|existing rest IH]; simpl.
  - split; [tauto | reflexivity].
  - destruct (String.eqb_spec (Application.ID existing) appID) as [Heq | Hne].
    + split; [discriminate | intros H; exfalso; apply H; auto].
    + destruct (indexOfID rest appID); simpl.
      * split; [discriminate |]. intros H. exfalso.
        destruct IH as [_ IH]. assert (Some n = None) by (apply IH; tauto). discriminate.
      * split; [| reflexivity]. intros _ [H | H]; [contradiction |].
        destruct IH as [IH _]. exact (IH eq_refl H).
Qed.

Lemma indexOfID_snoc apps app :
  ~ In (Application.ID app) (map Application.ID apps) ->
  indexOfID (apps ++ [app]) (Application.ID app) = Some (length apps)
  /\ removeAt (length apps) (apps ++ [app]) = apps.
Proof.
  intros Hnot. split.
  - induction apps as [|existing rest IH]; simpl.
    + rewrite String.eqb_refl. reflexivity.
    + simpl in Hnot.
      destruct (String.eqb_spec (Application.ID existing) (Application.ID app)) as [Heq | Hne].
      * exfalso. apply Hnot. left. exact Heq.
      * rewrite IH by tauto. reflexivity.
  - unfold removeAt. rewrite take_app_length.
    rewrite drop_app_ge by lia.
    replace (S (length apps) - length apps)%nat with 1%nat by lia.
    simpl. apply app_nil_r.
Qed.

Lemma RemoveApplication_cases now ap appID :
  match RemoveApplication now ap appID with
  | (ap', None) =>
      exists before app after,
        Applications ap = before ++ app :: after
        /\ Application.ID app = appID
        /\ ~ In appID (map Application.ID before)
        /\ ap' = with_UpdatedAt now (with_Applications (before ++ after) ap)
  | (ap', Some err) =>
      ~ In appID (map Application.ID (Applications ap))
      /\ ap' = ap
      /\ err = "application not found in portfolio"
  end.
Proof.
  unfold RemoveApplication.
  destruct (indexOfID (Applications ap) appID) as [i|] eqn:Hi.
  - destruct (indexOfID_Some _ _ _ Hi) as (before & app & after & Happs & Hid & Hnot & Hrem).
    exists before, app, after. rewrite Hrem. auto.
  - apply indexOfID_None in Hi. auto.
Qed.

(** X13.  [ApplicationPortfolio.RemoveApplication] removes the first
    member with the given ID, keeps the others in their order and stamps
    UpdatedAt; when no member has the ID it returns "application not found
    in portfolio" and leaves the portfolio unchanged. *)
Theorem RemoveApplication_outcome now ap appID :
  match RemoveApplication now ap appID with
  | (ap', None) =>
      exists before app after,
        Applications ap = before ++ app :: after
        /\ Application.ID app = appID
        /\ ~ In appID (map Application.ID before)
        /\ ap' = with_UpdatedAt now (with_Applications (before ++ after) ap)
  | (ap', Some err) =>
      ~ In appID (map Application.ID (Applications ap))
      /\ ap' = ap
      /\ err = "application not found in portfolio"
  end.
Proof. exact (RemoveApplication_cases now ap appID). Qed.

(** X14.  Removing an application that [AddApplication] has just added
    succeeds and gives back the list of members as it was before; only
    UpdatedAt has changed. *)
Theorem AddApplication_RemoveApplication now now' ap app ap' :
  AddApplication now ap app = (ap', None) ->
  exists ap'',
    RemoveApplication now' ap' (Application.ID app) = (ap'', None)
    /\ Applications ap'' = Applications ap
    /\ ID ap'' = ID ap /\ Name ap'' = Name ap /\ Description ap'' = Description ap
    /\ Owner ap'' = Owner ap /\ KPIs ap'' = KPIs ap
    /\ CreatedAt ap'' = CreatedAt ap
    /\ UpdatedAt ap'' = now'.
Proof.
  unfold AddApplication.
  destruct (Application.Validate app); [discriminate |].
  destruct (has_ID (Applications ap) (Application.ID app)) eqn:Hhas; [discriminate |].
  intros [= <-].
  assert (Hnot : ~ In (Application.ID app) (map Application.ID (Applications ap))).
  { rewrite <- has_ID_In. rewrite Hhas. discriminate. }
  destruct (indexOfID_snoc _ _ Hnot) as [Hidx Hrem].
  unfold RemoveApplication. simpl. rewrite Hidx, Hrem.
  eexists. split; [reflexivity |]. simpl. repeat split.
Qed.

Lemma NoDup_remove_middle {A} (l1 l2 : list A) x :
  NoDup (l1 ++ x :: l2) -> NoDup (l1 ++ l2) /\ ~ In x (l1 ++ l2).
Proof.
  intros H. apply NoDup_ListNoDup in H.
  pose proof (List.NoDup_remove_1 _ _ _ H) as H1.
  pose proof (List.NoDup_remove_2 _ _ _ H) as H2.
  split; [apply NoDup_ListNoDup; assumption | assumption].
Qed.

(** X15.  If the members of a portfolio have distinct IDs, they still
    have after [AddApplication] and after [RemoveApplication], whether the
    call succeeds or not; and after a successful removal the portfolio has
    one member less and no member with the removed ID. *)
Theorem distinct_IDs_preserved now ap :
  NoDup (map Application.ID (Applications ap)) ->
  (forall app,
     NoDup (map Application.ID (Applications (fst (AddApplication now ap app)))))
  /\ (forall appID,
        let '(ap', err) := RemoveApplication now ap appID in
        NoDup (map Application.ID (Applications ap'))
        /\ (err = None -> has_ID (Applications ap') appID = false
                          /\ len (Applications ap') = len (Applications ap) - 1)).
Proof.
  intros Hnd. split.
  - intros app. unfold AddApplication.
    destruct (Application.Validate app); [exact Hnd |].
    destruct (has_ID (Applications ap) (Application.ID app)) eqn:Hhas; [exact Hnd |].
    simpl. rewrite map_app. simpl.
    apply NoDup_ListNoDup. rewrite <- (rev_involutive (_ ++ _)).
    apply List.NoDup_rev. rewrite rev_app_distr. simpl. constructor.
    + rewrite <- in_rev, <- has_ID_In, Hhas. discriminate.
    + apply List.NoDup_rev. apply NoDup_ListNoDup. exact Hnd.
  - intros appID.
    pose proof (RemoveApplication_cases now ap appID) as H.
    destruct (RemoveApplication now ap appID) as [ap' [err|]].
    + destruct H as (_ & -> & _). split; [exact Hnd | discriminate].
    + destruct H as (before & app & after & Happs & Hid & _ & ->). simpl.
      rewrite Happs, map_app in Hnd. simpl in Hnd.
      apply NoDup_remove_middle in Hnd. destruct Hnd as [Hnd Hnot].
      rewrite map_app. split; [exact Hnd |]. intros _. split.
      * destruct (has_ID (before ++ after) appID) eqn:Hhas; [| reflexivity].
        apply has_ID_In in Hhas. rewrite map_app, <- Hid in Hhas. contradiction.
      * rewrite Happs. unfold len. rewrite !length_app. simpl. lia.
Qed.

End PortfolioMembers.

Section AgreementStore.
Import GovernanceAgreementRepositoryMemory.

(** X16.  The agreement store: after [Save] the agreement is found by its
    ID and by its application ID and the other IDs are unaffected; after
    [Delete] of it, it is found by neither; [Update] and [Delete] of an ID
    that is not stored return "governance agreement not found" and leave the
    store unchanged; [Update] of a stored ID replaces the agreement and
    leaves the index by application as it is. *)
Theorem agreement_store_laws r agreement :
  let id := GovernanceAgreement.ID agreement in
  let r' := Save r agreement in
  (FindByID r' id = Ok agreement
   /\ FindByApplicationID r' (GovernanceAgreement.ApplicationID agreement) = Ok agreement
   /\ Exists r' id = true
   /\ (forall other, other <> id -> FindByID r' other = FindByID r other))
  /\ (let '(r'', err) := Delete r' id in
      err = None
      /\ FindByID r'' id = Err "governance agreement not found"
      /\ Exists r'' id = false
      /\ FindByApplicationID r'' (GovernanceAgreement.ApplicationID agreement)
         = Err "governance agreement not found for application")
  /\ (agreements r !! id = None ->
      Update r agreement = (r, Some "governance agreement not found")
      /\ Delete r id = (r, Some "governance agreement not found")
      /\ FindByID r id = Err "governance agreement not found"
      /\ Exists r id = false)
  /\ (is_Some (agreements r !! id) ->
      let '(r'', err) := Update r agreement in
      err = None
      /\ FindByID r'' id = Ok agreement
      /\ byApplication r'' = byApplication r).
Proof.
  cbv zeta. unfold Update, Delete, FindByID, FindByApplicationID, Exists, Save. simpl.
  rewrite !lookup_insert_eq. simpl. rewrite ?lookup_insert_eq.
  split; [| split; [| split]].
  - repeat split.
    intros other Hne. rewrite lookup_insert_ne by congruence. reflexivity.
  - rewrite !lookup_delete_eq. repeat split.
  - intros ->. repeat split.
  - intros [stored ->]. simpl. rewrite lookup_insert_eq. repeat split.
Qed.

(** X17.  [Save] never removes an index entry: when an agreement is saved
    again under the same ID for a different application,
    [FindByApplicationID] for the former application still succeeds and
    returns the new agreement, which belongs to the other application. *)
Theorem FindByApplicationID_stale_index r agreement agreement' :
  GovernanceAgreement.ID agreement' = GovernanceAgreement.ID agreement ->
  GovernanceAgreement.ApplicationID agreement'
  <> GovernanceAgreement.ApplicationID agreement ->
  FindByApplicationID (Save (Save r agreement) agreement')
    (GovernanceAgreement.ApplicationID agreement) = Ok agreement'.
Proof.
  intros Hid Happ. unfold FindByApplicationID, Save. simpl.
  rewrite lookup_insert_ne by assumption.
  rewrite lookup_insert_eq, Hid, lookup_insert_eq. reflexivity.
Qed.

Lemma Delete_shared_index r agreement1 agreement2 :
  GovernanceAgreement.ApplicationID agreement1 = GovernanceAgreement.ApplicationID agreement2 ->
  GovernanceAgreement.ID agreement1 <> GovernanceAgreement.ID agreement2 ->
  let '(r', err) :=
    Delete (Save (Save r agreement1) agreement2) (GovernanceAgreement.ID agreement1) in
  err = None
  /\ FindByID r' (GovernanceAgreement.ID agreement2) = Ok agreement2
  /\ FindByApplicationID r' (GovernanceAgreement.ApplicationID agreement2)
     = Err "governance agreement not found for application".
Proof.
  intros Happ Hid. unfold Delete, FindByID, FindByApplicationID, Save. simpl.
  rewrite lookup_insert_ne by congruence. rewrite lookup_insert_eq. simpl.
  rewrite lookup_delete_ne by congruence. rewrite lookup_insert_eq.
  rewrite Happ, lookup_delete_eq. repeat split.
Qed.

Lemma applyAgreementOp_keys r op :
  (forall id agreement,
     agreements r !! id = Some agreement -> GovernanceAgreement.ID agreement = id) ->
  forall id agreement,
    agreements (applyAgreementOp r op) !! id = Some agreement ->
    GovernanceAgreement.ID agreement = id.
Proof.
  intros Hinv id agreement. destruct op as [saved | updated | deleted]; simpl.
  - destruct (decide (GovernanceAgreement.ID saved = id)) as [<- | Hne].
    + rewrite lookup_insert_eq. intros [= <-]. reflexivity.
    + rewrite lookup_insert_ne by assumption. apply Hinv.
  - unfold Update.
    destruct (agreements r !! GovernanceAgreement.ID updated); simpl; [| apply Hinv].
    destruct (decide (GovernanceAgreement.ID updated = id)) as [<- | Hne].
    + rewrite lookup_insert_eq. intros [= <-]. reflexivity.
    + rewrite lookup_insert_ne by assumption. apply Hinv.
  - unfold Delete.
    destruct (agreements r !! deleted); simpl; [| apply Hinv].
    destruct (decide (deleted = id)) as [<- | Hne].
    + rewrite lookup_delete_eq. discriminate.
    + rewrite lookup_delete_ne by assumption. apply Hinv.
Qed.

Lemma runAgreementOps_keys ops : forall r,
  (forall id agreement,
     agreements r !! id = Some agreement -> GovernanceAgreement.ID agreement = id) ->
  forall id agreement,
    agreements (fold_left applyAgreementOp ops r) !! id = Some agreement ->
    GovernanceAgreement.ID agreement = id.
Proof.
  induction ops as [|op rest IH]; intros r Hinv; simpl; [exact Hinv |].
  apply IH. apply applyAgreementOp_keys. exact Hinv.
Qed.

(** X18.  After any run of [Save], [Update] and [Delete] on a new
    agreement store, an agreement that [FindByID] returns has the requested
    ID. *)
Theorem FindByID_returns_requested_ID ops id agreement :
  FindByID (fold_left applyAgreementOp ops New) id = Ok agreement ->
  GovernanceAgreement.ID agreement = id.
Proof.
  unfold FindByID.
  destruct (agreements (fold_left applyAgreementOp ops New) !! id) as [stored|] eqn:H;
    [| discriminate].
  intros [= <-]. revert H. apply runAgreementOps_keys.
  intros ? ? H. simpl in H. rewrite lookup_empty in H. discriminate.
Qed.

End AgreementStore.

Section DeletedIndex.
Import EvaluationService.

(** X19.  When two agreements of the same application are saved and the
    first is deleted, [Delete] removes the index entry of the application
    although it pointed to the second: the second agreement is still found
    by its ID, [FindByApplicationID] fails, and [EvaluateApplication] for
    the application returns a NotFound error. *)
Theorem EvaluateApplication_after_shared_Delete apps r portfolios agreement1 agreement2
    now evaluator :
  GovernanceAgreement.ApplicationID agreement1 = GovernanceAgreement.ApplicationID agreement2 ->
  GovernanceAgreement.ID agreement1 <> GovernanceAgreement.ID agreement2 ->
  let '(r', err) :=
    GovernanceAgreementRepositoryMemory.Delete
      (GovernanceAgreementRepositoryMemory.Save
         (GovernanceAgreementRepositoryMemory.Save r agreement1) agreement2)
      (GovernanceAgreement.ID agreement1) in
  err = None
  /\ GovernanceAgreementRepositoryMemory.FindByID r' (GovernanceAgreement.ID agreement2)
     = Ok agreement2
  /\ GovernanceAgreementRepositoryMemory.FindByApplicationID r'
       (GovernanceAgreement.ApplicationID agreement2)
     = Err "governance agreement not found for application"
  /\ exists err',
       EvaluateApplication (memoryEvaluationService apps r' portfolios) now
         (GovernanceAgreement.ApplicationID agreement2) evaluator = Err err'
       /\ isNotFound err' = true.
Proof.
  intros Happ Hid.
  pose proof (Delete_shared_index r agreement1 agreement2 Happ Hid) as H.
  destruct (GovernanceAgreementRepositoryMemory.Delete _ _) as [r' err].
  destruct H as (Herr & Hfind & Hindex).
  repeat split; try assumption.
  rewrite EvaluateApplication_cases, Hindex.
  destruct (ApplicationRepositoryMemory.applications apps !! _);
    eexists; split; reflexivity.
Qed.

End DeletedIndex.

Section ApplicationStore.
Import ApplicationRepositoryMemory.

Lemma runApplicationOps_portfolios ops : forall r,
  portfolios (fold_left applyApplicationOp ops r) = portfolios r.
Proof.
  induction ops as [|op rest IH]; intros r; simpl; [reflexivity |].
  rewrite IH. destruct op as [saved | updated | deleted]; simpl.
  - reflexivity.
  - unfold Update. destruct (applications r !! Application.ID updated); reflexivity.
  - unfold Delete. destruct (applications r !! deleted); reflexivity.
Qed.

(** X20.  No operation of the application store writes its index by
    portfolio: after any run of [Save], [Update] and [Delete] on a new
    store, [FindByPortfolioID] returns the empty list for every portfolio
    ID. *)
Theorem FindByPortfolioID_always_empty ops portfolioID :
  FindByPortfolioID (fold_left applyApplicationOp ops New) portfolioID = Ok [].
Proof.
  unfold FindByPortfolioID. rewrite runApplicationOps_portfolios. simpl.
  rewrite lookup_empty. reflexivity.
Qed.

(** The application store: [Save] then [FindByID], [Update] and
    [Delete] of the saved application, and the errors for an ID that is no
    longer stored. *)
Lemma application_store_round_trip r app :
  let id := Application.ID app in
  let r' := Save r app in
  FindByID r' id = Ok app
  /\ Exists r' id = true
  /\ (forall other, other <> id -> FindByID r' other = FindByID r other)
  /\ (forall app', Application.ID app' = id ->
        let '(r'', err) := Update r' app' in
        err = None /\ FindByID r'' id = Ok app')
  /\ (let '(r'', err) := Delete r' id in
      err = None
      /\ FindByID r'' id = Err "application not found"
      /\ Exists r'' id = false
      /\ Update r'' app = (r'', Some "application not found")
      /\ Delete r'' id = (r'', Some "application not found")).
Proof.
  cbv zeta. unfold Update, Delete, FindByID, Exists, Save. simpl.
  rewrite !lookup_insert_eq. simpl.
  repeat split.
  - intros other Hne. rewrite lookup_insert_ne by congruence. reflexivity.
  - intros app' ->. rewrite lookup_insert_eq. simpl. rewrite lookup_insert_eq.
    split; reflexivity.
  - rewrite lookup_delete_eq. reflexivity.
  - rewrite lookup_delete_eq. reflexivity.
  - rewrite lookup_delete_eq. reflexivity.
  - rewrite lookup_delete_eq. reflexivity.
Qed.

End ApplicationStore.

Section PortfolioStore.
Import ApplicationPortfolioRepositoryMemory.

(** X21.  [Save] of the portfolio store appends to the owner index on
    every call: saving the same portfolio a second time leaves [FindByID]
    as it is and makes [FindByOwner] list the portfolio once more. *)
Theorem Save_again_listed_again r portfolio :
  let r1 := Save r portfolio in
  let r2 := Save r1 portfolio in
  FindByID r2 (ApplicationPortfolio.ID portfolio) = FindByID r1 (ApplicationPortfolio.ID portfolio)
  /\ exists listed,
       FindByOwner r1 (ApplicationPortfolio.Owner portfolio) = Ok (listed ++ [portfolio])
       /\ FindByOwner r2 (ApplicationPortfolio.Owner portfolio)
          = Ok (listed ++ [portfolio; portfolio]).
Proof.
  cbv zeta. unfold FindByOwner, FindByID, Save. simpl.
  rewrite !lookup_insert_eq. simpl. rewrite insert_insert_eq.
  split; [reflexivity |].
  rewrite !fold_left_app. simpl. rewrite !lookup_insert_eq.
  eexists. split; [reflexivity |]. rewrite <- app_assoc. reflexivity.
Qed.

(** X22.  In the portfolio store, [RemoveApplication] undoes a successful
    [AddApplication]: the store is exactly as it was before the two
    calls. *)
Theorem AddApplication_RemoveApplication_store r portfolioID appID r' :
  AddApplication r portfolioID appID = (r', None) ->
  RemoveApplication r' portfolioID appID = (r, None).
Proof.
  unfold AddApplication, RemoveApplication.
  destruct (portfolios r !! portfolioID) as [portfolio|] eqn:Hfind; [| discriminate].
  destruct (ApplicationPortfolio.has_ID _ appID) eqn:Hhas; [discriminate |].
  intros [= <-]. simpl. rewrite lookup_insert_eq. simpl.
  assert (Hnot : ~ In (Application.ID (placeholderApp appID))
                   (map Application.ID (ApplicationPortfolio.Applications portfolio))).
  { simpl. rewrite <- has_ID_In, Hhas. discriminate. }
  destruct (indexOfID_snoc _ _ Hnot) as [Hidx Hrem]. simpl in Hidx.
  rewrite Hidx, Hrem. rewrite insert_insert_eq.
  replace (ApplicationPortfolio.with_Applications _ _) with portfolio
    by (destruct portfolio; reflexivity).
  rewrite insert_id by assumption. destruct r; reflexivity.
Qed.

End PortfolioStore.

Section EventStore.
Import DomainEventRepositoryMemory.

Lemma fold_left_filter {A} (p : A -> bool) (l : list A) : forall acc,
  fold_left (fun found x => if p x then found ++ [x] else found) l acc
  = acc ++ List.filter p l.
Proof.
  induction l as [|x l IH]; intros acc; simpl.
  - rewrite app_nil_r. reflexivity.
  - rewrite IH. destruct (p x); [rewrite <- app_assoc |]; reflexivity.
Qed.

Lemma fold_left_snoc {A} (l : list A) : forall acc,
  fold_left (fun found x => found ++ [x]) l acc = acc ++ l.
Proof.
  induction l as [|x l IH]; intros acc; simpl.
  - rewrite app_nil_r. reflexivity.
  - rewrite IH, <- app_assoc. reflexivity.
Qed.

(** X23.  The event store keeps the events in the order of saving.
    [FindByAggregateID] returns all of them whatever the aggregate ID,
    [FindByEventType] those of the given type and [FindByTimeRange] those
    strictly between the two instants: an event that occurred exactly at
    the start or at the end of the range is left out.  [Delete] changes
    nothing. *)
Theorem event_store_queries r event aggregateID eventType start finish :
  FindByAggregateID (Save r event) aggregateID = Ok (events r ++ [event])
  /\ FindByEventType r eventType
     = Ok (List.filter (fun e => String.eqb (Event.EventType e) eventType) (events r))
  /\ FindByTimeRange r start finish
     = Ok (List.filter (fun e => (start <? Event.Time e) && (Event.Time e <? finish))
             (events r))
  /\ (Event.Time event = start \/ Event.Time event = finish ->
      FindByTimeRange (Save r event) start finish = FindByTimeRange r start finish)
  /\ Delete r aggregateID = r.
Proof.
  unfold FindByAggregateID, FindByEventType, FindByTimeRange, Save, Delete,
    time.After, time.Before. simpl.
  rewrite fold_left_snoc, !fold_left_filter. simpl.
  repeat split.
  intros H. rewrite ?fold_left_filter, List.filter_app. simpl.
  destruct H as [-> | ->].
  - rewrite Z.ltb_irrefl. simpl. rewrite app_nil_r. reflexivity.
  - rewrite Z.ltb_irrefl, andb_false_r. simpl. rewrite app_nil_r. reflexivity.
Qed.

End EventStore.

Section GovernanceLifecycle.
Import GovernanceService.

(** X24.  On a stored agreement, the application service and the
    aggregate implement the same transitions: [ApproveGovernanceAgreement]
    and [ActivateGovernanceAgreement] fail exactly when [Approve] and
    [Activate] fail, with the same message and without changing the stores,
    and on success they store the agreement that the aggregate produces and
    append the event that the aggregate records. *)
Theorem service_transitions now w agreementID agreement :
  GovernanceAgreementRepositoryMemory.agreements (Stores.agreementRepo w) !! agreementID
  = Some agreement ->
  GovernanceAgreement.ID agreement = agreementID ->
  let a := {| GovernanceAgreementAggregate.agreement := agreement;
              GovernanceAgreementAggregate.domainEvents := [] |} in
  (let '(a', err) := GovernanceAgreementAggregate.Approve now a in
   let '(w', outcome) := ApproveGovernanceAgreement now w agreementID in
   match err with
   | Some e => outcome = Err e /\ w' = w
   | None =>
       outcome = Ok tt
       /\ GovernanceAgreementRepositoryMemory.FindByID (Stores.agreementRepo w') agreementID
          = Ok (GovernanceAgreementAggregate.agreement a')
       /\ DomainEventRepositoryMemory.events (Stores.eventRepo w')
          = DomainEventRepositoryMemory.events (Stores.eventRepo w)
            ++ GovernanceAgreementAggregate.domainEvents a'
   end)
  /\ (let '(a', err) := GovernanceAgreementAggregate.Activate now a in
      let '(w', outcome) := ActivateGovernanceAgreement now w agreementID in
      match err with
      | Some e => outcome = Err e /\ w' = w
      | None =>
          outcome = Ok tt
          /\ GovernanceAgreementRepositoryMemory.FindByID (Stores.agreementRepo w')
               agreementID
             = Ok (GovernanceAgreementAggregate.agreement a')
          /\ DomainEventRepositoryMemory.events (Stores.eventRepo w')
             = DomainEventRepositoryMemory.events (Stores.eventRepo w)
               ++ GovernanceAgreementAggregate.domainEvents a'
      end).
Proof.
  intros Hfind Hid. cbv zeta.
  unfold GovernanceAgreementAggregate.Approve, GovernanceAgreementAggregate.Activate,
    ApproveGovernanceAgreement, ActivateGovernanceAgreement,
    GovernanceAgreementRepositoryMemory.FindByID,
    GovernanceAgreementRepositoryMemory.Update.
  simpl. rewrite Hfind. rewrite Hid, Hfind.
  split.
  - destruct (String.eqb (GovernanceAgreement.Status agreement) AgreementDraft); simpl.
    + rewrite lookup_insert_eq. repeat split.
    + split; reflexivity.
  - destruct (String.eqb (GovernanceAgreement.Status agreement) AgreementApproved); simpl.
    + rewrite lookup_insert_eq. repeat split.
    + split; reflexivity.
Qed.

Lemma Approve_step now w (id : GovernanceAgreementID) agreement :
  GovernanceAgreementRepositoryMemory.agreements (Stores.agreementRepo w) !! id
  = Some agreement ->
  GovernanceAgreement.ID agreement = id ->
  if String.eqb (GovernanceAgreement.Status agreement) AgreementDraft
  then exists w',
      ApproveGovernanceAgreement now w id = (w', Ok tt)
      /\ GovernanceAgreementRepositoryMemory.agreements (Stores.agreementRepo w') !! id
         = Some (GovernanceAgreement.with_UpdatedAt now
                   (GovernanceAgreement.with_Status AgreementApproved agreement))
      /\ GovernanceAgreementRepositoryMemory.byApplication (Stores.agreementRepo w')
         = GovernanceAgreementRepositoryMemory.byApplication (Stores.agreementRepo w)
      /\ DomainEventRepositoryMemory.events (Stores.eventRepo w')
         = DomainEventRepositoryMemory.events (Stores.eventRepo w)
           ++ [GovernanceAgreementApprovedEvent id now]
  else ApproveGovernanceAgreement now w id
       = (w, Err "only draft agreements can be approved").
Proof.
  intros Hfind Hid.
  unfold ApproveGovernanceAgreement, GovernanceAgreementRepositoryMemory.FindByID,
    GovernanceAgreementRepositoryMemory.Update.
  rewrite Hfind. simpl. rewrite Hid, Hfind.
  destruct (String.eqb (GovernanceAgreement.Status agreement) AgreementDraft); simpl.
  - eexists. split; [reflexivity |]. simpl. rewrite lookup_insert_eq. repeat split.
  - reflexivity.
Qed.

Lemma Activate_step now w (id : GovernanceAgreementID) agreement :
  GovernanceAgreementRepositoryMemory.agreements (Stores.agreementRepo w) !! id
  = Some agreement ->
  GovernanceAgreement.ID agreement = id ->
  if String.eqb (GovernanceAgreement.Status agreement) AgreementApproved
  then exists w',
      ActivateGovernanceAgreement now w id = (w', Ok tt)
      /\ GovernanceAgreementRepositoryMemory.agreements (Stores.agreementRepo w') !! id
         = Some (GovernanceAgreement.with_UpdatedAt now
                   (GovernanceAgreement.with_Status AgreementActive agreement))
      /\ GovernanceAgreementRepositoryMemory.byApplication (Stores.agreementRepo w')
         = GovernanceAgreementRepositoryMemory.byApplication (Stores.agreementRepo w)
      /\ DomainEventRepositoryMemory.events (Stores.eventRepo w')
         = DomainEventRepositoryMemory.events (Stores.eventRepo w)
           ++ [GovernanceAgreementActivatedEvent id now]
  else ActivateGovernanceAgreement now w id
       = (w, Err "only approved agreements can be activated").
Proof.
  intros Hfind Hid.
  unfold ActivateGovernanceAgreement, GovernanceAgreementRepositoryMemory.FindByID,
    GovernanceAgreementRepositoryMemory.Update.
  rewrite Hfind. simpl. rewrite Hid, Hfind.
  destruct (String.eqb (GovernanceAgreement.Status agreement) AgreementApproved); simpl.
  - eexists. split; [reflexivity |]. simpl. rewrite lookup_insert_eq. repeat split.
  - reflexivity.
Qed.

Lemma Create_step now w (id : GovernanceAgreementID) (applicationID : ApplicationID)
    (title : string) :
  is_Some (ApplicationRepositoryMemory.applications (Stores.appRepo w) !! applicationID) ->
  id <> "" -> applicationID <> "" -> title <> "" ->
  exists w' created,
    CreateGovernanceAgreement now w id applicationID title = (w', Ok created)
    /\ GovernanceAgreement.ID created = id
    /\ GovernanceAgreement.ApplicationID created = applicationID
    /\ GovernanceAgreement.Status created = AgreementDraft
    /\ GovernanceAgreementRepositoryMemory.agreements (Stores.agreementRepo w') !! id
       = Some created
    /\ GovernanceAgreementRepositoryMemory.byApplication (Stores.agreementRepo w')
       !! applicationID = Some id
    /\ DomainEventRepositoryMemory.events (Stores.eventRepo w')
       = DomainEventRepositoryMemory.events (Stores.eventRepo w)
         ++ [GovernanceAgreementCreatedEvent id applicationID title now].
Proof.
  intros [app Happ] Hid Happid Htitle.
  unfold CreateGovernanceAgreement, ApplicationRepositoryMemory.FindByID.
  rewrite Happ.
  unfold GovernanceAgreementAggregate.NewGovernanceAgreementAggregate.
  destruct (String.eqb_spec id ""); [contradiction |].
  destruct (String.eqb_spec applicationID ""); [contradiction |].
  destruct (String.eqb_spec title ""); [contradiction |].
  do 2 eexists. split; [reflexivity |]. simpl.
  rewrite !lookup_insert_eq. repeat split.
Qed.

(** X25.  For a stored application and non-empty ID and title,
    [CreateGovernanceAgreement] stores a draft; activating it at once is
    refused, approving it succeeds, approving it again is refused and
    activating it succeeds.  The agreement is then found active by its ID
    and by its application, and the event store has gained the events
    Created, Approved, Activated in this order. *)
Theorem governance_lifecycle now1 now2 now3 w (id : GovernanceAgreementID)
    (applicationID : ApplicationID) (title : string) :
  is_Some (ApplicationRepositoryMemory.applications (Stores.appRepo w) !! applicationID) ->
  id <> "" -> applicationID <> "" -> title <> "" ->
  exists w1 w2 w3 created active,
    CreateGovernanceAgreement now1 w id applicationID title = (w1, Ok created)
    /\ GovernanceAgreement.Status created = AgreementDraft
    /\ ActivateGovernanceAgreement now2 w1 id
       = (w1, Err "only approved agreements can be activated")
    /\ ApproveGovernanceAgreement now2 w1 id = (w2, Ok tt)
    /\ ApproveGovernanceAgreement now3 w2 id
       = (w2, Err "only draft agreements can be approved")
    /\ ActivateGovernanceAgreement now3 w2 id = (w3, Ok tt)
    /\ GovernanceAgreementRepositoryMemory.FindByID (Stores.agreementRepo w3) id = Ok active
    /\ GovernanceAgreementRepositoryMemory.FindByApplicationID (Stores.agreementRepo w3)
         applicationID = Ok active
    /\ GovernanceAgreement.Status active = AgreementActive
    /\ GovernanceAgreement.ApplicationID active = applicationID
    /\ map Event.EventType (DomainEventRepositoryMemory.events (Stores.eventRepo w3))
       = map Event.EventType (DomainEventRepositoryMemory.events (Stores.eventRepo w))
         ++ ["GovernanceAgreementCreated"; "GovernanceAgreementApproved";
             "GovernanceAgreementActivated"].
Proof.
  intros Happ Hid Happid Htitle.
  destruct (Create_step now1 w id applicationID title Happ Hid Happid Htitle)
    as (w1 & created & Hcreate & Hcid & Hcapp & Hdraft & Hstored1 & Hindex1 & Hev1).
  pose proof (Activate_step now2 w1 id created Hstored1 Hcid) as Hearly.
  rewrite Hdraft in Hearly. simpl in Hearly.
  pose proof (Approve_step now2 w1 id created Hstored1 Hcid) as Happrove.
  rewrite Hdraft in Happrove. simpl in Happrove.
  destruct Happrove as (w2 & Happrove & Hstored2 & Hindex2 & Hev2).
  set (approved := GovernanceAgreement.with_UpdatedAt now2
                     (GovernanceAgreement.with_Status AgreementApproved created)) in *.
  pose proof (Approve_step now3 w2 id approved Hstored2 Hcid) as Hagain.
  simpl in Hagain.
  pose proof (Activate_step now3 w2 id approved Hstored2 Hcid) as Hactivate.
  simpl in Hactivate.
  destruct Hactivate as (w3 & Hactivate & Hstored3 & Hindex3 & Hev3).
  exists w1, w2, w3, created. eexists.
  repeat (split; [eassumption |]).
  unfold GovernanceAgreementRepositoryMemory.FindByID,
    GovernanceAgreementRepositoryMemory.FindByApplicationID.
  rewrite Hindex3, Hindex2, Hindex1, Hstored3.
  split; [reflexivity |]. split; [reflexivity |]. split; [reflexivity |].
  split; [exact Hcapp |].
  rewrite Hev3, Hev2, Hev1, !map_app, <- !app_assoc. reflexivity.
Qed.

End GovernanceLifecycle.

Section OwnerIndex.
Import ApplicationPortfolioRepositoryMemory.

Lemma fold_left_found {A} (m : gmap string A) (ids : list string) : forall acc,
  fold_left (fun found id =>
               match m !! id with
               | Some x => found ++ [x]
               | None => found
               end) ids acc
  = acc ++ omap (fun id => m !! id) ids.
Proof.
  induction ids as [|id ids IH]; intros acc; simpl.
  - rewrite app_nil_r. reflexivity.
  - rewrite IH. destruct (m !! id); [rewrite <- app_assoc |]; reflexivity.
Qed.

Lemma omap_lookup_length {A} (m m' : gmap string A) (ids : list string) :
  (forall id, is_Some (m' !! id) <-> is_Some (m !! id)) ->
  length (omap (fun id => m' !! id) ids) = length (omap (fun id => m !! id) ids).
Proof.
  intros Hdom. induction ids as [|id ids IH]; simpl; [reflexivity |].
  pose proof (Hdom id) as H.
  destruct (m' !! id) as [x'|]; destruct (m !! id) as [x|]; simpl;
    [f_equal; exact IH | | | exact IH].
  - exfalso. destruct (proj1 H (ex_intro _ _ eq_refl)) as [? ?]. discriminate.
  - exfalso. destruct (proj2 H (ex_intro _ _ eq_refl)) as [? ?]. discriminate.
Qed.

(** Saving a portfolio under an ID that is stored lists it once more. *)
Lemma Save_stored_listing r portfolio :
  is_Some (portfolios r !! ApplicationPortfolio.ID portfolio) ->
  exists listed listed',
    FindByOwner r (ApplicationPortfolio.Owner portfolio) = Ok listed
    /\ FindByOwner (Save r portfolio) (ApplicationPortfolio.Owner portfolio)
       = Ok (listed' ++ [portfolio])
    /\ length listed' = length listed.
Proof.
  intros Hstored. unfold FindByOwner, Save. simpl.
  rewrite lookup_insert_eq, fold_left_app. simpl. rewrite lookup_insert_eq.
  rewrite fold_left_found. simpl.
  destruct (byOwner r !! ApplicationPortfolio.Owner portfolio) as [ids|]; simpl.
  - rewrite fold_left_found. simpl. do 2 eexists.
    split; [reflexivity |]. split; [reflexivity |].
    apply omap_lookup_length. intros id.
    destruct (decide (ApplicationPortfolio.ID portfolio = id)) as [<- | Hne].
    + rewrite lookup_insert_eq. split; [intros _; exact Hstored | eauto].
    + rewrite lookup_insert_ne by assumption. reflexivity.
  - exists [], []. repeat split.
Qed.

End OwnerIndex.

Section PortfolioServiceProperties.
Import PortfolioService.

(** X26.  [CreatePortfolio] succeeds exactly when the ID, the name and
    the owner are not empty, and otherwise changes nothing.  It does not
    check whether the ID is in use: the new portfolio, without members,
    replaces whatever was stored under the ID, is the last one listed for
    its owner, and one PortfolioCreated event is appended. *)
Theorem CreatePortfolio_outcome now w (id : PortfolioID) (name description owner : string) :
  match CreatePortfolio now w id name description owner with
  | (w', Ok portfolio) =>
      id <> "" /\ name <> "" /\ owner <> ""
      /\ ApplicationPortfolio.Applications portfolio = []
      /\ ApplicationPortfolioRepositoryMemory.FindByID (Stores.portfolioRepo w') id
         = Ok portfolio
      /\ (exists listed, ListPortfoliosByOwner w' owner = Ok (listed ++ [portfolio]))
      /\ DomainEventRepositoryMemory.events (Stores.eventRepo w')
         = DomainEventRepositoryMemory.events (Stores.eventRepo w)
           ++ [PortfolioCreatedEvent id name owner now]
  | (w', Err err) =>
      w' = w /\ (id = "" \/ name = "" \/ owner = "")
      /\ hasSuffix err "cannot be empty" = true
  | (w', Panic) => False
  end.
Proof.
  unfold CreatePortfolio, ApplicationPortfolioAggregate.NewApplicationPortfolioAggregate.
  destruct (String.eqb_spec id ""); [repeat split; auto |].
  destruct (String.eqb_spec name ""); [repeat split; auto |].
  destruct (String.eqb_spec owner ""); [repeat split; auto |].
  simpl. unfold ListPortfoliosByOwner, ApplicationPortfolioRepositoryMemory.FindByOwner,
    ApplicationPortfolioRepositoryMemory.FindByID. simpl.
  rewrite !lookup_insert_eq. rewrite fold_left_app. simpl. rewrite lookup_insert_eq.
  repeat split; try assumption. eexists. reflexivity.
Qed.

(** X27.  When [AddApplicationToPortfolio] succeeds, the application and
    the portfolio were stored, the application's agreement was found, no
    member had the application's ID, the stored portfolio has gained the
    stored application as its last member, one ApplicationAddedToPortfolio
    event is appended, and the application and agreement stores are
    unchanged. *)
Theorem AddApplicationToPortfolio_outcome now w (portfolioID : PortfolioID)
    (applicationID : ApplicationID) w' :
  AddApplicationToPortfolio now w portfolioID applicationID = (w', Ok tt) ->
  exists app portfolio,
    ApplicationRepositoryMemory.FindByID (Stores.appRepo w) applicationID = Ok app
    /\ is_Ok (GovernanceAgreementRepositoryMemory.FindByApplicationID
                (Stores.agreementRepo w) applicationID) = true
    /\ ApplicationPortfolioRepositoryMemory.FindByID (Stores.portfolioRepo w) portfolioID
       = Ok portfolio
    /\ ~ In applicationID (map Application.ID (ApplicationPortfolio.Applications portfolio))
    /\ ApplicationPortfolioRepositoryMemory.FindByID (Stores.portfolioRepo w')
         (ApplicationPortfolio.ID portfolio)
       = Ok (ApplicationPortfolio.with_UpdatedAt now
               (ApplicationPortfolio.with_Applications
                  (ApplicationPortfolio.Applications portfolio ++ [app]) portfolio))
    /\ DomainEventRepositoryMemory.events (Stores.eventRepo w')
       = DomainEventRepositoryMemory.events (Stores.eventRepo w)
         ++ [ApplicationAddedToPortfolioEvent portfolioID applicationID
               (Application.Name app) (Application.GovernanceAgreementID app) now]
    /\ Stores.appRepo w' = Stores.appRepo w
    /\ Stores.agreementRepo w' = Stores.agreementRepo w.
Proof.
  unfold AddApplicationToPortfolio.
  destruct (ApplicationRepositoryMemory.FindByID _ applicationID) as [app|e|];
    [| discriminate | discriminate].
  destruct (GovernanceAgreementRepositoryMemory.FindByApplicationID _ applicationID)
    as [agreement|e|]; [| discriminate | discriminate].
  destruct (ApplicationPortfolioRepositoryMemory.FindByID _ portfolioID)
    as [portfolio|e|]; [| discriminate | discriminate].
  destruct (ApplicationPortfolio.has_ID _ applicationID) eqn:Hhas; [discriminate |].
  intros [= <-]. exists app, portfolio. simpl.
  unfold ApplicationPortfolioRepositoryMemory.FindByID. simpl.
  rewrite lookup_insert_eq.
  repeat split. rewrite <- has_ID_In, Hhas. discriminate.
Qed.

(** X28.  [UpdatePortfolio] replaces the name and the description and
    keeps the members.  It writes through [Save], so the owner index gains
    an entry: for a portfolio stored under its own ID, the portfolios
    listed for the owner are one more than before, the updated portfolio
    being the last. *)
Theorem UpdatePortfolio_listed_again now w (id : PortfolioID) (name description : string)
    w' :
  UpdatePortfolio now w id name description = (w', Ok tt) ->
  exists portfolio listed listed' updated,
    ApplicationPortfolioRepositoryMemory.FindByID (Stores.portfolioRepo w) id = Ok portfolio
    /\ ApplicationPortfolio.Name updated = name
    /\ ApplicationPortfolio.Description updated = description
    /\ ApplicationPortfolio.Applications updated = ApplicationPortfolio.Applications portfolio
    /\ (ApplicationPortfolio.ID portfolio = id ->
        ApplicationPortfolioRepositoryMemory.FindByID (Stores.portfolioRepo w') id
        = Ok updated
        /\ ListPortfoliosByOwner w (ApplicationPortfolio.Owner portfolio) = Ok listed
        /\ ListPortfoliosByOwner w' (ApplicationPortfolio.Owner portfolio)
           = Ok (listed' ++ [updated])
        /\ length listed' = length listed).
Proof.
  unfold UpdatePortfolio, ApplicationPortfolioRepositoryMemory.FindByID.
  destruct (ApplicationPortfolioRepositoryMemory.portfolios (Stores.portfolioRepo w) !! id)
    as [portfolio|] eqn:Hfind; [| discriminate].
  intros [= <-].
  set (updated := {| ApplicationPortfolio.ID := ApplicationPortfolio.ID portfolio;
                     ApplicationPortfolio.Name := name;
                     ApplicationPortfolio.Description := description;
                     ApplicationPortfolio.Owner := ApplicationPortfolio.Owner portfolio;
                     ApplicationPortfolio.Applications :=
                       ApplicationPortfolio.Applications portfolio;
                     ApplicationPortfolio.KPIs := ApplicationPortfolio.KPIs portfolio;
                     ApplicationPortfolio.CreatedAt :=
                       ApplicationPortfolio.CreatedAt portfolio;
                     ApplicationPortfolio.UpdatedAt := now |}).
  destruct (decide (ApplicationPortfolio.ID portfolio = id)) as [Hid | Hid].
  - destruct (Save_stored_listing (Stores.portfolioRepo w) updated)
      as (listed & listed' & Hl & Hl' & Hlen).
    { simpl. rewrite Hid, Hfind. eauto. }
    exists portfolio, listed, listed', updated.
    repeat split; try reflexivity.
    + simpl. rewrite Hid. rewrite lookup_insert_eq. reflexivity.
    + unfold ListPortfoliosByOwner. simpl in Hl. rewrite Hl. reflexivity.
    + unfold ListPortfoliosByOwner. simpl in Hl'. simpl. rewrite Hl'. reflexivity.
    + exact Hlen.
  - exists portfolio, [], [], updated. repeat split; try reflexivity; contradiction.
Qed.

(** [DeletePortfolio] refuses a portfolio that has members and
    deletes one that has none. *)
Lemma DeletePortfolio_outcome w (portfolioID : PortfolioID) :
  match ApplicationPortfolioRepositoryMemory.portfolios (Stores.portfolioRepo w)
        !! portfolioID with
  | None =>
      DeletePortfolio w portfolioID
      = (w, Err "portfolio not found: portfolio not found")
  | Some portfolio =>
      if 0 <? len (ApplicationPortfolio.Applications portfolio)
      then DeletePortfolio w portfolioID
           = (w, Err "cannot delete portfolio with applications")
      else exists w',
          DeletePortfolio w portfolioID = (w', Ok tt)
          /\ ApplicationPortfolioRepositoryMemory.FindByID (Stores.portfolioRepo w')
               portfolioID = Err "portfolio not found"
          /\ ApplicationPortfolioRepositoryMemory.Exists (Stores.portfolioRepo w')
               portfolioID = false
          /\ Stores.eventRepo w' = Stores.eventRepo w
  end.
Proof.
  unfold DeletePortfolio, ApplicationPortfolioRepositoryMemory.FindByID,
    ApplicationPortfolioRepositoryMemory.Delete,
    ApplicationPortfolioRepositoryMemory.Exists.
  destruct (ApplicationPortfolioRepositoryMemory.portfolios (Stores.portfolioRepo w)
              !! portfolioID) as [portfolio|] eqn:Hfind; [| reflexivity].
  destruct (0 <? len (ApplicationPortfolio.Applications portfolio)); [reflexivity |].
  eexists. split; [reflexivity |]. simpl. rewrite lookup_delete_eq. repeat split.
Qed.

End PortfolioServiceProperties.

Section SDKScorer.
Import SDKEvaluationService.

(** X29.  In the SDK's evaluation service the technical health depends on
    three signals only.  The score is between 2 and 5; CodeQuality,
    Documentation, SecurityScore and PerformanceScore all equal it and
    TestCoverage is twenty times it.  The risk level is Critical, High,
    Medium, Low for the scores 2, 3, 4, 5, and the recommendations are
    sec-001, tech-001, risk-001 for the score 2 and none otherwise. *)
Theorem SDK_assessment_by_score app :
  let th := assessTechnicalHealth app in
  let bv := assessBusinessValue app in
  let level := EvaluationService.determineRiskLevel th bv in
  let score := sdkScore app in
  2 <= score <= 5
  /\ TechnicalHealth.CodeQuality th = score
  /\ TechnicalHealth.Documentation th = score
  /\ TechnicalHealth.SecurityScore th = score
  /\ TechnicalHealth.PerformanceScore th = score
  /\ TechnicalHealth.TestCoverage th = F64.of_int (score * 20)
  /\ level = (if score =? 2 then RiskCritical
              else if score =? 3 then RiskHigh
              else if score =? 4 then RiskMedium else RiskLow)
  /\ recommendationIDs (EvaluationService.generateRecommendations th bv level)
     = (if score =? 2 then ["sec-001"; "tech-001"; "risk-001"] else []).
Proof.
  cbv zeta. unfold assessTechnicalHealth, assessBusinessValue, sdkScore.
  destruct (0 <? len (SecurityProvisions.DataConfidentiality _));
    destruct (0 <? len (SecurityProvisions.DataIntegrity _));
    destruct (time.IsZero _); vm_compute; repeat split; congruence.
Qed.

End SDKScorer.

Section Direction.
Import DirectionService.

(** The two operations of the direction service on a missing and on
    a stored agreement. *)
Lemma DirectionService_outcome r (agreementID : GovernanceAgreementID) director
    objectives allocations :
  match GovernanceAgreementRepositoryMemory.agreements r !! agreementID with
  | None =>
      SetStrategicDirection r agreementID director objectives
      = (r, Err "failed to find governance agreement: governance agreement not found")
      /\ AllocateResources r agreementID allocations
         = (r, Err "failed to find governance agreement: governance agreement not found")
  | Some agreement =>
      GovernanceAgreement.ID agreement = agreementID ->
      (exists r',
         SetStrategicDirection r agreementID director objectives = (r', Ok tt)
         /\ GovernanceAgreementRepositoryMemory.FindByID r' agreementID
            = Ok (GovernanceAgreement.with_Objectives objectives agreement)
         /\ GovernanceAgreementRepositoryMemory.byApplication r'
            = GovernanceAgreementRepositoryMemory.byApplication r)
      /\ (exists r',
            AllocateResources r agreementID allocations = (r', Ok tt)
            /\ GovernanceAgreementRepositoryMemory.FindByID r' agreementID
               = Ok (GovernanceAgreement.with_BudgetAllocations allocations agreement)
            /\ GovernanceAgreementRepositoryMemory.byApplication r'
               = GovernanceAgreementRepositoryMemory.byApplication r)
  end.
Proof.
  unfold SetStrategicDirection, AllocateResources,
    GovernanceAgreementRepositoryMemory.FindByID,
    GovernanceAgreementRepositoryMemory.Update.
  destruct (GovernanceAgreementRepositoryMemory.agreements r !! agreementID)
    as [agreement|] eqn:Hfind; [| split; reflexivity].
  intros Hid. simpl. rewrite Hid, Hfind.
  split; eexists; (split; [reflexivity |]); simpl; rewrite lookup_insert_eq; split;
    reflexivity.
Qed.





End Direction.

(** * The further properties on the sample data *)

(** X4 on the sample portfolio: a placeholder for "a3" raises the total
    from 2 to 3 and leaves the counts by status at 1 and 0. *)
Lemma EvaluatePortfolio_placeholder_member_witness :
  exists after,
    EvaluationService.EvaluatePortfolio
      (memoryEvaluationService sampleApplications sampleAgreements
         (fst (ApplicationPortfolioRepositoryMemory.AddApplication samplePortfolios
                 "p1" "a3"))) sampleNow "p1" = Ok after
    /\ PortfolioHealthAssessment.TotalApplications after = 3
    /\ PortfolioHealthAssessment.ActiveApplications after = 1
    /\ PortfolioHealthAssessment.DeprecatedApplications after = 0.
Proof.
  edestruct (EvaluatePortfolio_placeholder_member sampleApplications sampleAgreements
               samplePortfolios
               (fst (ApplicationPortfolioRepositoryMemory.AddApplication samplePortfolios
                       "p1" "a3")) sampleNow "p1" "a3")
    as (after & Hrun & Htotal & Hactive & Hdeprecated).
  { vm_compute. reflexivity. }
  { vm_compute. reflexivity. }
  exists after. split; [exact Hrun |].
  rewrite Htotal, Hactive, Hdeprecated. repeat split; vm_compute; reflexivity.
Defined.

(** X5 on the sample application ten days after its creation. *)
Lemma calculateAverageApplicationAge_bounded_witness :
  exists avgAge,
    EvaluationService.calculateAverageApplicationAge sampleNow [sampleApplication]
    = Ok avgAge
    /\ avgAge = totalAge sampleNow [sampleApplication] / len [sampleApplication]
    /\ 0 <= avgAge <= 10 * day.
Proof.
  apply (calculateAverageApplicationAge_bounded sampleNow [sampleApplication] (10 * day)).
  - discriminate.
  - apply Z.leb_le. vm_compute. reflexivity.
  - constructor; [| constructor].
    split; apply Z.leb_le; vm_compute; reflexivity.
Defined.

(** X6 on placeholders, whose creation date is unset. *)
Lemma calculateAverageApplicationAge_unset_witness :
  EvaluationService.calculateAverageApplicationAge sampleNow
    [ApplicationPortfolioRepositoryMemory.placeholderApp "a3"] = Ok time.maxDuration
  /\ EvaluationService.calculateAverageApplicationAge sampleNow
       [ApplicationPortfolioRepositoryMemory.placeholderApp "a3";
        ApplicationPortfolioRepositoryMemory.placeholderApp "a4"] = Ok (-1).
Proof.
  apply (calculateAverageApplicationAge_unset sampleNow
           (ApplicationPortfolioRepositoryMemory.placeholderApp "a3")
           (ApplicationPortfolioRepositoryMemory.placeholderApp "a4")).
  - apply Z.leb_le. vm_compute. reflexivity.
  - reflexivity.
  - reflexivity.
Defined.

Lemma emptyMeasurementRepository_returns id :
  KPIMeasurementRepository.FindLatest emptyMeasurementRepository id <> Panic.
Proof. discriminate. Qed.

Lemma sampleAgreement_stored :
  GovernanceAgreementRepositoryMemory.agreements sampleAgreements !! "g1"
  = Some sampleAgreement.
Proof. vm_compute. reflexivity. Qed.

(** X7 on the sample KPI with an empty measurement store. *)
Lemma MonitorKPIs_measures_each_KPI_witness :
  exists reported,
    MonitoringService.MonitorKPIs
      (memoryMonitoringService (Some sampleKPIRepository) (Some emptyMeasurementRepository)
         None sampleAgreements) sampleNow "g1" = Ok reported
    /\ Forall2 (reportedFor emptyMeasurementRepository sampleNow) [sampleKPI] reported.
Proof.
  exact (MonitorKPIs_measures_each_KPI emptyMeasurementRepository
           emptyMeasurementRepository_returns sampleKPIRepository None sampleAgreements
           sampleNow "g1" (ex_intro _ sampleAgreement sampleAgreement_stored)).
Defined.

(** X8 on the sample KPI: an efficiency KPI with target 10 and no
    measurement is reported as achieved. *)
Lemma MonitorKPIs_missing_measurement_witness :
  exists reported m,
    MonitoringService.MonitorKPIs
      (memoryMonitoringService (Some sampleKPIRepository) (Some emptyMeasurementRepository)
         None sampleAgreements) sampleNow "g1" = Ok reported
    /\ In m reported
    /\ KPIMeasurement.KPIID m = "k1"
    /\ KPIMeasurement.Achieved m = true.
Proof.
  destruct (MonitorKPIs_missing_measurement emptyMeasurementRepository
              emptyMeasurementRepository_returns sampleKPIRepository None sampleAgreements
              sampleNow "g1" [sampleKPI] sampleKPI "measurement not found"
              (ex_intro _ sampleAgreement sampleAgreement_stored) eq_refl
              (or_introl eq_refl) eq_refl)
    as (reported & m & Hrun & Hin & Hid & _ & Hachieved).
  exists reported, m. repeat split; assumption.
Defined.

(** X11 on a new aggregate to which the sample application is added twice:
    the second call is refused. *)
Lemma portfolio_aggregate_invariant_witness :
  exists a,
    ApplicationPortfolioAggregate.NewApplicationPortfolioAggregate sampleStart "p1" "P" "" "o"
    = Ok a
    /\ len (ApplicationPortfolioAggregate.domainEvents
              (addApplications a [(sampleNow, sampleApplication);
                                  (sampleLater, sampleApplication)]))
       = 1 + len (ApplicationPortfolio.Applications
                    (ApplicationPortfolioAggregate.portfolio
                       (addApplications a [(sampleNow, sampleApplication);
                                           (sampleLater, sampleApplication)]))).
Proof.
  eexists. split; [reflexivity |].
  apply (portfolio_aggregate_invariant sampleStart "p1" "P" "" "o" _
           [(sampleNow, sampleApplication); (sampleLater, sampleApplication)] eq_refl).
Defined.

(** X14 on the empty portfolio and the sample application. *)
Lemma AddApplication_RemoveApplication_witness :
  exists ap'',
    ApplicationPortfolio.RemoveApplication sampleLater
      (fst (ApplicationPortfolio.AddApplication sampleNow emptyPortfolio sampleApplication))
      "a1" = (ap'', None)
    /\ ApplicationPortfolio.Applications ap'' = [].
Proof.
  destruct (AddApplication_RemoveApplication sampleNow sampleLater emptyPortfolio
              sampleApplication
              (fst (ApplicationPortfolio.AddApplication sampleNow emptyPortfolio
                      sampleApplication)))
    as (ap'' & Hremove & Happs & _).
  { vm_compute. reflexivity. }
  exists ap''. split; [exact Hremove | exact Happs].
Defined.

Lemma samplePortfolio_distinct :
  NoDup (map Application.ID (ApplicationPortfolio.Applications samplePortfolio)).
Proof.
  simpl. apply NoDup_cons. split; [| apply NoDup_singleton].
  intros H. apply list_elem_of_singleton in H. discriminate H.
Qed.

(** X15 on the sample portfolio. *)
Lemma distinct_IDs_preserved_witness :
  NoDup (map Application.ID
           (ApplicationPortfolio.Applications
              (fst (ApplicationPortfolio.AddApplication sampleNow samplePortfolio
                      (sampleApplicationWith "a3" "Z" StatusActive))))).
Proof.
  apply (proj1 (distinct_IDs_preserved sampleNow samplePortfolio samplePortfolio_distinct)).
Defined.

(** X17 on the sample agreement, saved again for the application "a2". *)
Lemma FindByApplicationID_stale_index_witness :
  GovernanceAgreementRepositoryMemory.FindByApplicationID
    (GovernanceAgreementRepositoryMemory.Save
       (GovernanceAgreementRepositoryMemory.Save GovernanceAgreementRepositoryMemory.New
          sampleAgreement) (sampleAgreementWith "g1" "a2")) "a1"
  = Ok (sampleAgreementWith "g1" "a2").
Proof.
  apply (FindByApplicationID_stale_index GovernanceAgreementRepositoryMemory.New
           sampleAgreement (sampleAgreementWith "g1" "a2")).
  - reflexivity.
  - discriminate.
Defined.

(** X19 on two agreements "g1" and "g2" of the application "a1". *)
Lemma EvaluateApplication_after_shared_Delete_witness :
  let '(r', err) :=
    GovernanceAgreementRepositoryMemory.Delete
      (GovernanceAgreementRepositoryMemory.Save
         (GovernanceAgreementRepositoryMemory.Save GovernanceAgreementRepositoryMemory.New
            sampleAgreement) (sampleAgreementWith "g2" "a1"))
      (GovernanceAgreement.ID sampleAgreement) in
  err = None
  /\ GovernanceAgreementRepositoryMemory.FindByID r'
       (GovernanceAgreement.ID (sampleAgreementWith "g2" "a1"))
     = Ok (sampleAgreementWith "g2" "a1")
  /\ GovernanceAgreementRepositoryMemory.FindByApplicationID r'
       (GovernanceAgreement.ApplicationID (sampleAgreementWith "g2" "a1"))
     = Err "governance agreement not found for application"
  /\ exists err',
       EvaluationService.EvaluateApplication
         (memoryEvaluationService sampleApplications r' samplePortfolios) sampleNow
         (GovernanceAgreement.ApplicationID (sampleAgreementWith "g2" "a1")) "auditor"
       = Err err'
       /\ isNotFound err' = true.
Proof.
  apply (EvaluateApplication_after_shared_Delete sampleApplications
           GovernanceAgreementRepositoryMemory.New samplePortfolios sampleAgreement
           (sampleAgreementWith "g2" "a1") sampleNow "auditor").
  - reflexivity.
  - discriminate.
Defined.

(** X18 on a short run of the agreement store. *)
Lemma FindByID_returns_requested_ID_witness :
  GovernanceAgreementRepositoryMemory.FindByID
    (fold_left applyAgreementOp
       [SaveAgreement sampleAgreement; DeleteAgreement "g0";
        UpdateAgreement (sampleAgreementWith "g1" "a2")]
       GovernanceAgreementRepositoryMemory.New) "g1"
  = Ok (sampleAgreementWith "g1" "a2")
  /\ GovernanceAgreement.ID (sampleAgreementWith "g1" "a2") = "g1".
Proof.
  assert (H : GovernanceAgreementRepositoryMemory.FindByID
                (fold_left applyAgreementOp
                   [SaveAgreement sampleAgreement; DeleteAgreement "g0";
                    UpdateAgreement (sampleAgreementWith "g1" "a2")]
                   GovernanceAgreementRepositoryMemory.New) "g1"
              = Ok (sampleAgreementWith "g1" "a2")) by (vm_compute; reflexivity).
  split; [exact H |].
  exact (FindByID_returns_requested_ID _ _ _ H).
Defined.

(** X22 on the sample portfolio store. *)
Lemma AddApplication_RemoveApplication_store_witness :
  ApplicationPortfolioRepositoryMemory.RemoveApplication
    (fst (ApplicationPortfolioRepositoryMemory.AddApplication samplePortfolios "p1" "a3"))
    "p1" "a3" = (samplePortfolios, None).
Proof.
  apply (AddApplication_RemoveApplication_store samplePortfolios "p1" "a3").
  vm_compute. reflexivity.
Defined.

Lemma sampleStores_agreement :
  GovernanceAgreementRepositoryMemory.agreements (Stores.agreementRepo sampleStores) !! "g1"
  = Some sampleAgreement.
Proof. vm_compute. reflexivity. Qed.

(** X24 on the sample stores, whose agreement "g1" is a draft: approval
    succeeds and activation is refused, as in the aggregate. *)
Lemma service_transitions_witness :
  snd (GovernanceService.ApproveGovernanceAgreement sampleNow sampleStores "g1") = Ok tt
  /\ snd (GovernanceService.ActivateGovernanceAgreement sampleNow sampleStores "g1")
     = Err "only approved agreements can be activated".
Proof.
  destruct (service_transitions sampleNow sampleStores "g1" sampleAgreement
              sampleStores_agreement eq_refl) as [Happrove Hactivate].
  split.
  - destruct (GovernanceService.ApproveGovernanceAgreement sampleNow sampleStores "g1")
      as [w' outcome].
    simpl in Happrove. exact (proj1 Happrove).
  - destruct (GovernanceService.ActivateGovernanceAgreement sampleNow sampleStores "g1")
      as [w' outcome].
    simpl in Hactivate. exact (proj1 Hactivate).
Defined.

Lemma sampleStores_application :
  is_Some (ApplicationRepositoryMemory.applications (Stores.appRepo sampleStores) !! "a1").
Proof. exists sampleApplication. vm_compute. reflexivity. Qed.

(** X25 on the sample stores: a second agreement "g9" of the application
    "a1" is created, approved and activated. *)
Lemma governance_lifecycle_witness :
  exists w1 w2 w3 created active,
    GovernanceService.CreateGovernanceAgreement 1 sampleStores "g9" "a1" "T"
    = (w1, Ok created)
    /\ GovernanceService.ApproveGovernanceAgreement 2 w1 "g9" = (w2, Ok tt)
    /\ GovernanceService.ActivateGovernanceAgreement 3 w2 "g9" = (w3, Ok tt)
    /\ GovernanceAgreementRepositoryMemory.FindByID (Stores.agreementRepo w3) "g9"
       = Ok active
    /\ GovernanceAgreement.Status active = AgreementActive.
Proof.
  destruct (governance_lifecycle 1 2 3 sampleStores "g9" "a1" "T" sampleStores_application)
    as (w1 & w2 & w3 & created & active & Hcreate & _ & _ & Happrove & _ & Hactivate
        & Hfind & _ & Hstatus & _); try discriminate.
  exists w1, w2, w3, created, active. auto.
Defined.

(** X27 on the sample stores: the sample application joins the portfolio
    "p2", which has no members. *)
Lemma AddApplicationToPortfolio_outcome_witness :
  exists app portfolio,
    ApplicationRepositoryMemory.FindByID (Stores.appRepo sampleStores) "a1" = Ok app
    /\ ApplicationPortfolioRepositoryMemory.FindByID (Stores.portfolioRepo sampleStores) "p2"
       = Ok portfolio
    /\ ApplicationPortfolioRepositoryMemory.FindByID
         (Stores.portfolioRepo
            (fst (PortfolioService.AddApplicationToPortfolio sampleNow sampleStores
                    "p2" "a1")))
         (ApplicationPortfolio.ID portfolio)
       = Ok (ApplicationPortfolio.with_UpdatedAt sampleNow
               (ApplicationPortfolio.with_Applications
                  (ApplicationPortfolio.Applications portfolio ++ [app]) portfolio)).
Proof.
  destruct (AddApplicationToPortfolio_outcome sampleNow sampleStores "p2" "a1"
              (fst (PortfolioService.AddApplicationToPortfolio sampleNow sampleStores
                      "p2" "a1")))
    as (app & portfolio & Happ & _ & Hportfolio & _ & Hstored & _).
  { vm_compute. reflexivity. }
  exists app, portfolio. auto.
Defined.

(** X28 on the sample stores: the portfolio "p1" is renamed and is then
    listed once more for its owner. *)
Lemma UpdatePortfolio_listed_again_witness :
  exists portfolio listed listed' updated,
    ApplicationPortfolioRepositoryMemory.FindByID (Stores.portfolioRepo sampleStores) "p1"
    = Ok portfolio
    /\ ApplicationPortfolio.Name updated = "P2"
    /\ ApplicationPortfolio.Description updated = "renamed"
    /\ ApplicationPortfolio.Applications updated = ApplicationPortfolio.Applications portfolio
    /\ (ApplicationPortfolio.ID portfolio = "p1" ->
        ApplicationPortfolioRepositoryMemory.FindByID
          (Stores.portfolioRepo
             (fst (PortfolioService.UpdatePortfolio sampleNow sampleStores "p1" "P2"
                     "renamed"))) "p1" = Ok updated
        /\ PortfolioService.ListPortfoliosByOwner sampleStores
             (ApplicationPortfolio.Owner portfolio) = Ok listed
        /\ PortfolioService.ListPortfoliosByOwner
             (fst (PortfolioService.UpdatePortfolio sampleNow sampleStores "p1" "P2"
                     "renamed")) (ApplicationPortfolio.Owner portfolio)
           = Ok (listed' ++ [updated])
        /\ length listed' = length listed).
Proof.
  apply (UpdatePortfolio_listed_again sampleNow sampleStores "p1" "P2" "renamed").
  vm_compute. reflexivity.
Defined.


